(* ===== verification/_CoqProject ===== *)
-Q . S2P
Prelude.v
PyDict.v
Model.v
Geometry.v
Expander.v
Assembler.v
Retry.v
Service.v
Api.v
Request.v
Pydantic.v
Dicts.v
Tools.v
Endpoints.v
Scripts.v
Scenarios.v
