(* ===== verification/Prelude.v ===== *)
(** * Verification of the adaptive cutting-plan orchestrator (wood-opcut)

    The program is a FastAPI service, [src/app/main.py], that receives a
    cutting-stock request (panel types and item types with quantities,
    grain and decoration metadata, a saw kerf), expands it into individual
    rectangles, hands them to the external [opcut] packing library, retries
    with one more sheet of every panel type while the packer raises
    [UnresolvableError] and the total is below 50, and regroups the
    packer's flat answer into a per-panel response.  Beside it sit a
    smaller endpoint ([src/app.py]), a script that counts the placements
    of a stored result ([src/main.py]) and a script that hands a constant
    one-dimensional problem to an external solver and prints its answer
    ([src/main2.py]).

    ** The parts of the program and the files that model them

    The files are listed in dependency order.  A definition that models a
    function, a class or a variable of the source has its name; the
    fields of a record carry a prefix ([pi_name], [ii_width], [uj_panel])
    because projections share one name space, and the field [panels] of
    [CalculationResponse] is [resp_panels].

    - [Prelude] (this file): the Python run-time notions the program relies
      on, modelled once and shared: exceptions as values ([exn], and the
      monad [res] with the notation [x <- m ;; k] of scope [py_scope]),
      loops whose body may raise ([res_foldl], with the loop rule
      [res_foldl_spec]), [d[k]] and [l[0]] ([py_getitem], [py_head]),
      [str(int)] ([py_str], injective, with [py_int] as its inverse),
      [range] ([py_range]), [sum] ([py_sum]), [repr] of a [str]
      ([py_repr], exact on ASCII), the comparison of [str] ([str_le],
      [str_lt], a total order) and the stable [sorted(..., key=...)]:
      [sorted_by] for any order of the class [SortOrder], with
      [py_sorted] its instance for [str] keys; dicts filled in a loop
      ([dict_fill]); the tactics ([case_res], [break_hyps], [by_compute])
      and the hint databases [py] of the development.
    - [PyDict]: the insertion-ordered [dict] ([odict]: the list of items,
      oldest key first) with the operations the program uses ([od_get],
      [od_getitem], [od_set], [od_alter], [od_contains], [od_values],
      [od_of_list] for [dict(pairs)]), the invariant [od_wf] (keys
      pairwise distinct) that every operation keeps, and the refinement
      of [gmap] along the abstraction [od_to_map].
    - [Model]: the pydantic models of [src/app/main.py] lines 14-79 as
      records ([PanelInput], [ItemInput], [UserParams], [UsedItem],
      [UnusedArea], [PanelOutput], [CalculationResponse]), the values
      exchanged with the packing library ([Panel], [Item], [Params],
      [Method], [method_map], and the result dict [ResultJson] with its
      entries [UsedJson] and [UnusedJson]), and the interface to the
      library: the class [Packer] (the packing function and the clock) and
      the contract [PackerContract] (a result names only panels and items
      of its parameters).
    - [Geometry]: [CuttingOptimizer._transform_item_for_calculation] (lines
      91-113) and [CuttingOptimizer._transform_used_item_for_display]
      (lines 193-245), with [flip_engraved_line] and [rotate_borders] for
      the two parts of its cross-grain branch.
    - [Expander]: [_expand_panels], [_expand_items], [_create_item_mapping]
      and [_create_panel_mapping] (lines 115-179); the identifier
      [name_ordinal] is [unit_id].  The four functions are instances of one
      generic expansion (section [units]).
    - [Assembler]: [_build_panel_structure] and [transform_result] (lines
      181-191 and 247-311): [process_used] and [process_unused] are the
      bodies of the two loops over [panels_dict], [ensure_panel] their
      common first step.
    - [Retry]: [_increment_panel_quantities], [_get_total_panel_quantity]
      and [calculate] (lines 313-422).  [attempt] is the body of [try],
      [step] one round of [while True] (the state is [Attempting n p],
      attempt number and current request, or [Terminal response]),
      [calculate_loop] the loop, [exec] the loop as a relation that counts
      attempts, [reachable] the states of the loop as a transition system,
      [calculate_fuel] the loop with a bound on the rounds.
    - [Service]: no code of its own; the components composed into the
      statement of what a successful response says about the request
      ([panel_from_request], [item_from_request]).
    - [Api]: the handlers [calculate_optimization] (lines 438-470, with the
      assignment [panels[0].quantity = 1] as [set_first_quantity]) and
      [health_check].
    - [Request]: no code of its own; the conditions of the data model that
      the program relies on and never checks, as the decidable predicate
      [params_wf] (a panel type, pairwise distinct names, no negative
      number of sheets), its counterpart [opcut_params_wf] on what the
      packer is handed, and the invariant [state_wf] of the retry loop
      with the bound [supply_bound] on the sheets it can offer.
    - [Pydantic]: the models as pydantic runs them: the values of
      [json.loads] and [.dict()] ([pyval]), a validator per model
      ([validate_PanelInput], ...) with the declared defaults, an encoder
      per model ([dict_PanelInput], ...), the interface [Model] with the
      law that validating the dict of an instance returns it, and the
      declared types ([ptype], [has_type], [UserParams_type]).  What the
      library does with a value that is not of the type of its field
      depends on its version: it is the class [Pydantic], a parameter.
    - [Dicts]: the two functions that the source writes on plain dicts,
      statement by statement: [_increment_panel_quantities_dict] (lines
      318-326) and [transform_result_dict] (lines 247-311, with
      [panels_dict] a dict of dicts, [list_append] for the appends in
      place, [panels_list_of] for the sort by ["panel_id"] and the
      validation of every panel at line 284).
    - [Tools]: the endpoint [calculate_job] of [src/app.py] with its
      models.
    - [Endpoints]: what FastAPI does around the handlers, from their
      declarations (lines 438-439 of [src/app/main.py], 28-29 of
      [src/app.py]): the body is validated against the model, the query
      parameter [method] is required, and the value the handler returns
      is serialised ([post_calculate], [get_health],
      [post_calculate_job], with the validators of the models of
      [src/app.py]).
    - [Scripts]: [src/main.py] as [main_script], a function from the
      outcome of loading [result.json] to the printed line
      ([collections.Counter] as [Counter], [most_common], [Counter_repr]),
      and [src/main2.py] as [main2_script], a function from the external
      solver (class [Solver]) to the printed lines.
    - [Scenarios]: examples only: the three scenarios of the
      specification and requests at the limits (the quantity limit, sixty
      sheets, mixed grain, a negative quantity), evaluated with concrete
      packers.

    ** Correspondence with the code

    Python [float] is Rocq's primitive [float] (IEEE 754 binary64); the
    program only copies and swaps such values.  Python [int] is [Z]
    (quantities are not validated, so they may be zero or negative).
    [str] is [string], compared byte-wise, which is the order of code
    points on UTF-8.  [Dict[str, bool]] and the two mapping dicts, which
    are only read by key, are [gmap string _]; [panels_dict], whose
    iteration order is observable, is an [odict].  A raised exception is a
    value [Raise e] of [res], where [e] carries the exception class and
    its [str()].  Mutation of a local object is the construction of the
    updated value; the program shares no mutable object between requests.
    The packer and the clock are the only external effects: both are
    fields of the class [Packer], every definition that calls them lives
    in a section over an arbitrary [Packer], and so every theorem holds for
    every packer; [elapsed n] is the clock reading at the end of attempt
    [n], the one its response carries (the source reads the clock once
    more when the assembly of a result raises).  [except
    UnresolvableError] also catches subclasses: the class of an exception
    in the model is the class that the [except] clauses see, so an
    exception of a subclass has the class [UnresolvableError].  A result
    dict is assumed to hold lists under ["used"] and ["unused"] when it
    has these keys, and every placement the keys ["panel"], ["item"],
    ["x"], ["y"] and ["rotate"].  Where the source
    goes through untyped dicts (the body of a request, [.dict()], the
    dicts of [panels_dict]) a value is a [pyval], the type of the values
    of [json.loads], and a dict of such values is the list of its items.

    ** What the theorems show

    - Geometry: the forward transform exchanges width and height exactly
      for a cross-grain item and keeps the metadata; the engraved-line
      flip is an involution and the border rotation has order four; what
      the display transform returns for a known and for an unknown item.
    - Expander: what the expansion contains and in which order, and the
      size in cutting orientation of every item unit; identifiers are
      injective in name and ordinal, so with distinct names the unit ids
      of an attempt are distinct, and with a repeated name they collide;
      the mappings agree with the expanded units; the round trip from a
      request with distinct item names through a placement to the
      displayed item, which restores the declared size for a same-grain
      item.  For a cross-grain item it does not (lemma
      [display_cross_grain_swapped]), against the docstring of the
      function: a finding, not a property.
    - Assembler: [panels_dict] keeps its invariant through both loops
      ([panels_dict_inv]); the two loops compute a closed formula
      ([transform_result_unfold]); from it the order and the distinctness
      of the response panels, which panels occur, what each contains, that
      no placement is lost or duplicated, the summary, and the two ways
      the function ends: the specified response when every panel id is
      known, [KeyError] for the first unknown one; the response does not
      depend on the order in which the packer lists its placements
      ([result_equiv], [response_equiv], with [Proper] instances).
    - Retry: a retry strictly raises the supply and leaves the demand
      unchanged; the loop terminates for every request and packer, within
      [attempts_bound] attempts, a bound that is reached when the packer
      never finds a plan; the response on every path through the loop;
      the total at which the loop gives up; the method check; the
      response depends on the packer only through its answers
      ([packer_equiv], with [Proper] instances for the loop); with a packer
      that honours [PackerContract], an attempt fails only if the packer
      does; the contract is decidable, and [checked] turns any packer into
      one that honours it.
    - Service: soundness of a successful response: for a packer that
      honours [PackerContract], every panel of the response is a sheet of
      a panel type of the request and every placed item a unit of an item
      type of the request, each with the metadata of its type.
    - Api: the handler on every branch; it never raises; the requested
      quantity of the first panel type is ignored; with one panel type
      and a packer that never finds a plan the answer comes after exactly
      50 attempts and names 50 panels.
    - Request: every operation on a request keeps [params_wf]; what the
      packer is handed in any attempt the loop can reach is well formed
      (pairwise distinct unit ids, as many sheets as the total); a retry
      adds exactly one sheet per panel type, with a fresh id; a response
      never holds more panels than [supply_bound]; and soundness of the
      response of the handler, stated against the request as it was sent.
    - Pydantic: the defaults of the request models.  As lemmas about the
      model of the library, which no change of the program could break:
      validating the dict of an instance returns the instance, and a body
      of the declared type is accepted by every version of the library.
    - Dicts: the functions on dicts equal the functions on records that
      [Retry] and [Assembler] define, results and exceptions alike (a
      simulation along the encoding of [panels_dict], on the states of
      [panels_dict_inv]); so every theorem about [calculate] holds of the
      program as it is written, and the subscripts and validations of
      the dict code never fail.
    - Tools: [calculate_job] on every branch.
    - Endpoints: the answer to every request: 422 exactly when the
      method is missing or the body is refused, otherwise 200 with the
      dict of a well-formed response, which reads back as the response
      of the handler; a body of the declared type is always answered
      with 200.
    - Scripts: what each script prints, or the exception that ends it, on
      every branch; the counter counts.  As a lemma about the model of
      the standard library: [most_common] is the stable sort by
      decreasing count, whatever algorithm sorts.

    ** Termination, bounds and fuel

    [Retry.calculate_loop] is defined by well-founded recursion on [gap],
    the distance of the total quantity to 50: a round that goes round again
    has a non-empty panel list (an empty one raises [IndexError], which
    ends the loop), so it raises the total by at least one.  It is thus a
    total function and needs no fuel.  [Retry.attempts_bound] is one plus
    the distance to 50 divided by the number of panel types, rounded up;
    [Retry.calculate_fuel], the same loop with a bound on the rounds, is
    shown to return the response of [calculate_loop] whenever it is given
    [attempts_bound] rounds or more, and is what the examples evaluate.

    ** Not modelled

    Logging and the [print] calls of the service, the CORS and uvicorn
    set-up, and the [import] lines: configuration and output that no
    response depends on.  The routing of FastAPI, the decoding of JSON
    and the content of a 422 answer.  The packing algorithm of [opcut] and the
    value of the clock: they are the fields of [Packer], and the theorems
    hold for every packer.  The solver of [src/main2.py] ([Solver]) and
    the decoding of [result.json] in [src/main.py]: external, the scripts
    are functions of their outcome.  The conversions pydantic applies to
    values of another type than the field's (an [int] for a [float], a
    [str] for an [int]) and the text of its errors: they differ between
    versions of the library and are the fields of [Pydantic].  [repr] of
    a [str] outside ASCII, which depends on the Unicode database. *)

From Stdlib Require Import ZArith String Ascii List Lia.
From Stdlib Require Import DecimalString DecimalZ DecimalPos.
From stdpp Require Import base tactics option list strings gmap sorting.

(* stdpp's solvers clear hypotheses that are already gone *)
#[global] Set Warnings "-clear-no-such-hyp".

Declare Scope py_scope.
Delimit Scope py_scope with py.
#[global] Open Scope py_scope.

Create HintDb py discriminated.
Create Rewrite HintDb py.

(** ** Exceptions as values *)

(** The exception classes the program raises, catches or reports by name.
    [OtherError name] stands for any other subclass of [Exception] the
    packing library may raise. *)
Inductive exn_class : Type :=
| UnresolvableError
| KeyError
| IndexError
| ValueError
| OtherError (name : string).

(** An exception: its class and what [str(e)] returns. *)
Record exn : Type := Exn { exn_cls : exn_class; exn_msg : string }.

#[export] Instance exn_class_eq_dec : EqDecision exn_class.
Proof. solve_decision. Defined.

#[export] Instance exn_eq_dec : EqDecision exn.
Proof. solve_decision. Defined.

(** [type(e).__name__] *)
Definition exn_name (c : exn_class) : string :=
  match c with
  | UnresolvableError => "UnresolvableError"
  | KeyError => "KeyError"
  | IndexError => "IndexError"
  | ValueError => "ValueError"
  | OtherError name => name
  end.

(** [repr] of a [str], as [str(KeyError(k))] and [print] of a dict show a
    key: in single quotes, or in double quotes when the string holds a
    single quote and no double quote; the quote in use and the backslash
    are escaped with a backslash, tab, newline and carriage return are
    written [\t], [\n], [\r], and the other control characters as
    [\xhh].  Bytes from 128 on stand for themselves: the model is exact for
    strings whose characters outside ASCII are printable. *)
Definition backslash : ascii := "092"%char.
Definition double_quote : ascii := "034"%char.

Definition hex_digit (n : nat) : ascii :=
  nth n (list_ascii_of_string "0123456789abcdef") "0"%char.

Definition py_repr_char (quote c : ascii) : string :=
  let n := nat_of_ascii c in
  if decide (c = quote \/ c = backslash) then String backslash (String c EmptyString)
  else if decide (n = 9) then String backslash "t"
  else if decide (n = 10) then String backslash "n"
  else if decide (n = 13) then String backslash "r"
  else if decide (n < 32 \/ n = 127) then
    String backslash (String "x" (String (hex_digit (n / 16))
      (String (hex_digit (n mod 16)) EmptyString)))
  else String c EmptyString.

Definition py_repr (s : string) : string :=
  let chars := list_ascii_of_string s in
  let quote :=
    if decide ("'"%char ∈ chars /\ double_quote ∉ chars) then double_quote else "'"%char in
  String quote
    (String.concat "" (py_repr_char quote <$> chars) +:+ String quote EmptyString).

Lemma py_repr_examples :
  py_repr "board_1" = "'board_1'" /\
  py_repr "it's" = String double_quote ("it's" +:+ String double_quote EmptyString) /\
  py_repr (String "a" (String (ascii_of_nat 10) "b")) = String "'" (String "a" (String backslash "nb'")) /\
  py_repr (String (ascii_of_nat 1) EmptyString) = String "'" (String backslash "x01'").
Proof. by vm_compute. Qed.

(** A computation that returns a value or raises. *)
Inductive res (A : Type) : Type :=
| Ok (a : A)
| Raise (e : exn).
Arguments Ok {A} a.
Arguments Raise {A} e.

#[export] Instance res_ret : MRet res := @Ok.
#[export] Instance res_bind : MBind res := fun A B f m =>
  match m with Ok a => f a | Raise e => Raise e end.
#[export] Instance res_fmap : FMap res := fun A B f m =>
  match m with Ok a => Ok (f a) | Raise e => Raise e end.

Notation "x <- m ;; k" := (mbind (fun x => k) m)
  (at level 100, m at next level, right associativity) : py_scope.

Definition is_ok {A} (m : res A) : bool :=
  match m with Ok _ => true | Raise _ => false end.

(** [d[k]]: a lookup that raises [KeyError] *)
Definition py_getitem {V} (d : gmap string V) (k : string) : res V :=
  match d !! k with
  | Some v => Ok v
  | None => Raise (Exn KeyError (py_repr k))
  end.

(** [l[0]] *)
Definition py_head {A} (l : list A) : res A :=
  match l with
  | x :: _ => Ok x
  | [] => Raise (Exn IndexError "list index out of range")
  end.

(** ** Tactics *)

(** Case analysis on the innermost [match] or [if] scrutinee of the goal. *)
Ltac case_res :=
  match goal with
  | |- context [mbind _ ?m] => destruct m eqn:?; simpl
  | |- context [match ?m with Ok _ => _ | Raise _ => _ end] => destruct m eqn:?; simpl
  end.

(** Break hypotheses down to equations and close the goal by substitution. *)
Ltac break_hyps :=
  intros;
  repeat match goal with
  | H : _ \/ _ |- _ => destruct H
  | H : exists _, _ |- _ => destruct H
  | H : _ /\ _ |- _ => destruct H
  end;
  simplify_eq; eauto 10.

(** Decide a closed decidable proposition by evaluation. *)
Ltac by_compute := apply (bool_decide_unpack _); by vm_compute.

(** ** Laws of the exception monad *)

Section res_laws.
Context {A B C : Type}.
Implicit Types (m : res A) (f : A -> res B) (g : B -> res C).

Lemma res_bind_ok a f : (x <- Ok a ;; f x) = f a.
Proof. done. Qed.

Lemma res_bind_raise e f : (x <- Raise e ;; f x) = Raise e.
Proof. done. Qed.

Lemma res_bind_ret m : (x <- m ;; Ok x) = m.
Proof. by destruct m. Qed.

Lemma res_bind_assoc m f g :
  (y <- (x <- m ;; f x) ;; g y) = (x <- m ;; y <- f x ;; g y).
Proof. by destruct m. Qed.

Lemma res_bind_Ok_inv m f b :
  (x <- m ;; f x) = Ok b <-> exists a, m = Ok a /\ f a = Ok b.
Proof. destruct m; simpl; split; break_hyps. Qed.

Lemma res_bind_Raise_inv m f e :
  (x <- m ;; f x) = Raise e <-> m = Raise e \/ exists a, m = Ok a /\ f a = Raise e.
Proof. destruct m; simpl; split; break_hyps. Qed.

End res_laws.

#[export] Hint Rewrite @res_bind_ok @res_bind_raise @res_bind_ret : py.

(** ** Loops whose body may raise *)

(** [for x in l: b = f(b, x)], stopping at the first exception. *)
Fixpoint res_foldl {A B} (f : B -> A -> res B) (b : B) (l : list A) : res B :=
  match l with
  | [] => Ok b
  | x :: l' => b' <- f b x ;; res_foldl f b' l'
  end.

Section res_foldl.
Context {A B : Type} (f : B -> A -> res B).
Implicit Types (b : B) (l : list A).

Lemma res_foldl_app b l1 l2 :
  res_foldl f b (l1 ++ l2) = (b' <- res_foldl f b l1 ;; res_foldl f b' l2).
Proof.
  revert b. induction l1 as [|x l1 IH]; intros b; simpl; [done|].
  destruct (f b x); simpl; [apply IH|done].
Qed.

Lemma res_foldl_snoc b l x :
  res_foldl f b (l ++ [x]) = (b' <- res_foldl f b l ;; f b' x).
Proof.
  rewrite res_foldl_app. destruct (res_foldl f b l); simpl; [|done].
  apply res_bind_ret.
Qed.

(** The loop rule.  [spec done] is the state after the prefix [done] has
    been processed.  A round on an element that satisfies [P] moves from
    [spec done] to [spec (done ++ [x])]; a round on an element that does
    not raises [err x].  Then the loop raises for the first element outside
    [P], and otherwise ends in the state specified for the whole list. *)
Lemma res_foldl_spec (spec : list A -> B) (P : A -> Prop) `{!forall x, Decision (P x)}
    (err : A -> exn) l :
  (forall done x, Forall P done -> P x -> f (spec done) x = Ok (spec (done ++ [x]))) ->
  (forall done x, Forall P done -> ~ P x -> f (spec done) x = Raise (err x)) ->
  forall done, Forall P done ->
  res_foldl f (spec done) l =
  match head (filter (fun x => ~ P x) l) with
  | Some x => Raise (err x)
  | None => Ok (spec (done ++ l))
  end.
Proof.
  intros Hok Herr. induction l as [|x l IH]; intros done Hdone.
  - simpl. by rewrite app_nil_r.
  - rewrite filter_cons. destruct (decide (P x)) as [HP|HP].
    + rewrite decide_False by auto. simpl. rewrite Hok by done. simpl.
      rewrite IH, <- app_assoc; [done|]. apply Forall_app. split; [done|]. by constructor.
    + rewrite decide_True by done. simpl. by rewrite Herr.
Qed.

(** The invariant rule: a property that every successful round keeps
    holds after a loop that ends without exception. *)
Lemma res_foldl_invariant (I : B -> Prop) l b b' :
  (forall b x b', x ∈ l -> I b -> f b x = Ok b' -> I b') ->
  I b -> res_foldl f b l = Ok b' -> I b'.
Proof.
  revert b. induction l as [|x l IH]; intros b Hstep Hb; simpl; [by intros [= <-]|].
  intros (b1 & Hx & Hl)%res_bind_Ok_inv. apply (IH b1); [|by eapply Hstep; [left|..]|done].
  intros b2 y b3 Hy. apply Hstep. by right.
Qed.

(** The first round that raises ends the loop with its exception. *)
(** Simulation along an encoding [enc] of the state: a loop whose body
    commutes with [enc] on the states of an invariant commutes with it. *)
Lemma res_foldl_sim {C} (g : C -> A -> res C) (enc : B -> C) (I : B -> Prop) l b :
  (forall b x b', I b -> f b x = Ok b' -> I b') ->
  (forall b x, I b -> g (enc b) x = enc <$> f b x) ->
  I b -> res_foldl g (enc b) l = enc <$> res_foldl f b l.
Proof.
  intros Hinv Hsim. revert b. induction l as [|x l IH]; intros b Hb; simpl; [done|].
  rewrite Hsim by done. destruct (f b x) as [b'|e] eqn:Hx; simpl; [|done].
  apply IH. by eapply Hinv.
Qed.

Lemma res_foldl_raise b l1 x l2 b1 e :
  res_foldl f b l1 = Ok b1 -> f b1 x = Raise e -> res_foldl f b (l1 ++ x :: l2) = Raise e.
Proof. intros H1 Hx. rewrite res_foldl_app, H1. simpl. by rewrite Hx. Qed.

End res_foldl.

Lemma py_getitem_Ok {V} (d : gmap string V) k v :
  py_getitem d k = Ok v <-> d !! k = Some v.
Proof. unfold py_getitem. destruct (d !! k); split; congruence. Qed.

Lemma py_getitem_Raise {V} (d : gmap string V) k e :
  py_getitem d k = Raise e <-> d !! k = None /\ e = Exn KeyError (py_repr k).
Proof. unfold py_getitem. destruct (d !! k); split; break_hyps. Qed.

Lemma py_head_Ok {A} (l : list A) x : py_head l = Ok x <-> head l = Some x.
Proof. destruct l; simpl; split; congruence. Qed.

Lemma py_head_Raise {A} (l : list A) e :
  py_head l = Raise e <-> l = [] /\ e = Exn IndexError "list index out of range".
Proof. destruct l; simpl; split; break_hyps. Qed.

(** ** [str(int)] *)

(** [str(z)] for a Python [int]: decimal digits, a leading [-] for negative
    numbers, no leading zeros. *)
Definition py_str (z : Z) : string := NilZero.string_of_int (Z.to_int z).

(** [int(s)], the inverse reading; used only to state the round trip. *)
Definition py_int (s : string) : option Z := Z.of_int <$> NilZero.int_of_string s.

(** [all(P(c) for c in s)] *)
Fixpoint str_forall (P : ascii -> bool) (s : string) : bool :=
  match s with
  | EmptyString => true
  | String c s' => P c && str_forall P s'
  end.

Definition is_digit (c : ascii) : bool :=
  (48 <=? nat_of_ascii c)%nat && (nat_of_ascii c <=? 57)%nat.

Definition is_int_char (c : ascii) : bool := is_digit c || Ascii.eqb c "-".

Lemma to_int_not_nil z : Z.to_int z <> Decimal.Pos Decimal.Nil /\ Z.to_int z <> Decimal.Neg Decimal.Nil.
Proof.
  destruct z; simpl; split; try discriminate; intros [= H];
    by apply DecimalPos.Unsigned.to_uint_nonnil in H.
Qed.

Lemma py_int_str z : py_int (py_str z) = Some z.
Proof.
  unfold py_int, py_str. destruct (to_int_not_nil z) as [Hp Hn].
  rewrite NilZero.isi by done. simpl. by rewrite DecimalZ.of_to.
Qed.

#[export] Instance py_str_inj : Inj (=) (=) py_str.
Proof.
  intros x y H. apply (f_equal py_int) in H. rewrite !py_int_str in H. congruence.
Qed.

Lemma str_forall_impl (P Q : ascii -> bool) s :
  (forall c, P c = true -> Q c = true) -> str_forall P s = true -> str_forall Q s = true.
Proof.
  intros HPQ. induction s as [|c s IH]; simpl; [done|].
  rewrite !andb_true_iff. intros [??]. auto.
Qed.

Lemma str_forall_app P s1 s2 :
  str_forall P (s1 +:+ s2) = str_forall P s1 && str_forall P s2.
Proof. induction s1 as [|c s1 IH]; simpl; [done|]. by rewrite IH, andb_assoc. Qed.

Lemma string_of_uint_digits d : str_forall is_digit (NilEmpty.string_of_uint d) = true.
Proof. induction d; simpl; auto. Qed.

Lemma nilzero_string_of_uint_digits d : str_forall is_digit (NilZero.string_of_uint d) = true.
Proof. destruct d; try apply string_of_uint_digits. done. Qed.

Lemma py_str_int_chars z : str_forall is_int_char (py_str z) = true.
Proof.
  unfold py_str. destruct (Z.to_int z) as [d|d]; simpl;
    (eapply str_forall_impl; [|apply nilzero_string_of_uint_digits]);
    intros c Hc; unfold is_int_char; by rewrite Hc.
Qed.

Lemma py_str_nonneg_digits z : (0 <= z)%Z -> str_forall is_digit (py_str z) = true.
Proof.
  unfold py_str. destruct z; simpl; try lia; intros _.
  apply nilzero_string_of_uint_digits.
Qed.

Lemma py_str_nonempty z : py_str z <> "".
Proof.
  intros H. pose proof (py_int_str z) as Hz. rewrite H in Hz. discriminate.
Qed.

(** ** Splitting a string at its last separator *)

Definition str_no (c : ascii) (s : string) : bool :=
  str_forall (fun c' => negb (Ascii.eqb c' c)) s.

Lemma str_no_app c s1 s2 : str_no c (s1 +:+ s2) = str_no c s1 && str_no c s2.
Proof. apply str_forall_app. Qed.

Lemma str_no_cons_same c s : str_no c (String c s) = false.
Proof. unfold str_no. simpl. by rewrite Ascii.eqb_refl. Qed.

(** Two strings that end in a separator-free suffix after the separator
    agree only if both parts agree. *)
Lemma str_split_last_inj c l1 r1 l2 r2 :
  str_no c r1 = true -> str_no c r2 = true ->
  l1 +:+ String c r1 = l2 +:+ String c r2 -> l1 = l2 /\ r1 = r2.
Proof.
  intros H1 H2. revert l2.
  induction l1 as [|a l1 IH]; intros [|b l2] Heq; simpl in Heq.
  - by simplify_eq.
  - simplify_eq. by rewrite str_no_app, str_no_cons_same, andb_false_r in H1.
  - simplify_eq. by rewrite str_no_app, str_no_cons_same, andb_false_r in H2.
  - simplify_eq. destruct (IH _ H) as [-> ->]. done.
Qed.

Lemma py_str_no_underscore z : str_no "_" (py_str z) = true.
Proof.
  eapply str_forall_impl; [|apply py_str_int_chars].
  intros c. unfold is_int_char, is_digit.
  destruct (Ascii.eqb_spec c "_") as [->|]; [done|]. done.
Qed.

(** ** [range] and [sum] *)

(** [range(n)]: [0, 1, ..., n-1], empty when [n <= 0]. *)
Definition py_range (n : Z) : list Z := seqZ 0 n.

(** [sum(l)] over Python [int]s. *)
Definition py_sum (l : list Z) : Z := foldl Z.add 0%Z l.

Lemma length_py_range n : length (py_range n) = Z.to_nat n.
Proof. apply length_seqZ. Qed.

Lemma elem_of_py_range i n : i ∈ py_range n <-> (0 <= i < n)%Z.
Proof. unfold py_range. rewrite elem_of_seqZ. lia. Qed.

Lemma NoDup_py_range n : NoDup (py_range n).
Proof. apply NoDup_seqZ. Qed.

Lemma py_range_nonpos n : (n <= 0)%Z -> py_range n = [].
Proof. apply seqZ_nil. Qed.

Lemma py_range_succ n : (0 <= n)%Z -> py_range (n + 1) = py_range n ++ [n].
Proof. intros Hn. unfold py_range. by rewrite seqZ_app by lia. Qed.

Lemma foldl_add_shift (l : list Z) (a : Z) : foldl Z.add a l = (a + foldl Z.add 0 l)%Z.
Proof.
  revert a. induction l as [|x l IH]; intros a; simpl; [lia|].
  rewrite (IH (a + x)%Z), (IH (0 + x)%Z). lia.
Qed.

Lemma py_sum_nil : py_sum [] = 0%Z.
Proof. done. Qed.

Lemma py_sum_cons x l : py_sum (x :: l) = (x + py_sum l)%Z.
Proof. unfold py_sum. simpl. by rewrite foldl_add_shift. Qed.

Lemma py_sum_app l1 l2 : py_sum (l1 ++ l2) = (py_sum l1 + py_sum l2)%Z.
Proof.
  induction l1 as [|x l1 IH]; simpl; [done|]. rewrite !py_sum_cons, IH. lia.
Qed.

Lemma py_sum_nonneg l : Forall (fun x => 0 <= x)%Z l -> (0 <= py_sum l)%Z.
Proof. induction 1 as [|x l Hx _ IH]; [done|]. rewrite py_sum_cons. lia. Qed.

Lemma py_sum_fmap_add {A} (f : A -> Z) (c : Z) (l : list A) :
  py_sum ((fun x => f x + c)%Z <$> l) = (py_sum (f <$> l) + c * Z.of_nat (length l))%Z.
Proof.
  induction l as [|x l IH]; [unfold py_sum; simpl; lia|].
  rewrite !fmap_cons, !py_sum_cons, IH. simpl length. lia.
Qed.

#[export] Hint Rewrite py_sum_nil py_sum_cons py_sum_app : py.
#[export] Hint Rewrite length_py_range : py.

(** ** Comparison of strings *)

(** [s1 <= s2] and [s1 < s2] on Python [str]: lexicographic on code points. *)
Definition str_le (s1 s2 : string) : Prop := String.leb s1 s2 = true.
Definition str_lt (s1 s2 : string) : Prop := String.ltb s1 s2 = true.

#[export] Instance str_le_dec : RelDecision str_le.
Proof. intros s1 s2. unfold str_le. apply _. Defined.

#[export] Instance str_lt_dec : RelDecision str_lt.
Proof. intros s1 s2. unfold str_lt. apply _. Defined.

Lemma ascii_compare_trans c (a1 a2 a3 : ascii) :
  Ascii.compare a1 a2 = c -> Ascii.compare a2 a3 = c -> Ascii.compare a1 a3 = c.
Proof.
  unfold Ascii.compare.
  destruct c; rewrite ?N.compare_eq_iff, ?N.compare_lt_iff, ?N.compare_gt_iff; lia.
Qed.

Lemma string_compare_refl s : String.compare s s = Eq.
Proof.
  induction s as [|a s IH]; simpl; [done|].
  unfold Ascii.compare. by rewrite N.compare_refl.
Qed.

Lemma string_compare_trans c s1 s2 s3 :
  String.compare s1 s2 = c -> String.compare s2 s3 = c -> String.compare s1 s3 = c.
Proof.
  revert s2 s3. induction s1 as [|a1 s1 IH]; intros [|a2 s2] [|a3 s3]; simpl; try congruence.
  destruct (Ascii.compare a1 a2) eqn:E12, (Ascii.compare a2 a3) eqn:E23;
    try (intros; congruence);
    try (apply Ascii.compare_eq_iff in E12; subst a2);
    try (apply Ascii.compare_eq_iff in E23; subst a3);
    rewrite ?E12, ?E23; try congruence.
  - unfold Ascii.compare. rewrite N.compare_refl. eauto.
  - by rewrite (ascii_compare_trans _ _ _ _ E12 E23).
  - by rewrite (ascii_compare_trans _ _ _ _ E12 E23).
Qed.

Lemma str_le_compare s1 s2 : str_le s1 s2 <-> String.compare s1 s2 <> Gt.
Proof. unfold str_le, String.leb. destruct (String.compare s1 s2); split; congruence. Qed.

Lemma str_lt_compare s1 s2 : str_lt s1 s2 <-> String.compare s1 s2 = Lt.
Proof. unfold str_lt, String.ltb. destruct (String.compare s1 s2); split; congruence. Qed.

Lemma str_le_lteq s1 s2 : str_le s1 s2 <-> str_lt s1 s2 \/ s1 = s2.
Proof.
  rewrite str_le_compare, str_lt_compare. split.
  - destruct (String.compare s1 s2) eqn:E; try congruence; auto.
    right. by apply String.compare_eq_iff.
  - intros [->| ->]; [done|]. by rewrite string_compare_refl.
Qed.

#[export] Instance str_lt_strict : StrictOrder str_lt.
Proof.
  split.
  - intros s. unfold complement. rewrite str_lt_compare, string_compare_refl. done.
  - intros s1 s2 s3. rewrite !str_lt_compare. apply string_compare_trans.
Qed.

#[export] Instance str_le_po : PartialOrder str_le.
Proof.
  split; [split|].
  - intros s. apply str_le_lteq. by right.
  - intros s1 s2 s3. rewrite !str_le_lteq.
    intros [H1| ->] [H2| ->]; auto. left. by transitivity s2.
  - intros s1 s2 H1 H2. by apply String.leb_antisym.
Qed.

#[export] Instance str_le_total : Total str_le.
Proof. intros s1 s2. apply String.leb_total. Qed.

Lemma str_lt_le s1 s2 : str_lt s1 s2 -> str_le s1 s2.
Proof. rewrite str_le_lteq. auto. Qed.

Lemma str_lt_neq s1 s2 : str_lt s1 s2 -> s1 <> s2.
Proof. intros H ->. by apply (irreflexivity str_lt s2). Qed.

Lemma str_le_neq_lt s1 s2 : str_le s1 s2 -> s1 <> s2 -> str_lt s1 s2.
Proof. rewrite str_le_lteq. by intros [?|?]. Qed.

Lemma str_not_le_lt s1 s2 : ~ str_le s1 s2 -> str_lt s2 s1.
Proof.
  intros H. destruct (total str_le s1 s2) as [?|H2]; [done|].
  apply str_le_neq_lt; [done|]. intros ->. apply H. done.
Qed.

#[export] Hint Resolve str_lt_le str_lt_neq : py.

(** ** Lists *)

(** A function whose image of [l] has no duplicates is injective on [l]. *)
Lemma NoDup_fmap_eq {A B} (f : A -> B) (l : list A) x y :
  NoDup (f <$> l) -> x ∈ l -> y ∈ l -> f x = f y -> x = y.
Proof.
  induction l as [|z l IH]; [by intros _ ?%elem_of_nil|].
  rewrite fmap_cons, NoDup_cons, !elem_of_cons.
  intros [Hz Hnd] [->|Hx] [->|Hy] Heq; auto.
  - destruct Hz. rewrite Heq. by apply list_elem_of_fmap_2.
  - destruct Hz. rewrite <- Heq. by apply list_elem_of_fmap_2.
Qed.

(** ** Dicts filled by a loop *)

(** The dict after [for (k, v) in l: d[k] = v], starting from [d]. *)
Definition dict_fill {V} (d : gmap string V) (l : list (string * V)) : gmap string V :=
  foldl (fun d kv => <[kv.1 := kv.2]> d) d l.

Section dict_fill.
Context {V : Type}.
Implicit Types (d : gmap string V) (l : list (string * V)) (k : string) (v : V).

Lemma dict_fill_app d l1 l2 : dict_fill d (l1 ++ l2) = dict_fill (dict_fill d l1) l2.
Proof. apply foldl_app. Qed.

Lemma dict_fill_snoc d l k v : dict_fill d (l ++ [(k, v)]) = <[k := v]> (dict_fill d l).
Proof. by rewrite dict_fill_app. Qed.

Lemma dict_fill_lookup_notin d l k : k ∉ (l.*1) -> dict_fill d l !! k = d !! k.
Proof.
  revert d. induction l as [|[k' v'] l IH]; intros d Hk; simpl; [done|].
  rewrite fmap_cons, not_elem_of_cons in Hk. destruct Hk as [Hne Hk].
  rewrite IH by done. by rewrite lookup_insert_ne.
Qed.

Lemma dom_dict_fill d l : dom (dict_fill d l) = dom d ∪ list_to_set (l.*1).
Proof.
  revert d. induction l as [|[k v] l IH]; intros d; simpl; [set_solver|].
  rewrite IH, dom_insert_L. set_solver.
Qed.

(** The last assignment to a key is the one that stays. *)
Lemma dict_fill_lookup_last d l1 l2 k v :
  k ∉ (l2.*1) -> dict_fill d (l1 ++ (k, v) :: l2) !! k = Some v.
Proof.
  intros Hk. rewrite dict_fill_app. simpl.
  rewrite dict_fill_lookup_notin by done. apply lookup_insert_eq.
Qed.

Lemma dict_fill_lookup_NoDup d l k v :
  NoDup (l.*1) -> (k, v) ∈ l -> dict_fill d l !! k = Some v.
Proof.
  intros Hnd (l1 & l2 & ->)%list_elem_of_split.
  apply dict_fill_lookup_last.
  rewrite fmap_app, fmap_cons in Hnd. apply NoDup_app in Hnd as (_ & _ & Hnd).
  by apply NoDup_cons in Hnd as [? _].
Qed.

Lemma dict_fill_lookup_Some d l k v :
  dict_fill d l !! k = Some v -> (k, v) ∈ l \/ ((k ∉ l.*1) /\ d !! k = Some v).
Proof.
  revert d. induction l as [|[k' v'] l IH]; intros d; simpl; [auto using not_elem_of_nil|].
  intros [Hin|[Hnotin Hd]]%IH; [left; by right|].
  rewrite not_elem_of_cons.
  destruct (decide (k' = k)) as [->|Hne].
  - rewrite lookup_insert_eq in Hd. simplify_eq. left. by left.
  - rewrite lookup_insert_ne in Hd by done. auto.
Qed.

Lemma dict_fill_list_to_map l : dict_fill ∅ l = list_to_map (reverse l).
Proof.
  induction l as [|[k v] l IH] using rev_ind; [done|].
  by rewrite dict_fill_snoc, IH, reverse_snoc.
Qed.

End dict_fill.

(** A loop nested in a loop is one loop over the concatenated ranges. *)
Lemma foldl_bind {A B C} (f : C -> B -> C) (g : A -> list B) (c : C) (l : list A) :
  foldl f c (l ≫= g) = foldl (fun c x => foldl f c (g x)) c l.
Proof.
  revert c. induction l as [|x l IH]; intros c; simpl; [done|].
  by rewrite foldl_app, IH.
Qed.

Lemma length_bind {A B} (g : A -> list B) (l : list A) :
  length (l ≫= g) = sum_list ((fun x => length (g x)) <$> l).
Proof. induction l as [|x l IH]; [done|]. by rewrite bind_cons, length_app, IH. Qed.

Lemma filter_none {A} (P : A -> Prop) `{!forall x, Decision (P x)} (l : list A) :
  Forall (fun x => ~ P x) l -> filter P l = [].
Proof.
  induction 1 as [|x l Hx _ IH]; [done|]. by rewrite filter_cons, decide_False.
Qed.

Lemma filter_all {A} (P : A -> Prop) `{!forall x, Decision (P x)} (l : list A) :
  Forall P l -> filter P l = l.
Proof.
  induction 1 as [|x l Hx _ IH]; [done|]. by rewrite filter_cons, decide_True, IH.
Qed.

Lemma filter_fmap {A B} (f : A -> B) (P : B -> Prop) `{!forall y, Decision (P y)} (l : list A) :
  filter P (f <$> l) = f <$> filter (P ∘ f) l.
Proof.
  induction l as [|x l IH]; [done|]. csimpl. rewrite !filter_cons, IH. simpl.
  by destruct (decide (P (f x))).
Qed.

Lemma head_fmap {A B} (f : A -> B) (l : list A) : head (f <$> l) = f <$> head l.
Proof. by destruct l. Qed.

(** The number of distinct elements. *)
Lemma length_remove_dups `{Countable A} (l : list A) :
  length (remove_dups l) = size (list_to_set l : gset A).
Proof.
  rewrite <- (size_list_to_set (C := gset A) (remove_dups l)) by apply NoDup_remove_dups.
  f_equal. apply set_eq. intros k. by rewrite !elem_of_list_to_set, elem_of_remove_dups.
Qed.

Lemma fmap_concat {A B} (f : A -> B) (ls : list (list A)) :
  f <$> concat ls = concat ((fun l : list A => f <$> l) <$> ls).
Proof. induction ls as [|l ls IH]; [done|]. csimpl. by rewrite fmap_app, IH. Qed.

(** Grouping by key loses nothing: the groups of pairwise distinct keys
    that cover every element hold each element exactly once. *)
Lemma concat_groups_Permutation {A K} `{EqDecision K} (key : A -> K) (keys : list K)
    (l : list A) :
  NoDup keys -> Forall (fun x => key x ∈ keys) l ->
  concat ((fun k => filter (fun x => key x = k) l) <$> keys) ≡ₚ l.
Proof.
  intros Hnd. revert l. induction Hnd as [|k keys Hk Hnd IH]; intros l Hl.
  - destruct l as [|x l]; [done|]. apply Forall_cons in Hl as [[]%elem_of_nil _].
  - csimpl. etransitivity; [|apply (filter_app_complement (fun x => key x = k) l)].
    apply Permutation_app_head.
    rewrite <- (IH (filter (fun x => key x <> k) l)).
    + apply reflexive_eq. f_equal. apply list_fmap_ext. intros _ k' Hk'%list_elem_of_lookup_2.
      rewrite list_filter_filter. apply list_filter_iff. intros x. split; [|tauto].
      intros ->. split; [done|]. by intros ->.
    + apply Forall_forall. intros x [Hx Hin]%list_elem_of_filter.
      rewrite Forall_forall in Hl. specialize (Hl x Hin).
      by apply elem_of_cons in Hl as [?|?].
Qed.

(** ** [sorted(l, key=...)] *)

(** The orders [sorted] is used with: a boolean comparison that is total,
    transitive and antisymmetric. *)
Class SortOrder {K : Type} (leb : K -> K -> bool) : Prop := {
  leb_total a b : leb a b = false -> leb b a = true;
  leb_trans a b c : leb a b = true -> leb b c = true -> leb a c = true;
  leb_antisym a b : leb a b = true -> leb b a = true -> a = b
}.

#[export] Instance String_leb_order : SortOrder String.leb.
Proof.
  split.
  - intros a b H. apply str_lt_le, str_not_le_lt. unfold str_le. congruence.
  - intros a b c. apply (transitivity (R := str_le)).
  - intros a b. apply (anti_symm str_le).
Qed.

(** The order of [sorted(..., reverse=True)] on [int] keys. *)
#[export] Instance Z_geb_order : SortOrder Z.geb.
Proof. split; intros *; rewrite ?Z.geb_leb, ?Z.leb_gt, ?Z.leb_le; lia. Qed.

(** Python's [sorted] is stable: elements with equal keys keep their
    relative order.  The model is the insertion sort that places an element
    before the first element of the sorted tail that does not come before
    it.  [sorted_by_unique] shows that the choice of the algorithm does not
    matter: a stable sort has one possible result. *)
Section sorted_by.
Context {A K : Type} `{EqDecision K} (leb : K -> K -> bool) `{!SortOrder leb} (key : A -> K).
Implicit Types (x y : A) (l : list A) (k : K).

Fixpoint sorted_insert (x : A) (l : list A) : list A :=
  match l with
  | [] => [x]
  | y :: l' =>
      if leb (key x) (key y) then x :: y :: l' else y :: sorted_insert x l'
  end.

Definition sorted_by (l : list A) : list A := foldr sorted_insert [] l.

(** [x] may stand before [y]. *)
Definition key_ord : relation A := fun x y => leb (key x) (key y) = true.

#[local] Instance key_ord_trans : Transitive key_ord.
Proof. intros x y z. apply leb_trans. Qed.

Lemma leb_refl k : leb k k = true.
Proof. destruct (leb k k) eqn:E; [done|]. pose proof (leb_total _ _ E). congruence. Qed.

Lemma sorted_insert_Permutation x l : sorted_insert x l ≡ₚ x :: l.
Proof.
  induction l as [|y l IH]; simpl; [done|].
  destruct (leb (key x) (key y)); [done|].
  rewrite IH. apply Permutation_swap.
Qed.

Lemma sorted_by_Permutation l : sorted_by l ≡ₚ l.
Proof.
  induction l as [|x l IH]; simpl; [done|].
  by rewrite sorted_insert_Permutation, IH.
Qed.

Lemma sorted_insert_StronglySorted x l :
  StronglySorted key_ord l -> StronglySorted key_ord (sorted_insert x l).
Proof.
  induction 1 as [|y l Hl IH Hy]; simpl; [repeat constructor|].
  destruct (leb (key x) (key y)) eqn:E.
  - constructor; [by constructor|]. constructor; [done|].
    eapply Forall_impl; [done|]. intros z Hz. by transitivity y.
  - constructor; [done|]. rewrite sorted_insert_Permutation.
    constructor; [|done]. by apply leb_total.
Qed.

Lemma sorted_by_StronglySorted l : StronglySorted key_ord (sorted_by l).
Proof.
  induction l; simpl; [constructor|]. by apply sorted_insert_StronglySorted.
Qed.

(** Stability: the elements of any one key appear in their original order. *)
Lemma sorted_insert_filter_eq k x l :
  filter (fun y => key y = k) (sorted_insert x l) = filter (fun y => key y = k) (x :: l).
Proof.
  induction l as [|y l IH]; simpl; [done|].
  destruct (leb (key x) (key y)) eqn:E; [done|].
  rewrite (filter_cons _ y), IH, !filter_cons.
  destruct (decide (key x = k)) as [<-|], (decide (key y = key x)) as [Heq|]; try done.
  rewrite Heq, leb_refl in E. done.
  all: by destruct (decide (key y = k)).
Qed.

Lemma sorted_by_stable k l :
  filter (fun y => key y = k) (sorted_by l) = filter (fun y => key y = k) l.
Proof.
  induction l as [|x l IH]; simpl; [done|].
  by rewrite sorted_insert_filter_eq, !filter_cons, IH.
Qed.

(** Two sorted lists that hold the same elements of every key in the same
    order are equal. *)
Lemma sorted_stable_eq l1 l2 :
  StronglySorted key_ord l1 -> StronglySorted key_ord l2 ->
  (forall k, filter (fun y => key y = k) l1 = filter (fun y => key y = k) l2) ->
  l1 = l2.
Proof.
  intros H1. revert l2. induction H1 as [|x l1 _ IH Hx]; intros l2 H2 Hf.
  { destruct l2 as [|y l2]; [done|]. specialize (Hf (key y)).
    by rewrite filter_nil, filter_cons, decide_True in Hf. }
  destruct H2 as [|y l2 H2 Hy].
  { specialize (Hf (key x)). by rewrite filter_nil, filter_cons, decide_True in Hf. }
  assert (key x = key y) as Hk.
  { rewrite Forall_forall in Hx, Hy. apply leb_antisym.
    - assert (y ∈ x :: l1) as [->|Hin]%elem_of_cons; [|apply leb_refl|by apply Hx].
      eapply (list_elem_of_filter (fun z => key z = key y)). rewrite Hf.
      rewrite filter_cons, decide_True by done. left.
    - assert (x ∈ y :: l2) as [->|Hin]%elem_of_cons; [|apply leb_refl|by apply Hy].
      eapply (list_elem_of_filter (fun z => key z = key x)). rewrite <- Hf.
      rewrite filter_cons, decide_True by done. left. }
  pose proof (Hf (key x)) as Hfx. rewrite !filter_cons, !decide_True in Hfx by done.
  injection Hfx as -> Hfx. f_equal. apply IH; [done|]. intros k.
  destruct (decide (key y = k)) as [<-|Hne]; [done|].
  specialize (Hf k). by rewrite !filter_cons, !decide_False in Hf.
Qed.

(** Whatever algorithm [sorted] runs, it returns what the insertion sort
    returns: the result of a stable sort is determined. *)
Lemma sorted_by_unique l l' :
  StronglySorted key_ord l' ->
  (forall k, filter (fun y => key y = k) l' = filter (fun y => key y = k) l) ->
  l' = sorted_by l.
Proof.
  intros Hs Hf. apply sorted_stable_eq; [done|apply sorted_by_StronglySorted|].
  intros k. by rewrite sorted_by_stable.
Qed.

End sorted_by.

(** [sorted(l, key=...)] with a [str] key. *)
Section py_sorted.
Context {A : Type} (key : A -> string).
Implicit Types (x y : A) (l : list A).

Definition py_sorted (l : list A) : list A := sorted_by String.leb key l.

Definition key_le : relation A := fun x y => str_le (key x) (key y).
Definition key_lt : relation A := fun x y => str_lt (key x) (key y).

Lemma py_sorted_Permutation l : py_sorted l ≡ₚ l.
Proof. apply sorted_by_Permutation. Qed.

Lemma length_py_sorted l : length (py_sorted l) = length l.
Proof. by rewrite py_sorted_Permutation. Qed.

Lemma elem_of_py_sorted x l : x ∈ py_sorted l <-> x ∈ l.
Proof. by rewrite py_sorted_Permutation. Qed.

Lemma py_sorted_StronglySorted l : StronglySorted key_le (py_sorted l).
Proof. apply (sorted_by_StronglySorted String.leb key). Qed.

Lemma py_sorted_stable k l :
  filter (fun y => key y = k) (py_sorted l) = filter (fun y => key y = k) l.
Proof. apply (sorted_by_stable String.leb key). Qed.

(** With pairwise distinct keys the result is strictly increasing, and it
    is the only sorted arrangement of the input. *)
Lemma py_sorted_strict l :
  NoDup (key <$> l) -> StronglySorted key_lt (py_sorted l).
Proof.
  intros Hnd.
  assert (NoDup (key <$> py_sorted l)) as Hnd' by by rewrite py_sorted_Permutation.
  pose proof (py_sorted_StronglySorted l) as Hs.
  induction Hs as [|x l' Hl IH Hx]; [constructor|].
  rewrite fmap_cons in Hnd'. apply NoDup_cons in Hnd' as [Hnotin Hnd'].
  constructor; [by apply IH|].
  apply Forall_forall. intros y Hy. rewrite Forall_forall in Hx.
  apply str_le_neq_lt; [by apply Hx|].
  intros Heq. apply Hnotin. rewrite Heq. by apply list_elem_of_fmap_2.
Qed.

Lemma py_sorted_unique l l' :
  NoDup (key <$> l) -> l' ≡ₚ l -> StronglySorted key_le l' -> l' = py_sorted l.
Proof.
  intros Hnd Hp Hs.
  apply (StronglySorted_unique_strong key_le); [|done|apply py_sorted_StronglySorted|].
  - intros x1 x2 H1 H2 H12 H21.
    assert (key x1 = key x2) as Hk by by apply (anti_symm str_le).
    rewrite Hp in H1. rewrite py_sorted_Permutation in H2.
    by apply (NoDup_fmap_eq key l).
  - by rewrite py_sorted_Permutation.
Qed.

Lemma py_sorted_perm_invariant l1 l2 :
  NoDup (key <$> l1) -> l1 ≡ₚ l2 -> py_sorted l1 = py_sorted l2.
Proof.
  intros Hnd Hp. apply py_sorted_unique.
  - by rewrite <- Hp.
  - by rewrite py_sorted_Permutation.
  - apply py_sorted_StronglySorted.
Qed.

End py_sorted.

(** Sorting the images by their own key is sorting by the composed key. *)
Lemma sorted_by_fmap {A B K} (leb : K -> K -> bool) (key : A -> K) (g : B -> A) (l : list B) :
  sorted_by leb key (g <$> l) = g <$> sorted_by leb (key ∘ g) l.
Proof.
  induction l as [|x l IH]; [done|]. csimpl. rewrite IH.
  generalize (sorted_by leb (key ∘ g) l). intros l'.
  induction l' as [|y l' IH']; [done|]. csimpl.
  destruct (leb (key (g x)) (key (g y))); [done|]. csimpl. by rewrite IH'.
Qed.

Lemma py_sorted_fmap {A B} (key : A -> string) (g : B -> A) (l : list B) :
  py_sorted key (g <$> l) = g <$> py_sorted (key ∘ g) l.
Proof. apply sorted_by_fmap. Qed.
