(* ===== verification/PyDict.v ===== *)
(** * PyDict: the insertion-ordered dict

    [transform_result] keeps [panels_dict], a Python [dict] from panel id to
    the panel under construction, and reads it back with [.values()], whose
    order is the order in which the keys were first inserted.  The dict is
    modelled as the list of its items in insertion order.  Each operation
    the program uses is shown to implement the corresponding operation on
    finite maps ([od_to_map] is the abstraction function), and to keep the
    keys pairwise distinct. *)

From Stdlib Require Import String List Morphisms.
From stdpp Require Import base tactics option list strings gmap.
From S2P Require Import Prelude.

(** A dict with [str] keys: its items, oldest key first. *)
Abbreviation odict V := (list (string * V)).

Section odict.
Context {V : Type}.
Implicit Types (d : odict V) (k : string) (v : V) (f : V -> V).

(** [d.keys()] and [d.values()] *)
Definition od_keys (d : odict V) : list string := d.*1.
Definition od_values (d : odict V) : list V := d.*2.

(** [k in d] *)
Definition od_contains (k : string) (d : odict V) : bool := bool_decide (k ∈ od_keys d).

(** [d.get(k)] *)
Fixpoint od_get (k : string) (d : odict V) : option V :=
  match d with
  | [] => None
  | (k', v) :: d' => if decide (k' = k) then Some v else od_get k d'
  end.

(** [d[k] = v]: an existing key keeps its place, a new key goes last. *)
Fixpoint od_set (k : string) (v : V) (d : odict V) : odict V :=
  match d with
  | [] => [(k, v)]
  | (k', v') :: d' => if decide (k' = k) then (k, v) :: d' else (k', v') :: od_set k v d'
  end.

(** [d[k] = f(d[k])] for a key that is present, as done by mutating the
    value in place; no effect for an absent key. *)
Definition od_alter (f : V -> V) (k : string) (d : odict V) : odict V :=
  (fun kv => if decide (kv.1 = k) then (kv.1, f kv.2) else kv) <$> d.

(** [dict(pairs)] *)
Definition od_of_list (pairs : list (string * V)) : odict V :=
  foldl (fun d kv => od_set kv.1 kv.2 d) [] pairs.

(** The abstraction: the finite map with the same items. *)
Definition od_to_map (d : odict V) : gmap string V := list_to_map d.

(** Well-formedness: no key occurs twice. *)
Definition od_wf (d : odict V) : Prop := NoDup (od_keys d).

(** ** Keys *)

Lemma od_contains_true k d : od_contains k d = true <-> k ∈ od_keys d.
Proof. unfold od_contains. by rewrite bool_decide_eq_true. Qed.

Lemma od_contains_false k d : od_contains k d = false <-> k ∉ od_keys d.
Proof. unfold od_contains. by rewrite bool_decide_eq_false. Qed.

Lemma od_keys_set_in k v d : k ∈ od_keys d -> od_keys (od_set k v d) = od_keys d.
Proof.
  unfold od_keys. induction d as [|[k' v'] d IH]; csimpl; [by intros ?%elem_of_nil|].
  case_decide as Hk; csimpl; [by subst|].
  intros [?|?]%elem_of_cons; [done|]. by rewrite IH.
Qed.

Lemma od_keys_set_notin k v d : k ∉ od_keys d -> od_keys (od_set k v d) = od_keys d ++ [k].
Proof.
  unfold od_keys. induction d as [|[k' v'] d IH]; csimpl; [done|].
  rewrite not_elem_of_cons. intros [Hne Hk].
  rewrite decide_False by done. csimpl. by rewrite IH.
Qed.

Lemma od_set_notin k v d : k ∉ od_keys d -> od_set k v d = d ++ [(k, v)].
Proof.
  unfold od_keys. induction d as [|[k' v'] d IH]; csimpl; [done|].
  rewrite not_elem_of_cons. intros [Hne Hk].
  rewrite decide_False by done. by rewrite IH.
Qed.

Lemma od_keys_alter f k d : od_keys (od_alter f k d) = od_keys d.
Proof.
  unfold od_keys, od_alter. rewrite <- list_fmap_compose. apply list_fmap_ext.
  intros _ [k' v'] _. simpl. by case_decide.
Qed.

Lemma od_alter_notin f k d : k ∉ od_keys d -> od_alter f k d = d.
Proof.
  unfold od_keys, od_alter. induction d as [|[k' v'] d IH]; csimpl; [done|].
  rewrite not_elem_of_cons. intros [Hne Hk].
  rewrite decide_False by done. by rewrite IH.
Qed.

(** ** Every operation keeps the keys distinct *)

Lemma od_wf_nil : od_wf [].
Proof. constructor. Qed.

Lemma od_wf_set k v d : od_wf d -> od_wf (od_set k v d).
Proof.
  unfold od_wf. intros Hwf. destruct (decide (k ∈ od_keys d)).
  - by rewrite od_keys_set_in.
  - rewrite od_keys_set_notin by done. apply NoDup_app. split_and!; [done| |apply NoDup_singleton].
    intros k' Hk' ->%list_elem_of_singleton. done.
Qed.

Lemma od_wf_alter f k d : od_wf d -> od_wf (od_alter f k d).
Proof. unfold od_wf. by rewrite od_keys_alter. Qed.

(** A list of items without a repeated key is the dict it builds. *)
Lemma od_of_list_wf (pairs : list (string * V)) : NoDup pairs.*1 -> od_of_list pairs = pairs.
Proof.
  unfold od_of_list. induction pairs as [|[k v] pairs IH] using rev_ind; [done|].
  rewrite fmap_app, NoDup_app. intros (Hnd & Hk & _). rewrite foldl_app, IH by done.
  simpl. apply od_set_notin. intros Hin. by apply (Hk k); [|left].
Qed.

(** ** Refinement of finite maps *)

Lemma od_get_to_map k d : od_get k d = od_to_map d !! k.
Proof.
  unfold od_to_map. induction d as [|[k' v'] d IH]; simpl; [done|].
  case_decide as Hk.
  - subst. by rewrite lookup_insert_eq.
  - by rewrite lookup_insert_ne.
Qed.

Lemma od_contains_to_map k d : od_contains k d = true <-> is_Some (od_to_map d !! k).
Proof.
  rewrite od_contains_true. unfold od_to_map, od_keys.
  rewrite <- not_eq_None_Some, <- not_elem_of_list_to_map. split; [auto|apply dec_stable].
Qed.

Lemma od_set_to_map k v d : od_to_map (od_set k v d) = <[k := v]> (od_to_map d).
Proof.
  unfold od_to_map. induction d as [|[k' v'] d IH]; simpl; [done|].
  case_decide as Hk; simpl.
  - subst. by rewrite insert_insert_eq.
  - rewrite IH. by apply insert_insert_ne.
Qed.

Lemma od_alter_to_map f k d : od_to_map (od_alter f k d) = alter f k (od_to_map d).
Proof.
  unfold od_to_map, od_alter. induction d as [|[k' v'] d IH]; csimpl.
  - by rewrite alter_empty.
  - case_decide as Hk; csimpl; rewrite IH.
    + subst. by rewrite alter_insert_eq, insert_alter_eq.
    + by rewrite alter_insert_ne by congruence.
Qed.

Lemma od_values_to_map d : od_wf d -> od_values d ≡ₚ (map_to_list (od_to_map d)).*2.
Proof.
  intros Hwf. unfold od_values, od_to_map. by rewrite map_to_list_to_map.
Qed.

(** ** Dicts with the same items *)

(** Two dicts are equivalent when they hold the same value under every
    key, whatever the order in which the keys were inserted. *)
Definition od_equiv (d1 d2 : odict V) : Prop := od_to_map d1 = od_to_map d2.

#[export] Instance od_equiv_equivalence : Equivalence od_equiv.
Proof.
  unfold od_equiv. split; [by intros d|by intros d1 d2|].
  intros d1 d2 d3 H1 H2. by rewrite H1.
Qed.

Lemma od_equiv_get d1 d2 : od_equiv d1 d2 <-> forall k, od_get k d1 = od_get k d2.
Proof.
  unfold od_equiv. split.
  - intros H k. by rewrite !od_get_to_map, H.
  - intros H. apply map_eq. intros k. by rewrite <- !od_get_to_map.
Qed.

#[export] Instance od_get_proper k : Proper (od_equiv ==> eq) (od_get k).
Proof. intros d1 d2 H. by apply od_equiv_get. Qed.

#[export] Instance od_contains_proper k : Proper (od_equiv ==> eq) (od_contains k).
Proof.
  intros d1 d2 H. apply eq_true_iff_eq. unfold is_true.
  rewrite !od_contains_to_map. unfold od_equiv in H. by rewrite H.
Qed.

#[export] Instance od_set_proper k v : Proper (od_equiv ==> od_equiv) (od_set k v).
Proof. intros d1 d2 H. unfold od_equiv in *. by rewrite !od_set_to_map, H. Qed.

#[export] Instance od_alter_proper f k : Proper (od_equiv ==> od_equiv) (od_alter f k).
Proof. intros d1 d2 H. unfold od_equiv in *. by rewrite !od_alter_to_map, H. Qed.

(** Reordering the items of a well-formed dict gives an equivalent dict,
    and equivalent well-formed dicts have the same values up to order. *)
Lemma od_equiv_Permutation d1 d2 : od_wf d1 -> d1 ≡ₚ d2 -> od_equiv d1 d2.
Proof. intros Hwf Hp. unfold od_equiv, od_to_map. by apply list_to_map_proper. Qed.

Lemma od_values_equiv d1 d2 :
  od_wf d1 -> od_wf d2 -> od_equiv d1 d2 -> od_values d1 ≡ₚ od_values d2.
Proof.
  intros H1 H2 He. rewrite !od_values_to_map by done. unfold od_equiv in He. by rewrite He.
Qed.

End odict.

#[export] Hint Resolve od_wf_nil od_wf_set od_wf_alter : py.

(** ** The same dict with other values *)

(** [d[k]], which raises [KeyError] for an absent key. *)
Definition od_getitem {V} (d : odict V) (k : string) : res V :=
  match od_get k d with
  | Some v => Ok v
  | None => Raise (Exn KeyError (py_repr k))
  end.

(** The dict with [g] applied to every value: how a dict of records and
    the dict of their encodings correspond. *)
Definition od_map {V W} (g : V -> W) (d : odict V) : odict W := prod_map id g <$> d.

Section od_map.
Context {V W : Type} (g : V -> W).
Implicit Types (d : odict V) (k : string) (v : V).

Lemma od_keys_map d : od_keys (od_map g d) = od_keys d.
Proof. unfold od_keys, od_map. rewrite <- list_fmap_compose. by apply list_fmap_ext. Qed.

Lemma od_values_map d : od_values (od_map g d) = g <$> od_values d.
Proof. unfold od_values, od_map. by rewrite <- !list_fmap_compose. Qed.

Lemma od_contains_map k d : od_contains k (od_map g d) = od_contains k d.
Proof. unfold od_contains. by rewrite od_keys_map. Qed.

Lemma od_get_map k d : od_get k (od_map g d) = g <$> od_get k d.
Proof. induction d as [|[k' v] d IH]; [done|]. simpl. by case_decide. Qed.

Lemma od_set_map k v d : od_set k (g v) (od_map g d) = od_map g (od_set k v d).
Proof.
  induction d as [|[k' v'] d IH]; [done|]. simpl. case_decide; [done|].
  simpl. by rewrite IH.
Qed.

Lemma od_getitem_map k d : od_getitem (od_map g d) k = g <$> od_getitem d k.
Proof. unfold od_getitem. rewrite od_get_map. by destruct (od_get k d). Qed.

End od_map.

(** Mutating the value of a key in place is reading it and storing the
    changed value, when no key occurs twice. *)
Lemma od_alter_set {V} (f : V -> V) k v (d : odict V) :
  od_wf d -> od_get k d = Some v -> od_alter f k d = od_set k (f v) d.
Proof.
  unfold od_wf, od_alter. induction d as [|[k' v'] d IH]; [done|]. csimpl.
  intros [Hk' Hd]%NoDup_cons. case_decide as Hk.
  - intros [= ->]. subst k'. f_equal. by apply od_alter_notin.
  - intros Hget. f_equal. by apply IH.
Qed.

Lemma od_get_is_Some {V} k (d : odict V) : k ∈ od_keys d -> is_Some (od_get k d).
Proof.
  unfold od_keys. induction d as [|[k' v'] d IH]; csimpl; [by intros ?%elem_of_nil|].
  case_decide; [by eauto|]. intros [?|?]%elem_of_cons; [done|by apply IH].
Qed.

(** ** Dicts filled key by key *)

(** The distinct elements of [l] in the order of their first occurrence:
    the keys of a dict into which the elements of [l] are inserted one
    after the other. *)
Definition first_occurrences (l : list string) : list string :=
  foldl (fun acc k => if bool_decide (k ∈ acc) then acc else acc ++ [k]) [] l.

Lemma first_occurrences_snoc_raw l k :
  first_occurrences (l ++ [k]) =
  if bool_decide (k ∈ first_occurrences l) then first_occurrences l
  else first_occurrences l ++ [k].
Proof. unfold first_occurrences. by rewrite foldl_app. Qed.

Lemma elem_of_first_occurrences k l : k ∈ first_occurrences l <-> k ∈ l.
Proof.
  induction l as [|k' l IH] using rev_ind; [done|].
  rewrite first_occurrences_snoc_raw, elem_of_app, list_elem_of_singleton.
  case_bool_decide as Hk'; rewrite ?elem_of_app, ?list_elem_of_singleton, IH;
    [|done]. split; [auto|]. intros [?| ->]; [done|]. by apply IH.
Qed.

Lemma first_occurrences_snoc l k :
  first_occurrences (l ++ [k]) =
  if bool_decide (k ∈ l) then first_occurrences l else first_occurrences l ++ [k].
Proof.
  rewrite first_occurrences_snoc_raw.
  by rewrite (bool_decide_ext _ _ (elem_of_first_occurrences k l)).
Qed.

Lemma NoDup_first_occurrences l : NoDup (first_occurrences l).
Proof.
  induction l as [|k l IH] using rev_ind; [constructor|].
  rewrite first_occurrences_snoc_raw. case_bool_decide as Hk; [done|].
  apply NoDup_app. split_and!; [done| |apply NoDup_singleton].
  by intros k' Hk' ->%list_elem_of_singleton.
Qed.

Lemma first_occurrences_remove_dups l : first_occurrences l ≡ₚ remove_dups l.
Proof.
  apply NoDup_Permutation; [apply NoDup_first_occurrences|apply NoDup_remove_dups|].
  intros k. by rewrite elem_of_first_occurrences, elem_of_remove_dups.
Qed.

Section table.
Context {V : Type}.
Implicit Types (g : string -> V) (keys : list string) (k : string).

(** The dict with the given keys, in this order, and the value [g k] under
    each key [k]. *)
Definition od_table (g : string -> V) (keys : list string) : odict V :=
  (fun k => (k, g k)) <$> keys.

Lemma od_keys_table g keys : od_keys (od_table g keys) = keys.
Proof.
  unfold od_keys, od_table. rewrite <- list_fmap_compose. apply list_fmap_id.
Qed.

Lemma od_values_table g keys : od_values (od_table g keys) = g <$> keys.
Proof. unfold od_values, od_table. by rewrite <- list_fmap_compose. Qed.

Lemma od_table_ext g g' keys :
  (forall k, k ∈ keys -> g k = g' k) -> od_table g keys = od_table g' keys.
Proof.
  intros H. unfold od_table. apply list_fmap_ext. intros _ k Hk%list_elem_of_lookup_2.
  by rewrite H.
Qed.

Lemma od_alter_table f g keys k :
  od_alter f k (od_table g keys) = od_table (fun k' => if decide (k' = k) then f (g k') else g k') keys.
Proof.
  unfold od_alter, od_table. rewrite <- list_fmap_compose. apply list_fmap_ext.
  intros _ k' _. simpl. by case_decide.
Qed.

(** One round of the grouping loop: make sure the key is present (with
    the fresh value [mk] if it is new), then update the value under it. *)
Lemma od_group_step f mk g keys k :
  od_alter f k
    (if od_contains k (od_table g keys) then od_table g keys
     else od_set k mk (od_table g keys)) =
  od_table (fun k' => if decide (k' = k)
                      then f (if bool_decide (k ∈ keys) then g k else mk) else g k')
           (if bool_decide (k ∈ keys) then keys else keys ++ [k]).
Proof.
  unfold od_contains. rewrite od_keys_table. case_bool_decide as Hk.
  - rewrite od_alter_table. apply od_table_ext. intros k' _. by case_decide; subst.
  - rewrite od_set_notin by by rewrite od_keys_table.
    change [(k, mk)] with (od_table (fun _ => mk) [k]).
    unfold od_alter, od_table. rewrite !fmap_app, <- !list_fmap_compose. f_equal.
    + apply list_fmap_ext. intros _ k' Hk'%list_elem_of_lookup_2. simpl.
      rewrite !decide_False; [done|by intros ->..].
    + simpl. by rewrite !decide_True.
Qed.

(** The same round when the fresh value is what [g] gives for the key. *)
Lemma od_group_step_same f mk g keys k :
  (k ∉ keys -> mk = g k) ->
  od_alter f k
    (if od_contains k (od_table g keys) then od_table g keys
     else od_set k mk (od_table g keys)) =
  od_table (fun k' => if decide (k' = k) then f (g k') else g k')
           (if bool_decide (k ∈ keys) then keys else keys ++ [k]).
Proof.
  intros Hmk. rewrite od_group_step. apply od_table_ext. intros k' _.
  case_decide; [subst|done]. case_bool_decide; [done|]. by rewrite Hmk.
Qed.

End table.
