(* ===== verification/Model.v ===== *)
(** * Model: the records of the request and the response, and the boundary
    with the packing library

    The pydantic models of [src/app/main.py] (lines 14-79) become records
    of the validated values.  The values built for and returned by [opcut]
    ([common.Panel], [common.Item], [common.Params], [common.Method] and the
    dict produced by [common.result_to_json]) are records too; the packing
    function itself and the clock are the two fields of the class
    [Packer]. *)

From Stdlib Require Import ZArith String List PrimFloat.
From stdpp Require Import base option list strings gmap.
From S2P Require Import Prelude.

(** ** Request *)

(** [Literal['horizontal', 'vertical']] *)
Inductive Grain : Type := horizontal | vertical.

(** [Literal['horizontal', 'vertical', 'none']] *)
Inductive EngravedLine : Type := line_horizontal | line_vertical | line_none.

#[export] Instance Grain_eq_dec : EqDecision Grain.
Proof. solve_decision. Defined.

#[export] Instance EngravedLine_eq_dec : EqDecision EngravedLine.
Proof. solve_decision. Defined.

(** The value of the [borders] fields when the request leaves them out. *)
Definition default_borders : gmap string bool :=
  {[ "top" := false; "right" := false; "bottom" := false; "left" := false ]}.

Record PanelInput : Type := mkPanelInput {
  pi_name : string;
  pi_width : float;
  pi_height : float;
  pi_quantity : Z;
  pi_grain : Grain
}.

Record ItemInput : Type := mkItemInput {
  ii_name : string;
  ii_width : float;
  ii_height : float;
  ii_isRotate : bool;
  ii_quantity : Z;
  ii_grain : Grain;
  ii_engraved_line : EngravedLine;
  ii_borders : gmap string bool
}.

Record UserParams : Type := mkUserParams {
  cut_width : float;
  min_initial_usage : bool;
  panels : list PanelInput;
  items : list ItemInput
}.

(** ** Response *)

Record UsedItem : Type := mkUsedItem {
  item_id : string;
  ui_name : string;
  ui_width : float;
  ui_height : float;
  ui_x : float;
  ui_y : float;
  ui_rotate : bool;
  ui_grain : Grain;
  ui_engraved_line : EngravedLine;
  ui_borders : gmap string bool
}.

Record UnusedArea : Type := mkUnusedArea {
  ua_width : float;
  ua_height : float;
  ua_x : float;
  ua_y : float
}.

Record PanelOutput : Type := mkPanelOutput {
  panel_id : string;
  panel_name : string;
  po_width : float;
  po_height : float;
  used_items : list UsedItem;
  unused_areas : list UnusedArea
}.

Record CalculationResponse : Type := mkCalculationResponse {
  success : bool;
  resp_panels : list PanelOutput;
  cuts : list string;
  summary : gmap string Z;
  error : option string;
  calculation_time : option float
}.

(** ** The dicts the optimizer keeps between expansion and assembly *)

(** A value of [item_mapping] ([_create_item_mapping], lines 154-164). *)
Record ItemDetails : Type := mkItemDetails {
  id_name : string;
  id_width : float;
  id_height : float;
  id_original_width : float;
  id_original_height : float;
  id_can_rotate : bool;
  id_grain : Grain;
  id_engraved_line : EngravedLine;
  id_borders : gmap string bool
}.

(** A value of [panel_mapping] ([_create_panel_mapping], lines 173-178). *)
Record PanelDetails : Type := mkPanelDetails {
  pd_name : string;
  pd_width : float;
  pd_height : float;
  pd_grain : Grain
}.

(** ** The packing library *)

(** [common.Method] *)
Inductive Method : Type :=
| GREEDY
| FORWARD_GREEDY
| GREEDY_NATIVE
| FORWARD_GREEDY_NATIVE.

#[export] Instance Method_eq_dec : EqDecision Method.
Proof. solve_decision. Defined.

(** [CuttingOptimizer.method_map] *)
Definition method_map : gmap string Method :=
  {[ "greedy" := GREEDY;
     "forward_greedy" := FORWARD_GREEDY;
     "greedy_native" := GREEDY_NATIVE;
     "forward_greedy_native" := FORWARD_GREEDY_NATIVE ]}.

(** [common.Panel(id=, width=, height=)] *)
Record Panel : Type := mkPanel {
  panel_uid : string;
  panel_w : float;
  panel_h : float
}.

(** [common.Item(id=, width=, height=, can_rotate=)] *)
Record Item : Type := mkItem {
  item_uid : string;
  item_w : float;
  item_h : float;
  item_can_rotate : bool
}.

(** [common.Params(cut_width=, min_initial_usage=, panels=, items=)] *)
Record Params : Type := mkParams {
  prm_cut_width : float;
  prm_min_initial_usage : bool;
  prm_panels : list Panel;
  prm_items : list Item
}.

(** One entry of [result["used"]].  The program reads ["panel"], ["item"],
    ["x"], ["y"] and ["rotate"] by subscript and ["width"], ["height"] with
    [.get]: the last two may be absent. *)
Record UsedJson : Type := mkUsedJson {
  uj_panel : string;
  uj_item : string;
  uj_x : float;
  uj_y : float;
  uj_rotate : bool;
  uj_width : option float;
  uj_height : option float
}.

(** One entry of [result["unused"]]. *)
Record UnusedJson : Type := mkUnusedJson {
  nj_panel : string;
  nj_width : float;
  nj_height : float;
  nj_x : float;
  nj_y : float
}.

(** The dict [common.result_to_json] returns.  Each key may be absent;
    ["cuts"] may also be present with the value [None].  A [None] or empty
    result is the record with the three keys absent: the program treats
    both the same way. *)
Record ResultJson : Type := mkResultJson {
  rj_used : option (list UsedJson);
  rj_unused : option (list UnusedJson);
  rj_cuts : option (option (list string))
}.

(** The external effects of [CuttingOptimizer.calculate] (lines 367-370):
    the packer, [opcut_calculate.calculate] followed by
    [common.result_to_json], which returns a result or raises
    ([UnresolvableError] when the items do not fit), and the clock.
    [elapsed n] is the value of [time.time() - start_time] that the
    response of attempt [n] carries: every attempt reports at most one
    reading, taken after the packer returned or in the handler of the
    exception. *)
Class Packer : Type := mkPacker {
  opcut_calculate : Method -> Params -> res ResultJson;
  elapsed : nat -> float
}.

(** A packer honours its contract when every placement and every unused
    region it returns names a panel it was given, and every placement an
    item it was given. *)
Definition result_within (prm : Params) (r : ResultJson) : Prop :=
  (forall u, u ∈ default [] (rj_used r) ->
     uj_panel u ∈ panel_uid <$> prm_panels prm /\ uj_item u ∈ item_uid <$> prm_items prm) /\
  (forall n, n ∈ default [] (rj_unused r) -> nj_panel n ∈ panel_uid <$> prm_panels prm).

Class PackerContract (P : Packer) : Prop :=
  packer_within : forall m prm r, opcut_calculate m prm = Ok r -> result_within prm r.
