(* ===== verification/Geometry.v ===== *)
(** * Geometry: the grain transform and its inverse

    [CuttingOptimizer._transform_item_for_calculation] (lines 91-113) swaps
    width and height of an item whose grain differs from the reference
    panel's.  [CuttingOptimizer._transform_used_item_for_display] (lines
    193-245) builds the displayed item from a placement: it reads the
    dimensions from the placement or, failing that, from the item mapping,
    and for a cross-grain item flips the engraved line and rotates the four
    border flags by a quarter turn. *)

From Stdlib Require Import ZArith String List PrimFloat.
From stdpp Require Import base option list strings gmap.
From S2P Require Import Prelude Model.

(** The dict [_transform_item_for_calculation] returns. *)
Record TransformedItem : Type := mkTransformedItem {
  ti_name : string;
  ti_width : float;
  ti_height : float;
  ti_isRotate : bool;
  ti_quantity : Z;
  ti_grain : Grain;
  ti_engraved_line : EngravedLine;
  ti_borders : gmap string bool;
  ti_original_width : float;
  ti_original_height : float
}.

Definition _transform_item_for_calculation (item : ItemInput) (panel : PanelInput)
  : TransformedItem :=
  let '(cutting_width, cutting_height) :=
    if decide (ii_grain item <> pi_grain panel)
    then (ii_height item, ii_width item)
    else (ii_width item, ii_height item) in
  {| ti_name := ii_name item;
     ti_width := cutting_width;
     ti_height := cutting_height;
     ti_isRotate := ii_isRotate item;
     ti_quantity := ii_quantity item;
     ti_grain := ii_grain item;
     ti_engraved_line := ii_engraved_line item;
     ti_borders := ii_borders item;
     ti_original_width := ii_width item;
     ti_original_height := ii_height item |}.

(** Lines 210-213: the engraved line of a cross-grain item. *)
Definition flip_engraved_line (origin : EngravedLine) : EngravedLine :=
  match origin with
  | line_none => line_none
  | line_horizontal => line_vertical
  | line_vertical => line_horizontal
  end.

(** [borders.get(k, False)] *)
Definition border (borders : gmap string bool) (k : string) : bool :=
  default false (borders !! k).

(** Lines 216-227: the borders of a cross-grain item, a quarter turn
    clockwise. *)
Definition rotate_borders (borders : gmap string bool) : gmap string bool :=
  let left := border borders "left" in
  let top := border borders "top" in
  let right := border borders "right" in
  let bottom := border borders "bottom" in
  {[ "top" := left; "right" := top; "bottom" := right; "left" := bottom ]}.

Definition _transform_used_item_for_display
    (used_item : UsedJson) (item_mapping : gmap string ItemDetails) (panel : PanelInput)
  : UsedItem :=
  let item_id := uj_item used_item in
  let item_details := item_mapping !! item_id in
  let cutting_width :=
    default (from_option id_width 0%float item_details) (uj_width used_item) in
  let cutting_height :=
    default (from_option id_height 0%float item_details) (uj_height used_item) in
  let grain := from_option id_grain vertical item_details in
  let engrand_line_origin := from_option id_engraved_line line_none item_details in
  let borders := from_option id_borders default_borders item_details in
  let '(engrand_line, borders) :=
    if decide (grain <> pi_grain panel)
    then (flip_engraved_line engrand_line_origin, rotate_borders borders)
    else (engrand_line_origin, borders) in
  {| item_id := item_id;
     ui_name := from_option id_name "" item_details;
     ui_width := cutting_width;
     ui_height := cutting_height;
     ui_x := uj_x used_item;
     ui_y := uj_y used_item;
     ui_rotate := uj_rotate used_item;
     ui_grain := grain;
     ui_engraved_line := engrand_line;
     ui_borders := borders |}.

(** ** The forward transform *)

Section forward.
Context (item : ItemInput) (panel : PanelInput).

(** Of the reference panel only the grain matters. *)
Lemma transform_grain_only panel' :
  pi_grain panel = pi_grain panel' ->
  _transform_item_for_calculation item panel = _transform_item_for_calculation item panel'.
Proof. unfold _transform_item_for_calculation. by intros ->. Qed.

Lemma transform_same_grain :
  ii_grain item = pi_grain panel ->
  ti_width (_transform_item_for_calculation item panel) = ii_width item /\
  ti_height (_transform_item_for_calculation item panel) = ii_height item.
Proof. intros Hg. unfold _transform_item_for_calculation. by rewrite decide_False by auto. Qed.

Lemma transform_cross_grain :
  ii_grain item <> pi_grain panel ->
  ti_width (_transform_item_for_calculation item panel) = ii_height item /\
  ti_height (_transform_item_for_calculation item panel) = ii_width item.
Proof. intros Hg. unfold _transform_item_for_calculation. by rewrite decide_True. Qed.

Lemma transform_keeps_original :
  ti_original_width (_transform_item_for_calculation item panel) = ii_width item /\
  ti_original_height (_transform_item_for_calculation item panel) = ii_height item.
Proof. unfold _transform_item_for_calculation. by case_decide. Qed.

Lemma transform_keeps_metadata :
  let t := _transform_item_for_calculation item panel in
  ti_name t = ii_name item /\ ti_isRotate t = ii_isRotate item /\
  ti_quantity t = ii_quantity item /\ ti_grain t = ii_grain item /\
  ti_engraved_line t = ii_engraved_line item /\ ti_borders t = ii_borders item.
Proof. unfold _transform_item_for_calculation. by case_decide. Qed.

End forward.

(** ** The engraved line and the borders *)

Lemma flip_engraved_line_involutive e : flip_engraved_line (flip_engraved_line e) = e.
Proof. by destruct e. Qed.

Lemma flip_engraved_line_none e : flip_engraved_line e = line_none <-> e = line_none.
Proof. by destruct e. Qed.

(** The four keys a [borders] dict is read at. *)
Definition border_keys : gset string := {[ "top"; "right"; "bottom"; "left" ]}.

(** The dict with exactly the four keys, read from [b] with default
    [False]. *)
Definition normal_borders (b : gmap string bool) : gmap string bool :=
  {[ "top" := border b "top"; "right" := border b "right";
     "bottom" := border b "bottom"; "left" := border b "left" ]}.

Lemma dom_rotate_borders b : dom (rotate_borders b) = border_keys.
Proof. reflexivity. Qed.

(** What each side becomes: left goes to top, top to right, right to
    bottom, bottom to left. *)
Lemma rotate_borders_lookup b :
  border (rotate_borders b) "top" = border b "left" /\
  border (rotate_borders b) "right" = border b "top" /\
  border (rotate_borders b) "bottom" = border b "right" /\
  border (rotate_borders b) "left" = border b "bottom".
Proof. done. Qed.

Lemma rotate_borders_4 b : Nat.iter 4 rotate_borders b = normal_borders b.
Proof. reflexivity. Qed.

Lemma normal_borders_id b : dom b = border_keys -> normal_borders b = b.
Proof.
  intros Hd. apply map_eq. intros k.
  destruct (decide (k ∈ border_keys)) as [Hk|Hk].
  - assert (is_Some (b !! k)) as [v Hv] by (apply elem_of_dom; by rewrite Hd).
    unfold border_keys in Hk. rewrite !elem_of_union, !elem_of_singleton in Hk.
    destruct Hk as [[[->| ->]| ->]| ->]; rewrite Hv;
      unfold normal_borders, border; by rewrite Hv.
  - rewrite (proj1 (not_elem_of_dom b k)) by by rewrite Hd.
    apply not_elem_of_dom. by replace (dom (normal_borders b)) with border_keys.
Qed.

(** C29. The border rotation is a 4-cycle: on a dict with exactly the four
    sides as keys, four quarter turns give back the dict. *)
Theorem rotate_borders_cycle (b : gmap string bool) :
  dom b = border_keys -> Nat.iter 4 rotate_borders b = b.
Proof. intros Hd. rewrite rotate_borders_4. by apply normal_borders_id. Qed.

Lemma rotate_borders_cycle_witness :
  dom ({[ "top" := true; "right" := false; "bottom" := false; "left" := true ]}
        : gmap string bool) = border_keys /\
  Nat.iter 4 rotate_borders
    {[ "top" := true; "right" := false; "bottom" := false; "left" := true ]} =
    {[ "top" := true; "right" := false; "bottom" := false; "left" := true ]}.
Proof. split; [reflexivity|]. apply rotate_borders_cycle. reflexivity. Defined.

(** Fewer than four turns do not: the rotation has order exactly four. *)
Lemma rotate_borders_order_exact :
  let b : gmap string bool :=
    {[ "top" := true; "right" := false; "bottom" := false; "left" := false ]} in
  rotate_borders b <> b /\ Nat.iter 2 rotate_borders b <> b /\ Nat.iter 3 rotate_borders b <> b.
Proof.
  split_and!; intros H; apply (f_equal (fun m => m !! "top")) in H; by vm_compute in H.
Qed.

(** ** The display transform *)

Section display.
Context (used_item : UsedJson) (item_mapping : gmap string ItemDetails) (panel : PanelInput).

(** The fields copied from the placement. *)
Lemma display_placement_fields :
  let u := _transform_used_item_for_display used_item item_mapping panel in
  item_id u = uj_item used_item /\ ui_x u = uj_x used_item /\
  ui_y u = uj_y used_item /\ ui_rotate u = uj_rotate used_item.
Proof. unfold _transform_used_item_for_display. by case_decide. Qed.

(** Dimensions reported by the packer win over the mapping's. *)
Lemma display_dims_from_placement w h :
  uj_width used_item = Some w -> uj_height used_item = Some h ->
  let u := _transform_used_item_for_display used_item item_mapping panel in
  ui_width u = w /\ ui_height u = h.
Proof.
  intros Hw Hh. unfold _transform_used_item_for_display. rewrite Hw, Hh. by case_decide.
Qed.

(** Otherwise the displayed dimensions are the mapping's cutting
    dimensions, in the same order. *)
Lemma display_dims_from_mapping d :
  item_mapping !! uj_item used_item = Some d ->
  uj_width used_item = None -> uj_height used_item = None ->
  let u := _transform_used_item_for_display used_item item_mapping panel in
  ui_width u = id_width d /\ ui_height u = id_height d.
Proof.
  intros Hd Hw Hh. unfold _transform_used_item_for_display. rewrite Hd, Hw, Hh.
  by case_decide.
Qed.

Lemma display_same_grain d :
  item_mapping !! uj_item used_item = Some d ->
  id_grain d = pi_grain panel ->
  let u := _transform_used_item_for_display used_item item_mapping panel in
  ui_name u = id_name d /\ ui_grain u = id_grain d /\
  ui_engraved_line u = id_engraved_line d /\ ui_borders u = id_borders d.
Proof.
  intros Hd Hg. unfold _transform_used_item_for_display. rewrite Hd. simpl.
  by rewrite decide_False by auto.
Qed.

Lemma display_cross_grain d :
  item_mapping !! uj_item used_item = Some d ->
  id_grain d <> pi_grain panel ->
  let u := _transform_used_item_for_display used_item item_mapping panel in
  ui_name u = id_name d /\ ui_grain u = id_grain d /\
  ui_engraved_line u = flip_engraved_line (id_engraved_line d) /\
  ui_borders u = rotate_borders (id_borders d).
Proof.
  intros Hd Hg. unfold _transform_used_item_for_display. rewrite Hd. simpl.
  by rewrite decide_True.
Qed.

(** The displayed item for a placement whose item has the details [d]. *)
Definition display_of (d : ItemDetails) (used_item : UsedJson) : UsedItem :=
  let cross := bool_decide (id_grain d <> pi_grain panel) in
  {| item_id := uj_item used_item;
     ui_name := id_name d;
     ui_width := default (id_width d) (uj_width used_item);
     ui_height := default (id_height d) (uj_height used_item);
     ui_x := uj_x used_item;
     ui_y := uj_y used_item;
     ui_rotate := uj_rotate used_item;
     ui_grain := id_grain d;
     ui_engraved_line :=
       if cross then flip_engraved_line (id_engraved_line d) else id_engraved_line d;
     ui_borders := if cross then rotate_borders (id_borders d) else id_borders d |}.

Lemma display_known d :
  item_mapping !! uj_item used_item = Some d ->
  _transform_used_item_for_display used_item item_mapping panel = display_of d used_item.
Proof.
  intros Hd. unfold _transform_used_item_for_display, display_of. rewrite Hd. simpl.
  by case_decide; case_bool_decide.
Qed.

End display.

(** C31. A placement whose item id is not a key of the item mapping does not
    fail: the displayed item carries the defaults of the [.get] calls (empty
    name, vertical grain, zero dimensions unless the placement has its
    own), and against a horizontal panel those defaults are themselves
    treated as cross-grain, so the default borders come out rotated. *)
Theorem display_unknown_item (used_item : UsedJson)
    (item_mapping : gmap string ItemDetails) (panel : PanelInput) :
  item_mapping !! uj_item used_item = None ->
  _transform_used_item_for_display used_item item_mapping panel =
  {| item_id := uj_item used_item;
     ui_name := "";
     ui_width := default 0%float (uj_width used_item);
     ui_height := default 0%float (uj_height used_item);
     ui_x := uj_x used_item;
     ui_y := uj_y used_item;
     ui_rotate := uj_rotate used_item;
     ui_grain := vertical;
     ui_engraved_line := line_none;
     ui_borders :=
       match pi_grain panel with
       | vertical => default_borders
       | horizontal => rotate_borders default_borders
       end |}.
Proof.
  intros Hd. unfold _transform_used_item_for_display. rewrite Hd. simpl.
  destruct (pi_grain panel); by case_decide.
Qed.

Lemma display_unknown_item_witness :
  (∅ : gmap string ItemDetails) !! "ghost_1" = None /\
  ui_name (_transform_used_item_for_display
             (mkUsedJson "P_1" "ghost_1" 0%float 0%float false None None) ∅
             (mkPanelInput "P" 2440%float 1220%float 1 vertical)) = "".
Proof.
  split; [reflexivity|].
  by rewrite (display_unknown_item
                (mkUsedJson "P_1" "ghost_1" 0%float 0%float false None None) ∅
                (mkPanelInput "P" 2440%float 1220%float 1 vertical)).
Defined.
