(* ===== verification/Expander.v ===== *)
(** * Expander: from quantities to individually named units

    [CuttingOptimizer._expand_panels] (lines 115-124) and [_expand_items]
    (lines 126-143) turn each specification of quantity [Q] into the units
    [name_1 .. name_Q]; [_create_item_mapping] (lines 145-165) and
    [_create_panel_mapping] (lines 167-179) build the dicts from unit id
    back to the specification's metadata.  The four functions run the same
    pair of nested loops, so their common part is proved once, for any
    kind of specification, in the section [units]. *)

From Stdlib Require Import ZArith String Ascii List Lia PrimFloat.
From stdpp Require Import base tactics option list strings gmap.
From S2P Require Import Prelude Model Geometry.

(** ** The functions of the program *)

(** [f"{name}_{i+1}"], for the loop index [i] of [range(quantity)]. *)
Definition unit_id (name : string) (i : Z) : string :=
  name +:+ "_" +:+ py_str (i + 1).

Definition _expand_panels (panels : list PanelInput) : list Panel :=
  panels ≫= fun panel =>
    (fun i =>
       {| panel_uid := unit_id (pi_name panel) i;
          panel_w := pi_width panel;
          panel_h := pi_height panel |}) <$> py_range (pi_quantity panel).

Definition _expand_items (items : list ItemInput) (panel : PanelInput) : list Item :=
  items ≫= fun item =>
    let transformed_item := _transform_item_for_calculation item panel in
    (fun i =>
       {| item_uid := unit_id (ii_name item) i;
          item_w := ti_width transformed_item;
          item_h := ti_height transformed_item;
          item_can_rotate := ii_isRotate item |}) <$> py_range (ii_quantity item).

(** The dict stored under each unit id of [item] (lines 154-164). *)
Definition item_details (item : ItemInput) (panel : PanelInput) : ItemDetails :=
  let transformed_item := _transform_item_for_calculation item panel in
  {| id_name := ii_name item;
     id_width := ti_width transformed_item;
     id_height := ti_height transformed_item;
     id_original_width := ii_width item;
     id_original_height := ii_height item;
     id_can_rotate := ii_isRotate item;
     id_grain := ii_grain item;
     id_engraved_line := ii_engraved_line item;
     id_borders := ii_borders item |}.

Definition _create_item_mapping (items : list ItemInput) (panel : PanelInput)
  : gmap string ItemDetails :=
  foldl (fun item_mapping item =>
           foldl (fun item_mapping i =>
                    <[unit_id (ii_name item) i := item_details item panel]> item_mapping)
                 item_mapping (py_range (ii_quantity item)))
        ∅ items.

(** The dict stored under each unit id of [panel] (lines 173-178). *)
Definition panel_details (panel : PanelInput) : PanelDetails :=
  {| pd_name := pi_name panel;
     pd_width := pi_width panel;
     pd_height := pi_height panel;
     pd_grain := pi_grain panel |}.

Definition _create_panel_mapping (panels : list PanelInput) : gmap string PanelDetails :=
  foldl (fun panel_mapping panel =>
           foldl (fun panel_mapping i =>
                    <[unit_id (pi_name panel) i := panel_details panel]> panel_mapping)
                 panel_mapping (py_range (pi_quantity panel)))
        ∅ panels.

(** ** The reference panel *)

Lemma expand_items_grain_only items panel panel' :
  pi_grain panel = pi_grain panel' ->
  _expand_items items panel = _expand_items items panel'.
Proof.
  intros Hg. unfold _expand_items. apply list_bind_ext; [|done].
  intros item. by rewrite (transform_grain_only item panel panel' Hg).
Qed.

(** ** Identifiers *)

Lemma unit_id_unfold name i : unit_id name i = name +:+ String "_" (py_str (i + 1)).
Proof. done. Qed.

(** Unit identifiers are injective: the name and the ordinal can be
    read back from [name_ordinal], because the decimal ordinal contains no
    underscore (the name may). *)
Lemma unit_id_inj (name1 name2 : string) (i1 i2 : Z) :
  unit_id name1 i1 = unit_id name2 i2 -> name1 = name2 /\ i1 = i2.
Proof.
  rewrite !unit_id_unfold. intros H.
  apply str_split_last_inj in H as [-> Hi]; try apply py_str_no_underscore.
  apply (inj py_str) in Hi. split; [done|lia].
Qed.

(** The ordinal is 1-based and printed in decimal. *)
Lemma unit_id_examples :
  unit_id "P" 0 = "P_1" /\ unit_id "P" 9 = "P_10" /\ unit_id "side_panel" 49 = "side_panel_50".
Proof. by vm_compute. Qed.

(** ** The nested loops, for any kind of specification *)

Section units.
Context {S V : Type} (name : S -> string) (quantity : S -> Z) (value : S -> V).
Implicit Types (s : S) (specs : list S) (k : string).

(** The identifiers the loops generate, in order. *)
Definition unit_ids (specs : list S) : list string :=
  specs ≫= fun s => unit_id (name s) <$> py_range (quantity s).

(** The assignments [mapping[id] = value] the loops perform, in order. *)
Definition unit_entries (specs : list S) : list (string * V) :=
  specs ≫= fun s => (fun i => (unit_id (name s) i, value s)) <$> py_range (quantity s).

Lemma unit_entries_keys specs : (unit_entries specs).*1 = unit_ids specs.
Proof.
  unfold unit_entries, unit_ids. induction specs as [|s specs IH]; [done|].
  rewrite !bind_cons, fmap_app, IH. f_equal. by rewrite <- list_fmap_compose.
Qed.

Lemma elem_of_unit_ids k specs :
  k ∈ unit_ids specs <->
  exists s i, s ∈ specs /\ (0 <= i < quantity s)%Z /\ k = unit_id (name s) i.
Proof.
  unfold unit_ids. rewrite list_elem_of_bind. split.
  - intros (s & (i & -> & Hi%elem_of_py_range)%list_elem_of_fmap & Hs). eauto.
  - intros (s & i & Hs & Hi & ->). exists s. split; [|done].
    apply list_elem_of_fmap_2. by apply elem_of_py_range.
Qed.

Lemma elem_of_unit_entries k v specs :
  (k, v) ∈ unit_entries specs <->
  exists s i, s ∈ specs /\ (0 <= i < quantity s)%Z /\ k = unit_id (name s) i /\ v = value s.
Proof.
  unfold unit_entries. rewrite list_elem_of_bind. split.
  - intros (s & (i & [= -> ->] & Hi%elem_of_py_range)%list_elem_of_fmap & Hs). eauto 10.
  - intros (s & i & Hs & Hi & -> & ->). exists s. split; [|done].
    apply (list_elem_of_fmap_2 (fun i => (unit_id (name s) i, value s))).
    by apply elem_of_py_range.
Qed.

(** One unit per ordinal: the number of units is the sum of the
    quantities, a non-positive quantity counting for none. *)
Lemma length_unit_ids specs :
  length (unit_ids specs) = sum_list ((fun s => Z.to_nat (quantity s)) <$> specs).
Proof.
  unfold unit_ids. rewrite length_bind. f_equal. apply list_fmap_ext.
  intros _ s _. by rewrite length_fmap, length_py_range.
Qed.

Lemma unit_ids_one s :
  unit_ids [s] = (fun i => name s +:+ "_" +:+ py_str i) <$> seqZ 1 (quantity s).
Proof.
  unfold unit_ids. rewrite bind_cons. simpl. rewrite app_nil_r. unfold py_range.
  rewrite <- (fmap_add_seqZ 1 0), <- list_fmap_compose.
  apply list_fmap_ext. intros _ i _. unfold unit_id. simpl. by rewrite Z.add_comm.
Qed.

Lemma NoDup_unit_ids_one s : NoDup (unit_id (name s) <$> py_range (quantity s)).
Proof.
  apply NoDup_fmap_2_strong; [|apply NoDup_py_range].
  intros i j _ _ H. by apply unit_id_inj in H as [_ ?].
Qed.

(** With pairwise distinct names, no identifier is generated twice. *)
Lemma NoDup_unit_ids specs : NoDup (name <$> specs) -> NoDup (unit_ids specs).
Proof.
  intros Hnd. apply NoDup_bind.
  - intros s1 s2 k Hs1 Hs2 (i1 & -> & _)%list_elem_of_fmap (i2 & Hk & _)%list_elem_of_fmap.
    apply unit_id_inj in Hk as [Hn _]. by apply (NoDup_fmap_eq name specs).
  - intros s _. apply NoDup_unit_ids_one.
  - by apply NoDup_fmap_1 in Hnd.
Qed.

(** The dict the loops fill. *)
Definition unit_mapping (specs : list S) : gmap string V :=
  foldl (fun mapping s =>
           foldl (fun mapping i => <[unit_id (name s) i := value s]> mapping)
                 mapping (py_range (quantity s)))
        ∅ specs.

Lemma unit_mapping_fill specs : unit_mapping specs = dict_fill ∅ (unit_entries specs).
Proof.
  unfold unit_mapping. generalize (∅ : gmap string V).
  induction specs as [|s specs IH]; intros m; [done|].
  unfold unit_entries. rewrite bind_cons, dict_fill_app. simpl. rewrite IH. f_equal.
  unfold dict_fill. by rewrite foldl_fmap.
Qed.

Lemma dom_unit_mapping specs : dom (unit_mapping specs) = list_to_set (unit_ids specs).
Proof.
  rewrite unit_mapping_fill, dom_dict_fill, unit_entries_keys, dom_empty_L. set_solver.
Qed.

Lemma unit_mapping_lookup_Some k v specs :
  unit_mapping specs !! k = Some v ->
  exists s i, s ∈ specs /\ (0 <= i < quantity s)%Z /\ k = unit_id (name s) i /\ v = value s.
Proof.
  rewrite unit_mapping_fill. intros [H|[_ H]]%dict_fill_lookup_Some; [|done].
  by apply elem_of_unit_entries.
Qed.

Lemma unit_mapping_lookup specs s i :
  NoDup (name <$> specs) -> s ∈ specs -> (0 <= i < quantity s)%Z ->
  unit_mapping specs !! unit_id (name s) i = Some (value s).
Proof.
  intros Hnd Hs Hi. rewrite unit_mapping_fill. apply dict_fill_lookup_NoDup.
  - rewrite unit_entries_keys. by apply NoDup_unit_ids.
  - apply elem_of_unit_entries. eauto 10.
Qed.

(** Without the assumption on names the last specification that generates
    an identifier is the one the dict keeps. *)
Lemma unit_mapping_lookup_last specs1 s specs2 i :
  (0 <= i < quantity s)%Z ->
  unit_id (name s) i ∉ unit_ids specs2 ->
  unit_mapping (specs1 ++ s :: specs2) !! unit_id (name s) i = Some (value s).
Proof.
  intros Hi Hnotin. rewrite unit_mapping_fill. unfold unit_entries.
  rewrite bind_app, bind_cons. fold (unit_entries specs1) (unit_entries specs2).
  pose proof (NoDup_py_range (quantity s)) as Hnd.
  apply elem_of_py_range, list_elem_of_split in Hi as (r1 & r2 & Hr).
  rewrite Hr in Hnd |- *. rewrite fmap_app, fmap_cons, <- (app_assoc _ _ (unit_entries specs2)).
  rewrite <- app_comm_cons, app_assoc. apply dict_fill_lookup_last.
  rewrite fmap_app, not_elem_of_app, unit_entries_keys. split; [|done].
  rewrite <- list_fmap_compose. intros (j & Hj & Hin)%list_elem_of_fmap. simpl in Hj.
  apply unit_id_inj in Hj as [_ <-].
  apply NoDup_app in Hnd as (_ & _ & Hnd). by apply NoDup_cons in Hnd as [? _].
Qed.

End units.

(** ** Panels *)

Lemma expand_panels_ids panels :
  panel_uid <$> _expand_panels panels = unit_ids pi_name pi_quantity panels.
Proof.
  unfold _expand_panels, unit_ids. induction panels as [|p panels IH]; [done|].
  rewrite !bind_cons, fmap_app, IH. f_equal. by rewrite <- list_fmap_compose.
Qed.

Lemma create_panel_mapping_units panels :
  _create_panel_mapping panels = unit_mapping pi_name pi_quantity panel_details panels.
Proof. done. Qed.

(** What [_expand_panels] returns: exactly the units [name_(i+1)] for
    the indices [0 <= i < quantity] of each specification, with the
    specification's width and height unchanged. *)
Lemma elem_of_expand_panels (u : Panel) (panels : list PanelInput) :
  u ∈ _expand_panels panels <->
  exists p i, p ∈ panels /\ (0 <= i < pi_quantity p)%Z /\
    u = mkPanel (unit_id (pi_name p) i) (pi_width p) (pi_height p).
Proof.
  unfold _expand_panels. rewrite list_elem_of_bind. split.
  - intros (p & (i & -> & Hi%elem_of_py_range)%list_elem_of_fmap & Hp). eauto.
  - intros (p & i & Hp & Hi & ->). exists p. split; [|done].
    apply (list_elem_of_fmap_2
             (fun i => mkPanel (unit_id (pi_name p) i) (pi_width p) (pi_height p))).
    by apply elem_of_py_range.
Qed.

(** The identifiers of one specification of quantity [Q] are
    [name_1, ..., name_Q], in this order (none when [Q <= 0]). *)
Lemma expand_panels_one_ids (p : PanelInput) :
  panel_uid <$> _expand_panels [p] =
  (fun k => pi_name p +:+ "_" +:+ py_str k) <$> seqZ 1 (pi_quantity p).
Proof. rewrite expand_panels_ids. apply unit_ids_one. Qed.

(** The number of panel units is the sum of the quantities, where a
    zero or negative quantity contributes no unit. *)
Lemma length_expand_panels (panels : list PanelInput) :
  length (_expand_panels panels) = sum_list ((fun p => Z.to_nat (pi_quantity p)) <$> panels).
Proof.
  rewrite <- (length_fmap panel_uid), expand_panels_ids. apply length_unit_ids.
Qed.

(** C5. With pairwise distinct specification names every panel unit id of
    an attempt is unique. *)
Theorem expand_panels_NoDup (panels : list PanelInput) :
  NoDup (pi_name <$> panels) -> NoDup (panel_uid <$> _expand_panels panels).
Proof. rewrite expand_panels_ids. apply NoDup_unit_ids. Qed.

(** Two panel types used in the examples. *)
Definition ex_panel_A : PanelInput := mkPanelInput "A" 2440%float 1220%float 2 vertical.
Definition ex_panel_B : PanelInput := mkPanelInput "B_1" 1000%float 500%float 1 horizontal.

Lemma expand_panels_NoDup_witness :
  NoDup (pi_name <$> [ex_panel_A; ex_panel_B]) /\
  NoDup (panel_uid <$> _expand_panels [ex_panel_A; ex_panel_B]).
Proof.
  assert (NoDup (pi_name <$> [ex_panel_A; ex_panel_B])) as H by by_compute.
  split; [exact H|]. exact (expand_panels_NoDup [ex_panel_A; ex_panel_B] H).
Defined.

(** C30. The request is not checked for distinct names: two specifications
    with the same name generate the same identifiers, and the panel list
    handed to the packer then holds two units with one id. *)
Theorem expand_panels_same_name_collide (p1 p2 : PanelInput) :
  pi_name p1 = pi_name p2 -> (0 < pi_quantity p1)%Z -> (0 < pi_quantity p2)%Z ->
  ~ NoDup (panel_uid <$> _expand_panels [p1; p2]).
Proof.
  intros Hn H1 H2 Hnd. rewrite expand_panels_ids in Hnd. unfold unit_ids in Hnd.
  rewrite !bind_cons in Hnd. apply NoDup_app in Hnd as (_ & Hdisj & _).
  apply (Hdisj (unit_id (pi_name p1) 0)).
  - apply list_elem_of_fmap_2, elem_of_py_range. lia.
  - rewrite Hn. simpl. rewrite app_nil_r. apply list_elem_of_fmap_2, elem_of_py_range. lia.
Qed.

Lemma expand_panels_same_name_collide_witness :
  ~ NoDup (panel_uid <$> _expand_panels [ex_panel_A; ex_panel_A]).
Proof. apply expand_panels_same_name_collide; [reflexivity|reflexivity|reflexivity]. Defined.

(** The keys of the panel mapping are exactly the ids of the expanded
    panel units. *)
Lemma dom_create_panel_mapping (panels : list PanelInput) :
  dom (_create_panel_mapping panels) = list_to_set (panel_uid <$> _expand_panels panels).
Proof. rewrite expand_panels_ids. apply dom_unit_mapping. Qed.

(** With distinct names, the panel mapping sends every unit id to the
    metadata of the specification that generated it. *)
Lemma create_panel_mapping_lookup (panels : list PanelInput) (p : PanelInput) (i : Z) :
  NoDup (pi_name <$> panels) -> p ∈ panels -> (0 <= i < pi_quantity p)%Z ->
  _create_panel_mapping panels !! unit_id (pi_name p) i = Some (panel_details p).
Proof. apply unit_mapping_lookup. Qed.

Lemma create_panel_mapping_lookup_witness :
  _create_panel_mapping [ex_panel_A; ex_panel_B] !! "A_2" = Some (panel_details ex_panel_A).
Proof.
  apply (create_panel_mapping_lookup [ex_panel_A; ex_panel_B] ex_panel_A 1).
  - by_compute.
  - by left.
  - by vm_compute.
Defined.

(** ** Items *)

Lemma expand_items_ids items panel :
  item_uid <$> _expand_items items panel = unit_ids ii_name ii_quantity items.
Proof.
  unfold _expand_items, unit_ids. induction items as [|it items IH]; [done|].
  rewrite !bind_cons, fmap_app, IH. f_equal. by rewrite <- list_fmap_compose.
Qed.

Lemma create_item_mapping_units items panel :
  _create_item_mapping items panel =
  unit_mapping ii_name ii_quantity (fun item => item_details item panel) items.
Proof. done. Qed.

(** The unit of [item] with index [i], as [_expand_items] builds it. *)
Definition item_unit (item : ItemInput) (panel : PanelInput) (i : Z) : Item :=
  {| item_uid := unit_id (ii_name item) i;
     item_w := ti_width (_transform_item_for_calculation item panel);
     item_h := ti_height (_transform_item_for_calculation item panel);
     item_can_rotate := ii_isRotate item |}.

(** What [_expand_items] returns: exactly the units [name_(i+1)] for the
    indices [0 <= i < quantity] of each item, each with the cutting
    dimensions of the item against the reference panel and its rotate
    flag. *)
Lemma elem_of_expand_items (u : Item) (items : list ItemInput) (panel : PanelInput) :
  u ∈ _expand_items items panel <->
  exists item i, item ∈ items /\ (0 <= i < ii_quantity item)%Z /\ u = item_unit item panel i.
Proof.
  unfold _expand_items. rewrite list_elem_of_bind. split.
  - intros (it & (i & -> & Hi%elem_of_py_range)%list_elem_of_fmap & Hit). eauto.
  - intros (it & i & Hit & Hi & ->). exists it. split; [|done].
    apply (list_elem_of_fmap_2 (item_unit it panel)). by apply elem_of_py_range.
Qed.

Lemma expand_items_NoDup items panel :
  NoDup (ii_name <$> items) -> NoDup (item_uid <$> _expand_items items panel).
Proof. rewrite expand_items_ids. apply NoDup_unit_ids. Qed.


Lemma dom_create_item_mapping items panel :
  dom (_create_item_mapping items panel) = list_to_set (item_uid <$> _expand_items items panel).
Proof. rewrite expand_items_ids. apply dom_unit_mapping. Qed.

Lemma create_item_mapping_lookup items panel item i :
  NoDup (ii_name <$> items) -> item ∈ items -> (0 <= i < ii_quantity item)%Z ->
  _create_item_mapping items panel !! unit_id (ii_name item) i = Some (item_details item panel).
Proof. apply (unit_mapping_lookup ii_name ii_quantity (fun item => item_details item panel)). Qed.

(** C17. The two builders agree: with distinct item names, every unit
    handed to the packer is a key of the item mapping, and the mapping
    records the very dimensions and rotate flag the unit carries. *)
Theorem create_item_mapping_agrees (items : list ItemInput) (panel : PanelInput) (u : Item) :
  NoDup (ii_name <$> items) -> u ∈ _expand_items items panel ->
  exists d, _create_item_mapping items panel !! item_uid u = Some d /\
    id_width d = item_w u /\ id_height d = item_h u /\ id_can_rotate d = item_can_rotate u.
Proof.
  intros Hnd (item & i & Hit & Hi & ->)%elem_of_expand_items.
  exists (item_details item panel). split; [|done]. by apply create_item_mapping_lookup.
Qed.

(** Two item types used in the examples: one aligned with a vertical
    panel, one across it. *)
Definition ex_item_shelf : ItemInput :=
  mkItemInput "shelf" 500%float 300%float false 2 vertical line_none default_borders.
Definition ex_item_door : ItemInput :=
  mkItemInput "door" 500%float 300%float false 1 horizontal line_horizontal
    {[ "top" := true; "right" := false; "bottom" := false; "left" := false ]}.

Lemma create_item_mapping_agrees_witness :
  exists d, _create_item_mapping [ex_item_shelf; ex_item_door] ex_panel_A !! "door_1" = Some d /\
    id_width d = 300%float /\ id_height d = 500%float /\ id_can_rotate d = false.
Proof.
  apply (create_item_mapping_agrees [ex_item_shelf; ex_item_door] ex_panel_A
           (item_unit ex_item_door ex_panel_A 0)).
  - by_compute.
  - apply elem_of_expand_items. exists ex_item_door, 0%Z.
    split; [by right; left|]. by vm_compute.
Defined.

(** ** From a placement back to the request *)

(** A placement of the unit [i] of [item], as [common.result_to_json]
    reports it: the ids, the position and the rotated flag, no
    dimensions. *)
Definition placement_of (pid : string) (item : ItemInput) (i : Z) (x y : float) (rot : bool)
  : UsedJson :=
  mkUsedJson pid (unit_id (ii_name item) i) x y rot None None.

(** C27. Round trip for an item whose grain matches the reference panel.
    In a request whose item names are pairwise distinct, take an item
    type with the grain of the reference panel and one of its units
    ([0 <= i < quantity]): expanding the request, placing that unit and
    transforming the placement for display gives back the declared
    width, height, engraved line and borders of the type.  (With a name
    used twice the mapping holds the type declared last, see
    [display_repeated_name].) *)
Theorem display_same_grain_roundtrip
    (items : list ItemInput) (panel : PanelInput) (item : ItemInput) (i : Z)
    (pid : string) (x y : float) (rot : bool) :
  NoDup (ii_name <$> items) -> item ∈ items -> (0 <= i < ii_quantity item)%Z ->
  ii_grain item = pi_grain panel ->
  _transform_used_item_for_display (placement_of pid item i x y rot)
    (_create_item_mapping items panel) panel =
  {| item_id := unit_id (ii_name item) i;
     ui_name := ii_name item;
     ui_width := ii_width item;
     ui_height := ii_height item;
     ui_x := x; ui_y := y; ui_rotate := rot;
     ui_grain := ii_grain item;
     ui_engraved_line := ii_engraved_line item;
     ui_borders := ii_borders item |}.
Proof.
  intros Hnd Hin Hi Hg. unfold _transform_used_item_for_display, placement_of. simpl.
  rewrite create_item_mapping_lookup by done. simpl.
  unfold _transform_item_for_calculation.
  by rewrite !decide_False by auto.
Qed.

(** For an item whose grain differs from the reference panel's the
    display transform does not undo the swap, although its docstring
    (line 194) says it transforms back to the original dimensions: the
    displayed width is the declared height and the displayed height the
    declared width, while the engraved line is flipped and the borders
    are rotated. *)
Lemma display_cross_grain_swapped
    (items : list ItemInput) (panel : PanelInput) (item : ItemInput) (i : Z)
    (pid : string) (x y : float) (rot : bool) :
  NoDup (ii_name <$> items) -> item ∈ items -> (0 <= i < ii_quantity item)%Z ->
  ii_grain item <> pi_grain panel ->
  _transform_used_item_for_display (placement_of pid item i x y rot)
    (_create_item_mapping items panel) panel =
  {| item_id := unit_id (ii_name item) i;
     ui_name := ii_name item;
     ui_width := ii_height item;
     ui_height := ii_width item;
     ui_x := x; ui_y := y; ui_rotate := rot;
     ui_grain := ii_grain item;
     ui_engraved_line := flip_engraved_line (ii_engraved_line item);
     ui_borders := rotate_borders (ii_borders item) |}.
Proof.
  intros Hnd Hin Hi Hg. unfold _transform_used_item_for_display, placement_of. simpl.
  rewrite create_item_mapping_lookup by done. simpl.
  unfold _transform_item_for_calculation.
  by rewrite !decide_True.
Qed.

Lemma display_same_grain_roundtrip_witness :
  _transform_used_item_for_display
    (placement_of "A_1" ex_item_shelf 1 0%float 0%float false)
    (_create_item_mapping [ex_item_shelf; ex_item_door] ex_panel_A) ex_panel_A =
  {| item_id := "shelf_2"; ui_name := "shelf";
     ui_width := 500%float; ui_height := 300%float;
     ui_x := 0%float; ui_y := 0%float; ui_rotate := false;
     ui_grain := vertical; ui_engraved_line := line_none;
     ui_borders := default_borders |}.
Proof.
  apply (display_same_grain_roundtrip [ex_item_shelf; ex_item_door] ex_panel_A
           ex_item_shelf 1); [by_compute|by left|by vm_compute|done].
Defined.

Lemma display_cross_grain_swapped_witness :
  _transform_used_item_for_display
    (placement_of "A_1" ex_item_door 0 0%float 0%float false)
    (_create_item_mapping [ex_item_shelf; ex_item_door] ex_panel_A) ex_panel_A =
  {| item_id := "door_1"; ui_name := "door";
     ui_width := 300%float; ui_height := 500%float;
     ui_x := 0%float; ui_y := 0%float; ui_rotate := false;
     ui_grain := horizontal; ui_engraved_line := line_vertical;
     ui_borders := rotate_borders (ii_borders ex_item_door) |}.
Proof.
  apply (display_cross_grain_swapped [ex_item_shelf; ex_item_door] ex_panel_A
           ex_item_door 0); [by_compute|by right; left|by vm_compute|done].
Defined.


(** Two item types with one name: both are expanded, under the same
    identifiers, and the mapping keeps the type declared last, so a unit
    of the first is displayed with the size and the engraved line of the
    second. *)
Lemma display_repeated_name :
  let first := mkItemInput "a" 10%float 20%float false 1 vertical line_none default_borders in
  let second :=
    mkItemInput "a" 30%float 40%float false 1 vertical line_horizontal default_borders in
  let panel := mkPanelInput "P" 100%float 100%float 1 vertical in
  item_uid <$> _expand_items [first; second] panel = ["a_1"; "a_1"] /\
  (fun e => (ui_width e, ui_height e, ui_engraved_line e))
    (_transform_used_item_for_display (placement_of "P_1" first 0 0%float 0%float false)
       (_create_item_mapping [first; second] panel) panel) =
  (30%float, 40%float, line_horizontal).
Proof. split; by vm_compute. Qed.
