(* ===== verification/Assembler.v ===== *)
(** * Assembler: from the packer's flat answer to panels

    [CuttingOptimizer._build_panel_structure] (lines 181-191) and
    [CuttingOptimizer.transform_result] (lines 247-311).  The function
    walks the placements, then the unused regions; for each it makes sure
    the panel named there is a key of [panels_dict] (building it from the
    panel mapping, which raises [KeyError] for an unknown id) and appends
    to that panel.  The panels are then sorted by id and counted.

    The file shows that [panels_dict] keeps its invariant through both
    loops ([panels_dict_inv]), gives the result of [transform_result] on
    every branch as a closed formula ([transform_result_unfold]), and
    derives from it the order of the panels, the content of each panel,
    the summary, and that the response does not depend on the order in
    which the packer lists its placements ([response_equiv]). *)

From Stdlib Require Import ZArith String List Lia PrimFloat Morphisms.
From stdpp Require Import base tactics option list strings gmap sorting.
From S2P Require Import Prelude PyDict Model Geometry Expander.

(** ** The functions of the program *)

Definition _build_panel_structure (pid : string) (panel_mapping : gmap string PanelDetails)
  : res PanelOutput :=
  panel_data <- py_getitem panel_mapping pid ;;
  Ok {| panel_id := pid;
        panel_name := pd_name panel_data;
        po_width := pd_width panel_data;
        po_height := pd_height panel_data;
        used_items := [];
        unused_areas := [] |}.

(** Lines 262-263 and 273-274: [if panel_id not in panels_dict:
    panels_dict[panel_id] = self._build_panel_structure(...)]. *)
Definition ensure_panel (pid : string) (panel_mapping : gmap string PanelDetails)
    (panels_dict : odict PanelOutput) : res (odict PanelOutput) :=
  if od_contains pid panels_dict then Ok panels_dict
  else
    structure <- _build_panel_structure pid panel_mapping ;;
    Ok (od_set pid structure panels_dict).

(** [panel["used_items"].append(e)] *)
Definition append_used (e : UsedItem) (p : PanelOutput) : PanelOutput :=
  {| panel_id := panel_id p; panel_name := panel_name p;
     po_width := po_width p; po_height := po_height p;
     used_items := used_items p ++ [e];
     unused_areas := unused_areas p |}.

(** [panel["unused_areas"].append(a)] *)
Definition append_unused (a : UnusedArea) (p : PanelOutput) : PanelOutput :=
  {| panel_id := panel_id p; panel_name := panel_name p;
     po_width := po_width p; po_height := po_height p;
     used_items := used_items p;
     unused_areas := unused_areas p ++ [a] |}.

(** The body of the loop over [result["used"]] (lines 259-266). *)
Definition process_used (item_mapping : gmap string ItemDetails)
    (panel_mapping : gmap string PanelDetails) (panel0 : PanelInput)
    (panels_dict : odict PanelOutput) (used_item : UsedJson) : res (odict PanelOutput) :=
  let pid := uj_panel used_item in
  panels_dict <- ensure_panel pid panel_mapping panels_dict ;;
  let enriched_item := _transform_used_item_for_display used_item item_mapping panel0 in
  Ok (od_alter (append_used enriched_item) pid panels_dict).

(** The dict appended for an unused region (lines 276-281). *)
Definition unused_area_of (unused_area : UnusedJson) : UnusedArea :=
  {| ua_width := nj_width unused_area;
     ua_height := nj_height unused_area;
     ua_x := nj_x unused_area;
     ua_y := nj_y unused_area |}.

(** The body of the loop over [result["unused"]] (lines 270-281). *)
Definition process_unused (panel_mapping : gmap string PanelDetails)
    (panels_dict : odict PanelOutput) (unused_area : UnusedJson) : res (odict PanelOutput) :=
  let pid := nj_panel unused_area in
  panels_dict <- ensure_panel pid panel_mapping panels_dict ;;
  Ok (od_alter (append_unused (unused_area_of unused_area)) pid panels_dict).

(** Lines 288-290: [result.get("cuts", [])], with [None] replaced by []. *)
Definition result_cuts (result : ResultJson) : list string :=
  match rj_cuts result with
  | Some (Some cuts) => cuts
  | Some None | None => []
  end.

(** Lines 293-297. *)
Definition result_summary (panels_list : list PanelOutput) (result : ResultJson)
  : gmap string Z :=
  {[ "total_panels_used" := Z.of_nat (length panels_list);
     "total_items_placed" := Z.of_nat (length (default [] (rj_used result)));
     "total_unused_areas" := Z.of_nat (length (default [] (rj_unused result))) ]}.

Definition transform_result (result : ResultJson) (user_params : UserParams)
  : res CalculationResponse :=
  panel0 <- py_head (panels user_params) ;;
  let item_mapping := _create_item_mapping (items user_params) panel0 in
  let panel_mapping := _create_panel_mapping (panels user_params) in
  panels_dict <- res_foldl (process_used item_mapping panel_mapping panel0) []
                   (default [] (rj_used result)) ;;
  panels_dict <- res_foldl (process_unused panel_mapping) panels_dict
                   (default [] (rj_unused result)) ;;
  let panels_list := py_sorted panel_id (od_values panels_dict) in
  Ok {| success := true;
        resp_panels := panels_list;
        cuts := result_cuts result;
        summary := result_summary panels_list result;
        error := None;
        calculation_time := None |}.

(** ** The invariant of [panels_dict] *)

(** What holds of [panels_dict] between any two rounds of the two loops:
    no key occurs twice, every key is a key of the panel mapping, and the
    panel stored under a key has the key as its id and the name and size
    the panel mapping records for it. *)
Definition panels_dict_inv (panel_mapping : gmap string PanelDetails)
    (panels_dict : odict PanelOutput) : Prop :=
  od_wf panels_dict /\
  Forall (fun kv => exists d, panel_mapping !! kv.1 = Some d /\
            panel_id kv.2 = kv.1 /\ panel_name kv.2 = pd_name d /\
            po_width kv.2 = pd_width d /\ po_height kv.2 = pd_height d) panels_dict.

Section invariant.
Context (item_mapping : gmap string ItemDetails).
Context (panel_mapping : gmap string PanelDetails) (panel0 : PanelInput).
Implicit Types (panels_dict : odict PanelOutput) (pid : string).

Lemma panels_dict_inv_nil : panels_dict_inv panel_mapping [].
Proof. split; auto with py. Qed.

Lemma ensure_panel_inv pid panels_dict panels_dict' :
  panels_dict_inv panel_mapping panels_dict ->
  ensure_panel pid panel_mapping panels_dict = Ok panels_dict' ->
  panels_dict_inv panel_mapping panels_dict' /\ pid ∈ od_keys panels_dict'.
Proof.
  intros [Hwf Hall]. unfold ensure_panel.
  destruct (od_contains pid panels_dict) eqn:Hc; [intros [= <-]; by apply od_contains_true in Hc|].
  intros (structure & Hs & [= <-])%res_bind_Ok_inv. apply od_contains_false in Hc.
  unfold _build_panel_structure in Hs.
  apply res_bind_Ok_inv in Hs as (d & Hd%py_getitem_Ok & [= <-]).
  split; [split; [auto with py|]|].
  - rewrite od_set_notin by done. apply Forall_app. split; [done|].
    constructor; [|done]. by exists d.
  - rewrite od_keys_set_notin by done. set_solver.
Qed.

Lemma od_alter_inv f pid panels_dict :
  (forall p, panel_id (f p) = panel_id p /\ panel_name (f p) = panel_name p /\
             po_width (f p) = po_width p /\ po_height (f p) = po_height p) ->
  panels_dict_inv panel_mapping panels_dict ->
  panels_dict_inv panel_mapping (od_alter f pid panels_dict).
Proof.
  intros Hf [Hwf Hall]. split; [auto with py|]. unfold od_alter.
  apply Forall_fmap. eapply Forall_impl; [done|]. intros [k p] (d & Hd & Hp). simpl in *.
  case_decide; [|by exists d]. exists d. simpl. destruct (Hf p) as (-> & -> & -> & ->). done.
Qed.

Lemma process_used_inv panels_dict panels_dict' used_item :
  panels_dict_inv panel_mapping panels_dict ->
  process_used item_mapping panel_mapping panel0 panels_dict used_item = Ok panels_dict' ->
  panels_dict_inv panel_mapping panels_dict'.
Proof.
  intros Hinv (d1 & [Hd1 _]%ensure_panel_inv & [= <-])%res_bind_Ok_inv; [|done].
  by apply od_alter_inv.
Qed.

Lemma process_unused_inv panels_dict panels_dict' unused_area :
  panels_dict_inv panel_mapping panels_dict ->
  process_unused panel_mapping panels_dict unused_area = Ok panels_dict' ->
  panels_dict_inv panel_mapping panels_dict'.
Proof.
  intros Hinv (d1 & [Hd1 _]%ensure_panel_inv & [= <-])%res_bind_Ok_inv; [|done].
  by apply od_alter_inv.
Qed.

(** The invariant holds when the two loops are done. *)
Lemma grouping_loops_inv used unused panels_dict1 panels_dict2 :
  res_foldl (process_used item_mapping panel_mapping panel0) [] used = Ok panels_dict1 ->
  res_foldl (process_unused panel_mapping) panels_dict1 unused = Ok panels_dict2 ->
  panels_dict_inv panel_mapping panels_dict2.
Proof.
  intros H1 H2.
  eapply (res_foldl_invariant _ (panels_dict_inv panel_mapping)); [| |exact H2].
  - intros ? ? ? _. apply process_unused_inv.
  - eapply (res_foldl_invariant _ (panels_dict_inv panel_mapping)); [| |exact H1].
    + intros ? ? ? _. apply process_used_inv.
    + apply panels_dict_inv_nil.
Qed.

End invariant.

(** ** The specification of the grouping *)

Section grouping.
Context (item_mapping : gmap string ItemDetails).
Context (panel_mapping : gmap string PanelDetails) (panel0 : PanelInput).
Implicit Types (us : list UsedJson) (ns : list UnusedJson) (pid : string).

(** The panel ids in the order the two loops meet them. *)
Definition placement_ids (us : list UsedJson) (ns : list UnusedJson) : list string :=
  (uj_panel <$> us) ++ (nj_panel <$> ns).

(** The panel [pid] of the response: the metadata of the panel mapping,
    the placements that name [pid] and the unused regions that name it,
    each in the packer's order. *)
Definition panel_spec (us : list UsedJson) (ns : list UnusedJson) (pid : string)
  : PanelOutput :=
  {| panel_id := pid;
     panel_name := from_option pd_name "" (panel_mapping !! pid);
     po_width := from_option pd_width 0%float (panel_mapping !! pid);
     po_height := from_option pd_height 0%float (panel_mapping !! pid);
     used_items :=
       (fun u => _transform_used_item_for_display u item_mapping panel0)
         <$> filter (fun u => uj_panel u = pid) us;
     unused_areas := unused_area_of <$> filter (fun n => nj_panel n = pid) ns |}.

(** [panels_dict] after the placements [us] and the unused regions [ns]. *)
Definition dict_spec (us : list UsedJson) (ns : list UnusedJson) : odict PanelOutput :=
  od_table (panel_spec us ns) (first_occurrences (placement_ids us ns)).

(** The first panel id the loops meet that the panel mapping lacks. *)
Definition first_unknown (ids : list string) : option string :=
  head (filter (fun pid => pid ∉ dom panel_mapping) ids).

Lemma build_panel_structure_unknown pid :
  pid ∉ dom panel_mapping ->
  _build_panel_structure pid panel_mapping = Raise (Exn KeyError (py_repr pid)).
Proof.
  intros H%not_elem_of_dom. unfold _build_panel_structure, py_getitem. by rewrite H.
Qed.

Lemma build_panel_structure_fresh us ns pid :
  pid ∈ dom panel_mapping -> pid ∉ placement_ids us ns ->
  _build_panel_structure pid panel_mapping = Ok (panel_spec us ns pid).
Proof.
  intros [d Hd]%elem_of_dom Hfresh. unfold _build_panel_structure, py_getitem, panel_spec.
  rewrite Hd. simpl. unfold placement_ids in Hfresh. rewrite not_elem_of_app in Hfresh.
  destruct Hfresh as [Hus Hns]. do 2 f_equal.
  - rewrite filter_none; [done|]. apply Forall_forall.
    intros u Hu <-. apply Hus. by apply list_elem_of_fmap_2.
  - rewrite filter_none; [done|]. apply Forall_forall.
    intros n Hn <-. apply Hns. by apply list_elem_of_fmap_2.
Qed.

Lemma ensure_panel_unknown us ns pid :
  Forall (fun k => k ∈ dom panel_mapping) (placement_ids us ns) ->
  pid ∉ dom panel_mapping ->
  ensure_panel pid panel_mapping (dict_spec us ns) = Raise (Exn KeyError (py_repr pid)).
Proof.
  intros Hknown Hpid. unfold ensure_panel.
  rewrite (proj2 (od_contains_false _ _)).
  - by rewrite build_panel_structure_unknown.
  - unfold dict_spec. rewrite od_keys_table, elem_of_first_occurrences.
    intros Hin. rewrite Forall_forall in Hknown. by apply Hpid, Hknown.
Qed.

(** One round on a known panel id: the key is ensured, then [f] is applied
    to the panel under it. *)
Lemma ensure_then_alter us ns pid f :
  pid ∈ dom panel_mapping ->
  (d <- ensure_panel pid panel_mapping (dict_spec us ns) ;; Ok (od_alter f pid d)) =
  Ok (od_table (fun k => if decide (k = pid) then f (panel_spec us ns k) else panel_spec us ns k)
        (first_occurrences (placement_ids us ns ++ [pid]))).
Proof.
  intros Hpid. rewrite first_occurrences_snoc.
  rewrite <- (bool_decide_ext _ _ (elem_of_first_occurrences pid (placement_ids us ns))).
  unfold ensure_panel, dict_spec. destruct (od_contains pid _) eqn:Hc.
  - simpl. f_equal.
    rewrite <- (od_group_step_same f (panel_spec us ns pid)) by done. by rewrite Hc.
  - apply od_contains_false in Hc. rewrite od_keys_table, elem_of_first_occurrences in Hc.
    rewrite (build_panel_structure_fresh us ns) by done. simpl. f_equal.
    rewrite <- (od_group_step_same f (panel_spec us ns pid)) by done.
    by rewrite (proj2 (od_contains_false _ _)) by by rewrite od_keys_table, elem_of_first_occurrences.
Qed.

Lemma process_used_known us u :
  uj_panel u ∈ dom panel_mapping ->
  process_used item_mapping panel_mapping panel0 (dict_spec us []) u =
  Ok (dict_spec (us ++ [u]) []).
Proof.
  intros Hu. unfold process_used. rewrite ensure_then_alter by done. f_equal.
  unfold dict_spec, placement_ids. rewrite !fmap_app, !app_nil_r. csimpl.
  apply od_table_ext. intros k _. unfold panel_spec, append_used. simpl.
  rewrite filter_app, filter_cons, filter_nil.
  case_decide as Hk; [subst; by rewrite decide_True, fmap_app|].
  by rewrite decide_False, app_nil_r by congruence.
Qed.

Lemma process_unused_known us ns n :
  nj_panel n ∈ dom panel_mapping ->
  process_unused panel_mapping (dict_spec us ns) n = Ok (dict_spec us (ns ++ [n])).
Proof.
  intros Hn. unfold process_unused. rewrite ensure_then_alter by done. f_equal.
  unfold dict_spec, placement_ids. rewrite !fmap_app, app_assoc. csimpl.
  apply od_table_ext. intros k _. unfold panel_spec, append_unused. simpl.
  rewrite filter_app, filter_cons, filter_nil.
  case_decide as Hk; [subst; by rewrite decide_True, fmap_app|].
  by rewrite decide_False, app_nil_r by congruence.
Qed.

Lemma first_unknown_app ids1 ids2 :
  first_unknown (ids1 ++ ids2) =
  match first_unknown ids1 with Some pid => Some pid | None => first_unknown ids2 end.
Proof.
  unfold first_unknown. rewrite filter_app.
  by destruct (filter _ ids1).
Qed.

Lemma first_unknown_None ids :
  first_unknown ids = None <-> Forall (fun k => k ∈ dom panel_mapping) ids.
Proof.
  unfold first_unknown. rewrite head_None. split.
  - intros H. apply Forall_forall. intros k Hk.
    destruct (decide (k ∈ dom panel_mapping)) as [|Hn]; [done|].
    by destruct (filter_nil_not_elem_of _ _ k H Hn).
  - intros H. apply filter_none. eapply Forall_impl; [done|]. simpl. auto.
Qed.

Lemma process_used_unknown us ns u :
  Forall (fun k => k ∈ dom panel_mapping) (placement_ids us ns) ->
  uj_panel u ∉ dom panel_mapping ->
  process_used item_mapping panel_mapping panel0 (dict_spec us ns) u =
  Raise (Exn KeyError (py_repr (uj_panel u))).
Proof. intros Hk Hu. unfold process_used. by rewrite ensure_panel_unknown. Qed.

Lemma process_unused_unknown us ns n :
  Forall (fun k => k ∈ dom panel_mapping) (placement_ids us ns) ->
  nj_panel n ∉ dom panel_mapping ->
  process_unused panel_mapping (dict_spec us ns) n =
  Raise (Exn KeyError (py_repr (nj_panel n))).
Proof. intros Hk Hn. unfold process_unused. by rewrite ensure_panel_unknown. Qed.

(** The loop over the placements. *)
Lemma used_loop us :
  res_foldl (process_used item_mapping panel_mapping panel0) [] us =
  match first_unknown (uj_panel <$> us) with
  | Some pid => Raise (Exn KeyError (py_repr pid))
  | None => Ok (dict_spec us [])
  end.
Proof.
  unfold first_unknown. rewrite filter_fmap, head_fmap.
  rewrite (res_foldl_spec _ (fun done => dict_spec done [])
             (fun u => uj_panel u ∈ dom panel_mapping)
             (fun u => Exn KeyError (py_repr (uj_panel u))) us) with (done := []).
  - by destruct (head _).
  - intros done u _ Hu. by apply process_used_known.
  - intros done u Hdone Hu. apply process_used_unknown; [|done].
    unfold placement_ids. by rewrite app_nil_r, Forall_fmap.
  - constructor.
Qed.

(** The loop over the unused regions, run after the placements [us]. *)
Lemma unused_loop us ns :
  first_unknown (uj_panel <$> us) = None ->
  res_foldl (process_unused panel_mapping) (dict_spec us []) ns =
  match first_unknown (nj_panel <$> ns) with
  | Some pid => Raise (Exn KeyError (py_repr pid))
  | None => Ok (dict_spec us ns)
  end.
Proof.
  intros Hus%first_unknown_None. unfold first_unknown. rewrite filter_fmap, head_fmap.
  rewrite (res_foldl_spec _ (fun done => dict_spec us done)
             (fun n => nj_panel n ∈ dom panel_mapping)
             (fun n => Exn KeyError (py_repr (nj_panel n))) ns) with (done := []).
  - by destruct (head _).
  - intros done n _ Hn. by apply process_unused_known.
  - intros done n Hdone Hn. apply process_unused_unknown; [|done].
    unfold placement_ids. apply Forall_app. split; [done|]. by rewrite Forall_fmap.
  - constructor.
Qed.

(** Both loops in sequence. *)
Lemma grouping_loops us ns :
  (d <- res_foldl (process_used item_mapping panel_mapping panel0) [] us ;;
   res_foldl (process_unused panel_mapping) d ns) =
  match first_unknown (placement_ids us ns) with
  | Some pid => Raise (Exn KeyError (py_repr pid))
  | None => Ok (dict_spec us ns)
  end.
Proof.
  unfold placement_ids. rewrite first_unknown_app, used_loop.
  destruct (first_unknown (uj_panel <$> us)) eqn:Hus; [done|]. simpl.
  by apply unused_loop.
Qed.

End grouping.

(** ** The result of [transform_result] *)

(** The response specified for a result whose panel ids are all known: the
    distinct panel ids in increasing order, each with its panel. *)
Definition response_spec (result : ResultJson) (user_params : UserParams)
    (panel0 : PanelInput) : CalculationResponse :=
  let us := default [] (rj_used result) in
  let ns := default [] (rj_unused result) in
  let panels_list :=
    panel_spec (_create_item_mapping (items user_params) panel0)
               (_create_panel_mapping (panels user_params)) panel0 us ns
      <$> py_sorted id (remove_dups (placement_ids us ns)) in
  {| success := true;
     resp_panels := panels_list;
     cuts := result_cuts result;
     summary := result_summary panels_list result;
     error := None;
     calculation_time := None |}.

Lemma sorted_dict_spec im pm p0 us ns :
  py_sorted panel_id (od_values (dict_spec im pm p0 us ns)) =
  panel_spec im pm p0 us ns <$> py_sorted id (remove_dups (placement_ids us ns)).
Proof.
  unfold dict_spec. rewrite od_values_table, py_sorted_fmap. f_equal.
  apply py_sorted_perm_invariant.
  - rewrite list_fmap_id. apply NoDup_first_occurrences.
  - apply first_occurrences_remove_dups.
Qed.

(** [transform_result] on every branch: it raises [IndexError] when the
    request has no panel type; otherwise it raises [KeyError] for the
    first panel id, in the order placements then unused regions, that is
    not a key of the panel mapping; otherwise it returns the specified
    response. *)
Lemma transform_result_unfold (result : ResultJson) (user_params : UserParams) :
  transform_result result user_params =
  (panel0 <- py_head (panels user_params) ;;
   match first_unknown (_create_panel_mapping (panels user_params))
           (placement_ids (default [] (rj_used result)) (default [] (rj_unused result))) with
   | Some pid => Raise (Exn KeyError (py_repr pid))
   | None => Ok (response_spec result user_params panel0)
   end).
Proof.
  unfold transform_result. destruct (py_head (panels user_params)) as [panel0|e]; [|done].
  simpl. rewrite <- res_bind_assoc, grouping_loops.
  destruct (first_unknown _ _); [done|]. simpl.
  unfold response_spec. by rewrite sorted_dict_spec.
Qed.

Lemma result_summary_lookup panels_list result :
  result_summary panels_list result !! "total_panels_used" =
    Some (Z.of_nat (length panels_list)) /\
  result_summary panels_list result !! "total_items_placed" =
    Some (Z.of_nat (length (default [] (rj_used result)))) /\
  result_summary panels_list result !! "total_unused_areas" =
    Some (Z.of_nat (length (default [] (rj_unused result)))).
Proof. done. Qed.

Lemma elem_of_response_spec result user_params panel0 po :
  po ∈ resp_panels (response_spec result user_params panel0) ->
  exists pid,
    pid ∈ placement_ids (default [] (rj_used result)) (default [] (rj_unused result)) /\
    po = panel_spec (_create_item_mapping (items user_params) panel0)
           (_create_panel_mapping (panels user_params)) panel0
           (default [] (rj_used result)) (default [] (rj_unused result)) pid.
Proof.
  simpl. intros (pid & -> & Hpid)%list_elem_of_fmap. exists pid. split; [|done].
  by rewrite elem_of_py_sorted, elem_of_remove_dups in Hpid.
Qed.

Lemma response_spec_sorted result user_params panel0 :
  StronglySorted str_lt (panel_id <$> resp_panels (response_spec result user_params panel0)).
Proof.
  simpl. rewrite <- list_fmap_compose.
  match goal with |- StronglySorted _ (_ <$> ?l) => change (StronglySorted str_lt (id <$> l)) end.
  rewrite list_fmap_id. apply (py_sorted_strict id). rewrite list_fmap_id. apply NoDup_remove_dups.
Qed.

(** The groups of a list by a key, taken for the sorted distinct keys of
    a list that covers it, are the list again, up to order. *)
Lemma groups_fmap_Permutation {A B} (key : A -> string) (f : A -> B)
    (l : list A) (ids : list string) :
  Forall (fun x => key x ∈ ids) l ->
  concat ((fun k => f <$> filter (fun x => key x = k) l)
            <$> py_sorted id (remove_dups ids)) ≡ₚ f <$> l.
Proof.
  intros Hl. etransitivity; [|apply fmap_Permutation,
    (concat_groups_Permutation key (py_sorted id (remove_dups ids)) l)].
  - by rewrite fmap_concat, <- list_fmap_compose.
  - rewrite py_sorted_Permutation. apply NoDup_remove_dups.
  - eapply Forall_impl; [done|]. intros x Hx. simpl.
    by rewrite elem_of_py_sorted, elem_of_remove_dups.
Qed.

(** ** Consequences for a successful call *)

Section success.
Context (result : ResultJson) (user_params : UserParams) (resp : CalculationResponse).

Abbreviation used := (default [] (rj_used result)).
Abbreviation unused := (default [] (rj_unused result)).

(** A successful call had a first panel type and met only known panel ids,
    and its response is the specified one. *)
Lemma transform_result_Ok_inv :
  transform_result result user_params = Ok resp ->
  exists panel0, head (panels user_params) = Some panel0 /\
    first_unknown (_create_panel_mapping (panels user_params)) (placement_ids used unused) = None /\
    resp = response_spec result user_params panel0.
Proof.
  intros Hok. rewrite transform_result_unfold in Hok.
  apply res_bind_Ok_inv in Hok as (panel0 & Hp%py_head_Ok & H). exists panel0.
  destruct (first_unknown _ _); [done|]. by simplify_eq.
Qed.

Lemma resp_panel_ids :
  transform_result result user_params = Ok resp ->
  panel_id <$> resp_panels resp = py_sorted id (remove_dups (placement_ids used unused)).
Proof.
  intros (panel0 & _ & _ & ->)%transform_result_Ok_inv. simpl.
  rewrite <- list_fmap_compose. apply list_fmap_id.
Qed.

(** C21. The panels of the response are in strictly increasing order of
    panel id, so no panel appears twice, and a panel is in the response
    exactly when a placement or an unused region names it: a panel the
    packer left untouched does not appear. *)
Theorem transform_result_panels :
  transform_result result user_params = Ok resp ->
  StronglySorted str_lt (panel_id <$> resp_panels resp) /\
  (forall pid, pid ∈ panel_id <$> resp_panels resp <->
     pid ∈ uj_panel <$> used \/ pid ∈ nj_panel <$> unused).
Proof.
  intros Hok. rewrite (resp_panel_ids Hok). split.
  - apply (py_sorted_strict id). rewrite list_fmap_id. apply NoDup_remove_dups.
  - intros pid. rewrite elem_of_py_sorted, elem_of_remove_dups.
    unfold placement_ids. by rewrite elem_of_app.
Qed.

(** C22. Each panel of the response carries the name and size the panel
    mapping records for its id, the placements that name it, transformed
    for display against the first panel type, and the unused regions that
    name it, both in the packer's order. *)
Theorem transform_result_panel_content (p : PanelOutput) :
  transform_result result user_params = Ok resp ->
  p ∈ resp_panels resp ->
  exists panel0 d,
    head (panels user_params) = Some panel0 /\
    _create_panel_mapping (panels user_params) !! panel_id p = Some d /\
    panel_name p = pd_name d /\ po_width p = pd_width d /\ po_height p = pd_height d /\
    used_items p =
      (fun u => _transform_used_item_for_display u
                  (_create_item_mapping (items user_params) panel0) panel0)
        <$> filter (fun u => uj_panel u = panel_id p) used /\
    unused_areas p = unused_area_of <$> filter (fun n => nj_panel n = panel_id p) unused.
Proof.
  intros (panel0 & Hp0 & Hknown & ->)%transform_result_Ok_inv. simpl.
  intros (pid & -> & Hpid)%list_elem_of_fmap. simpl.
  rewrite elem_of_py_sorted, elem_of_remove_dups in Hpid.
  apply first_unknown_None in Hknown. rewrite Forall_forall in Hknown.
  destruct (proj1 (elem_of_dom _ _) (Hknown pid Hpid)) as [d Hd].
  exists panel0, d. by rewrite Hd.
Qed.

(** C3. Nothing is lost or duplicated by the grouping: the placed items of
    all panels together are the displayed placements of the packer, each
    exactly once, and the unused areas of all panels together are the
    unused regions of the packer. *)
Theorem transform_result_conservation :
  transform_result result user_params = Ok resp ->
  exists panel0, head (panels user_params) = Some panel0 /\
    concat (used_items <$> resp_panels resp) ≡ₚ
      (fun u => _transform_used_item_for_display u
                  (_create_item_mapping (items user_params) panel0) panel0) <$> used /\
    concat (unused_areas <$> resp_panels resp) ≡ₚ unused_area_of <$> unused.
Proof.
  intros (panel0 & Hp0 & _ & ->)%transform_result_Ok_inv. exists panel0.
  split; [done|]. simpl. rewrite <- !list_fmap_compose.
  split; [apply (groups_fmap_Permutation uj_panel)|apply (groups_fmap_Permutation nj_panel)];
    apply Forall_forall; intros x Hx; unfold placement_ids; rewrite elem_of_app;
    [left|right]; by apply list_elem_of_fmap_2.
Qed.

(** C20. The summary: the number of distinct panel ids named by the result,
    the number of placements and the number of unused regions. *)
Theorem transform_result_summary :
  transform_result result user_params = Ok resp ->
  summary resp !! "total_panels_used" =
    Some (Z.of_nat (size (list_to_set (placement_ids used unused) : gset string))) /\
  summary resp !! "total_items_placed" = Some (Z.of_nat (length used)) /\
  summary resp !! "total_unused_areas" = Some (Z.of_nat (length unused)) /\
  Z.of_nat (length (resp_panels resp)) =
    Z.of_nat (size (list_to_set (placement_ids used unused) : gset string)).
Proof.
  intros (panel0 & _ & _ & ->)%transform_result_Ok_inv. simpl.
  match goal with
  | |- context [result_summary ?l ?r] =>
      destruct (result_summary_lookup l r) as (-> & -> & ->)
  end.
  by rewrite length_fmap, length_py_sorted, length_remove_dups.
Qed.

End success.

(** ** The order of the placements *)

(** Two results with the same placements and the same unused regions,
    listed in any order. *)
Definition result_equiv (r1 r2 : ResultJson) : Prop :=
  default [] (rj_used r1) ≡ₚ default [] (rj_used r2) /\
  default [] (rj_unused r1) ≡ₚ default [] (rj_unused r2) /\
  rj_cuts r1 = rj_cuts r2.

(** Two panels with the same items and unused areas, in any order. *)
Definition panel_equiv (p1 p2 : PanelOutput) : Prop :=
  panel_id p1 = panel_id p2 /\ panel_name p1 = panel_name p2 /\
  po_width p1 = po_width p2 /\ po_height p1 = po_height p2 /\
  used_items p1 ≡ₚ used_items p2 /\ unused_areas p1 ≡ₚ unused_areas p2.

(** Two responses that differ at most in the order of the items and unused
    areas within each panel. *)
Definition response_equiv (r1 r2 : CalculationResponse) : Prop :=
  success r1 = success r2 /\ Forall2 panel_equiv (resp_panels r1) (resp_panels r2) /\
  cuts r1 = cuts r2 /\ summary r1 = summary r2 /\ error r1 = error r2 /\
  calculation_time r1 = calculation_time r2.

#[export] Instance result_equiv_equivalence : Equivalence result_equiv.
Proof.
  split.
  - by intros r.
  - intros r1 r2 (? & ? & ?). by split_and!.
  - intros r1 r2 r3 (Hu1 & Hn1 & Hc1) (Hu2 & Hn2 & Hc2).
    split_and!; [by rewrite Hu1|by rewrite Hn1|by rewrite Hc1].
Qed.

#[export] Instance panel_equiv_equivalence : Equivalence panel_equiv.
Proof.
  split.
  - by intros p.
  - intros p1 p2 (? & ? & ? & ? & ? & ?). by split_and!.
  - intros p1 p2 p3 (H1 & H2 & H3 & H4 & Hu & Hn) (H1' & H2' & H3' & H4' & Hu' & Hn').
    split_and!; [congruence..|by rewrite Hu|by rewrite Hn].
Qed.

#[export] Instance placement_ids_proper :
  Proper ((≡ₚ) ==> (≡ₚ) ==> (≡ₚ)) placement_ids.
Proof. intros us us' Hu ns ns' Hn. unfold placement_ids. by rewrite Hu, Hn. Qed.

Lemma panel_spec_proper im pm p0 us us' ns ns' pid :
  us ≡ₚ us' -> ns ≡ₚ ns' ->
  panel_equiv (panel_spec im pm p0 us ns pid) (panel_spec im pm p0 us' ns' pid).
Proof. intros Hu Hn. unfold panel_spec. split_and!; simpl; [done..|by rewrite Hu|by rewrite Hn]. Qed.

(** The specified response does not depend on the order in which the
    packer lists its placements and unused regions, up to the order
    within each panel. *)
#[export] Instance response_spec_proper :
  Proper (result_equiv ==> eq ==> eq ==> response_equiv) response_spec.
Proof.
  intros r1 r2 (Hu & Hn & Hc) q ? <- p0 ? <-.
  assert (py_sorted id (remove_dups (placement_ids (default [] (rj_used r1))
                                       (default [] (rj_unused r1)))) =
          py_sorted id (remove_dups (placement_ids (default [] (rj_used r2))
                                       (default [] (rj_unused r2))))) as Hids.
  { apply py_sorted_perm_invariant; [rewrite list_fmap_id; apply NoDup_remove_dups|].
    apply NoDup_Permutation; [apply NoDup_remove_dups..|].
    intros k. by rewrite !elem_of_remove_dups, Hu, Hn. }
  unfold response_equiv, response_spec. simpl. rewrite Hids. split_and!; [done| | | |done..].
  - apply Forall2_fmap, Forall_Forall2_diag, Forall_forall. intros pid _.
    by apply panel_spec_proper.
  - unfold result_cuts. by rewrite Hc.
  - unfold result_summary.
    by rewrite !length_fmap, (Permutation_length Hu), (Permutation_length Hn).
Qed.

(** C19. The response of [transform_result] does not depend on the order in
    which the packer lists its placements and its unused regions: for two
    results with the same placements and regions in different orders, if
    the function returns for one it returns for the other, with the same
    panels in the same order and, within each panel, the same items and
    unused areas up to their order. *)
Theorem transform_result_proper (r1 r2 : ResultJson) (q : UserParams)
    (resp1 : CalculationResponse) :
  result_equiv r1 r2 -> transform_result r1 q = Ok resp1 ->
  exists resp2, transform_result r2 q = Ok resp2 /\ response_equiv resp1 resp2.
Proof.
  intros Hr (panel0 & Hp0 & Hknown & ->)%transform_result_Ok_inv.
  exists (response_spec r2 q panel0). split; [|by apply response_spec_proper].
  rewrite transform_result_unfold. apply py_head_Ok in Hp0 as Hp0'. rewrite Hp0'. simpl.
  destruct Hr as (Hu & Hn & _). apply first_unknown_None in Hknown.
  rewrite Hu, Hn in Hknown. apply first_unknown_None in Hknown. by rewrite Hknown.
Qed.

(** ** When the call succeeds, and how it fails *)

(** C9. If every panel id the packer names is the id of an expanded panel
    unit, [transform_result] does not raise: the panel mapping built from
    the same request has every such id as a key. *)
Theorem transform_result_known (result : ResultJson) (user_params : UserParams)
    (panel0 : PanelInput) :
  head (panels user_params) = Some panel0 ->
  Forall (fun pid => pid ∈ panel_uid <$> _expand_panels (panels user_params))
    (placement_ids (default [] (rj_used result)) (default [] (rj_unused result))) ->
  transform_result result user_params = Ok (response_spec result user_params panel0).
Proof.
  intros Hp0%py_head_Ok Hids. rewrite transform_result_unfold, Hp0. simpl.
  rewrite (proj2 (first_unknown_None _ _)); [done|].
  eapply Forall_impl; [done|]. intros pid Hpid. simpl in Hpid.
  by rewrite dom_create_panel_mapping, elem_of_list_to_set.
Qed.

(** C10. A panel id that is not a key of the panel mapping makes
    [transform_result] raise [KeyError] with that id, provided every id
    met before it is known; nothing of the response is returned. *)
Theorem transform_result_unknown_panel (result : ResultJson) (user_params : UserParams)
    (ids1 ids2 : list string) (pid : string) :
  panels user_params <> [] ->
  placement_ids (default [] (rj_used result)) (default [] (rj_unused result)) =
    ids1 ++ pid :: ids2 ->
  Forall (fun k => k ∈ dom (_create_panel_mapping (panels user_params))) ids1 ->
  pid ∉ dom (_create_panel_mapping (panels user_params)) ->
  transform_result result user_params = Raise (Exn KeyError (py_repr pid)).
Proof.
  intros Hne Hids Hknown Hpid. rewrite transform_result_unfold.
  destruct (panels user_params) as [|panel0 ps] eqn:Hps; [done|]. simpl.
  rewrite Hids, first_unknown_app, (proj2 (first_unknown_None _ _ ) Hknown).
  unfold first_unknown. by rewrite filter_cons, decide_True.
Qed.

(** ** A worked example *)

(** Two panel types and two item types; the packer placed the two shelves
    on the second sheet of [A] and the door on the first, and reported the
    leftovers of both sheets.  The third panel unit, [B_1_1], is not
    mentioned. *)
Definition ex_params : UserParams :=
  mkUserParams 3%float false [ex_panel_A; ex_panel_B] [ex_item_shelf; ex_item_door].

Definition ex_result : ResultJson :=
  {| rj_used := Some [
       mkUsedJson "A_2" "shelf_1" 0%float 0%float false None None;
       mkUsedJson "A_1" "door_1" 0%float 0%float false None None;
       mkUsedJson "A_2" "shelf_2" 503%float 0%float false None None ];
     rj_unused := Some [
       mkUnusedJson "A_1" 2137%float 1220%float 303%float 0%float;
       mkUnusedJson "A_2" 1434%float 1220%float 1006%float 0%float ];
     rj_cuts := None |}.

(** The same result with an extra placement on a sheet that was never
    offered. *)
Definition ex_result_bad : ResultJson :=
  {| rj_used := Some [
       mkUsedJson "A_2" "shelf_1" 0%float 0%float false None None;
       mkUsedJson "A_3" "shelf_2" 0%float 0%float false None None ];
     rj_unused := Some [];
     rj_cuts := Some None |}.

Lemma ex_transform_result :
  (fun r => (panel_id <$> resp_panels r,
             (length ∘ used_items) <$> resp_panels r,
             (length ∘ unused_areas) <$> resp_panels r)) <$> transform_result ex_result ex_params
  = Ok (["A_1"; "A_2"], [1; 2], [1; 1]).
Proof. by vm_compute. Qed.

Lemma ex_transform_result_bad :
  transform_result ex_result_bad ex_params = Raise (Exn KeyError "'A_3'").
Proof. by vm_compute. Qed.

(** The theorems of this file, applied to the example. *)

Lemma transform_result_panels_witness :
  exists resp, transform_result ex_result ex_params = Ok resp /\
    StronglySorted str_lt (panel_id <$> resp_panels resp) /\
    ("A_2" ∈ panel_id <$> resp_panels resp <->
     "A_2" ∈ uj_panel <$> default [] (rj_used ex_result) \/
     "A_2" ∈ nj_panel <$> default [] (rj_unused ex_result)).
Proof.
  destruct (transform_result ex_result ex_params) as [resp|e] eqn:E; [|by vm_compute in E].
  exists resp. split; [done|].
  destruct (transform_result_panels ex_result ex_params resp E) as [Hsorted Hids].
  split; [exact Hsorted|exact (Hids "A_2")].
Defined.

Lemma transform_result_panel_content_witness :
  exists resp p, transform_result ex_result ex_params = Ok resp /\ p ∈ resp_panels resp /\
    panel_id p = "A_1" /\ length (used_items p) = 1.
Proof.
  destruct (transform_result ex_result ex_params) as [resp|e] eqn:E; [|by vm_compute in E].
  assert (exists p, head (resp_panels resp) = Some p /\ panel_id p = "A_1") as (p & Hp & Hid).
  { vm_compute in E. simplify_eq. eexists. split; reflexivity. }
  exists resp, p. apply head_Some_elem_of in Hp. split_and!; [done..|].
  destruct (transform_result_panel_content ex_result ex_params resp p E Hp)
    as (panel0 & d & _ & _ & _ & _ & _ & -> & _).
  rewrite Hid. reflexivity.
Defined.

Lemma transform_result_conservation_witness :
  exists resp, transform_result ex_result ex_params = Ok resp /\
    length (concat (used_items <$> resp_panels resp)) = 3.
Proof.
  destruct (transform_result ex_result ex_params) as [resp|e] eqn:E; [|by vm_compute in E].
  exists resp. split; [done|].
  destruct (transform_result_conservation ex_result ex_params resp E) as (panel0 & _ & -> & _).
  reflexivity.
Defined.

Lemma transform_result_summary_witness :
  exists resp, transform_result ex_result ex_params = Ok resp /\
    summary resp !! "total_panels_used" = Some 2%Z /\
    summary resp !! "total_items_placed" = Some 3%Z.
Proof.
  destruct (transform_result ex_result ex_params) as [resp|e] eqn:E; [|by vm_compute in E].
  exists resp. split; [done|].
  destruct (transform_result_summary ex_result ex_params resp E) as (-> & -> & _).
  split; reflexivity.
Defined.

Lemma transform_result_known_witness :
  is_ok (transform_result ex_result ex_params) = true.
Proof.
  rewrite (transform_result_known ex_result ex_params ex_panel_A); [done|done|].
  apply Forall_forall. intros pid Hpid. apply (bool_decide_unpack _).
  revert pid Hpid. apply Forall_forall. by_compute.
Defined.

Lemma transform_result_unknown_panel_witness :
  transform_result ex_result_bad ex_params = Raise (Exn KeyError "'A_3'").
Proof.
  apply (transform_result_unknown_panel ex_result_bad ex_params ["A_2"] [] "A_3").
  - done.
  - reflexivity.
  - by_compute.
  - by_compute.
Defined.

(** The example result with its placements in the opposite order. *)
Definition ex_result_rev : ResultJson :=
  {| rj_used := reverse <$> rj_used ex_result;
     rj_unused := rj_unused ex_result;
     rj_cuts := rj_cuts ex_result |}.

Lemma transform_result_proper_witness :
  exists resp1 resp2,
    transform_result ex_result ex_params = Ok resp1 /\
    transform_result ex_result_rev ex_params = Ok resp2 /\
    response_equiv resp1 resp2.
Proof.
  destruct (transform_result ex_result ex_params) as [resp1|e] eqn:E; [|by vm_compute in E].
  destruct (transform_result_proper ex_result ex_result_rev ex_params resp1)
    as (resp2 & H2 & He); [|done|by exists resp1, resp2].
  split_and!; [|done..]. simpl. symmetry. apply reverse_Permutation.
Defined.
