(* ===== verification/Retry.v ===== *)
(** * Retry: the loop of [CuttingOptimizer.calculate]

    [calculate] (lines 332-422) validates the method name and then runs
    [while True]: one attempt expands the request, calls the packer and
    assembles its answer; [UnresolvableError] from the attempt either adds
    one sheet to every panel type ([_increment_panel_quantities], lines
    313-326) and starts over, when the total quantity
    ([_get_total_panel_quantity], lines 328-330) is below 50, or ends with a
    failure response; any other exception ends with a failure response
    that names it.

    One round of the loop is the function [step]; the loop is
    [calculate_loop], defined by well-founded recursion on the distance of
    the total quantity to 50, so it is a total function: the loop
    terminates for every request and every packer.  [exec] is the same loop
    as a relation that counts the attempts, [reachable] the set of states
    the loop passes through, and [calculate_fuel] the loop with a bound on
    the number of rounds, which can be evaluated.  The theorems bound the
    number of attempts, describe the response on every path, and show
    that the response depends on the packer only through its answers
    ([packer_equiv]) and, for a packer that honours [PackerContract], that
    an attempt fails only if the packer does.  The file ends with the
    packers used in the examples. *)

From Equations Require Import Equations.
From Stdlib Require Import ZArith String List Lia PrimFloat.
From stdpp Require Import base tactics option list strings gmap.
From S2P Require Import Prelude PyDict Model Geometry Expander Assembler.

(** ** The functions of the program *)

Definition _increment_panel_quantities (user_params : UserParams) (increment : Z)
  : UserParams :=
  {| cut_width := cut_width user_params;
     min_initial_usage := min_initial_usage user_params;
     panels :=
       (fun panel =>
          {| pi_name := pi_name panel;
             pi_width := pi_width panel;
             pi_height := pi_height panel;
             pi_quantity := pi_quantity panel + increment;
             pi_grain := pi_grain panel |}) <$> panels user_params;
     items := items user_params |}.

Definition _get_total_panel_quantity (user_params : UserParams) : Z :=
  py_sum (pi_quantity <$> panels user_params).

(** The response of line 400-407, when the total has reached the limit. *)
Definition unresolvable_response (current_total_panels : Z) (calculation_time : float)
  : CalculationResponse :=
  {| success := false;
     resp_panels := [];
     cuts := [];
     summary := ∅;
     error := Some ("UnresolvableError: No valid cutting solution found even with "
                    +:+ py_str current_total_panels
                    +:+ " panels. Try adjusting item dimensions or using different optimization method.");
     calculation_time := Some calculation_time |}.

(** The response of line 415-422, for any other exception. *)
Definition exception_response (e : exn) (calculation_time : float) : CalculationResponse :=
  {| success := false;
     resp_panels := [];
     cuts := [];
     summary := ∅;
     error := Some (exn_name (exn_cls e) +:+ ": " +:+ exn_msg e);
     calculation_time := Some calculation_time |}.

(** The two states of the loop: about to make attempt number [n] with the
    current parameters, or finished with a response. *)
Inductive state : Type :=
| Attempting (n : nat) (current_user_params : UserParams)
| Terminal (response : CalculationResponse).

(** Line 379: [transformed_result.calculation_time = calculation_time]. *)
Definition set_calculation_time (transformed_result : CalculationResponse)
    (calculation_time : float) : CalculationResponse :=
  {| success := success transformed_result;
     resp_panels := resp_panels transformed_result;
     cuts := cuts transformed_result;
     summary := summary transformed_result;
     error := error transformed_result;
     calculation_time := Some calculation_time |}.

Section calculate.
Context `{P : Packer}.

(** Lines 353-364: what is handed to the packer. *)
Definition opcut_params_of (current_user_params : UserParams) (panel0 : PanelInput) : Params :=
  {| prm_cut_width := cut_width current_user_params;
     prm_min_initial_usage := min_initial_usage current_user_params;
     prm_panels := _expand_panels (panels current_user_params);
     prm_items := _expand_items (items current_user_params) panel0 |}.

(** The body of [try] (lines 346-382).  The clock is read at line 373,
    before the result is assembled; when the assembly raises it is read
    again in the handler of the exception (line 410).  [elapsed n] stands
    for the reading that the response of attempt [n] carries. *)
Definition attempt (opcut_method : Method) (n : nat) (current_user_params : UserParams)
  : res CalculationResponse :=
  panel0 <- py_head (panels current_user_params) ;;
  let opcut_params := opcut_params_of current_user_params panel0 in
  result_json <- opcut_calculate opcut_method opcut_params ;;
  let calculation_time := elapsed n in
  transformed_result <- transform_result result_json current_user_params ;;
  Ok (set_calculation_time transformed_result calculation_time).

(** One round of [while True] (lines 345-422).  [except
    UnresolvableError] also catches subclasses of that class: [exn_cls e]
    is the class as the [except] clauses see it. *)
Definition step (opcut_method : Method) (n : nat) (current_user_params : UserParams) : state :=
  match attempt opcut_method n current_user_params with
  | Ok transformed_result => Terminal transformed_result
  | Raise e =>
      let calculation_time := elapsed n in
      if decide (exn_cls e = UnresolvableError) then
        let current_total_panels := _get_total_panel_quantity current_user_params in
        if decide (current_total_panels < 50)%Z then
          Attempting (S n) (_increment_panel_quantities current_user_params 1)
        else
          Terminal (unresolvable_response current_total_panels calculation_time)
      else
        Terminal (exception_response e calculation_time)
  end.

End calculate.

(** ** Raising the supply *)

Lemma increment_panels user_params increment :
  panels (_increment_panel_quantities user_params increment) =
  (fun panel => mkPanelInput (pi_name panel) (pi_width panel) (pi_height panel)
                  (pi_quantity panel + increment) (pi_grain panel)) <$> panels user_params.
Proof. done. Qed.

Lemma increment_keeps_rest user_params increment :
  items (_increment_panel_quantities user_params increment) = items user_params /\
  cut_width (_increment_panel_quantities user_params increment) = cut_width user_params /\
  min_initial_usage (_increment_panel_quantities user_params increment) =
    min_initial_usage user_params /\
  pi_name <$> panels (_increment_panel_quantities user_params increment) =
    pi_name <$> panels user_params.
Proof.
  split_and!; try done. rewrite increment_panels, <- list_fmap_compose.
  by apply list_fmap_ext.
Qed.

(** One call of [_increment_panel_quantities] adds [increment] to the
    quantity of every panel type, so the total grows by [increment] times
    the number of panel types. *)
Lemma increment_total (user_params : UserParams) (increment : Z) :
  _get_total_panel_quantity (_increment_panel_quantities user_params increment) =
  (_get_total_panel_quantity user_params +
   increment * Z.of_nat (length (panels user_params)))%Z.
Proof.
  unfold _get_total_panel_quantity. rewrite increment_panels, <- list_fmap_compose.
  apply (py_sum_fmap_add pi_quantity).
Qed.

(** The sum of the quantities is the number of expanded units when no
    quantity is negative. *)
Lemma total_is_unit_count user_params :
  Forall (fun p => 0 <= pi_quantity p)%Z (panels user_params) ->
  _get_total_panel_quantity user_params =
  Z.of_nat (length (_expand_panels (panels user_params))).
Proof.
  unfold _get_total_panel_quantity. rewrite length_expand_panels.
  induction 1 as [|p ps Hp _ IH]; [done|].
  csimpl. autorewrite with py. lia.
Qed.

(** ** One round *)

Section step.
Context `{P : Packer}.
Implicit Types (m : Method) (n : nat) (p : UserParams).

(** The distance of the total quantity to the limit: the measure that
    decreases at every retry. *)
Definition gap (p : UserParams) : nat := Z.to_nat (50 - _get_total_panel_quantity p).

Lemma attempt_no_panels m n p :
  panels p = [] -> attempt m n p = Raise (Exn IndexError "list index out of range").
Proof. intros Hp. unfold attempt. by rewrite Hp. Qed.

(** The loop goes round again exactly when the attempt raised
    [UnresolvableError] and the total is below 50. *)
Lemma step_Attempting m n p n' p' :
  step m n p = Attempting n' p' <->
  (exists e, attempt m n p = Raise e /\ exn_cls e = UnresolvableError) /\
  (_get_total_panel_quantity p < 50)%Z /\
  n' = S n /\ p' = _increment_panel_quantities p 1.
Proof.
  unfold step. destruct (attempt m n p) as [r|e].
  { split; [done|]. by intros [(? & [=] & _) _]. }
  repeat case_decide; (split; [try done|]).
  - intros [= <- <-]. eauto 10.
  - by intros (_ & _ & -> & ->).
  - by intros (_ & ? & _).
  - intros ((e' & [= <-] & ?) & _). done.
Qed.

Lemma step_Attempting_nonempty m n p n' p' :
  step m n p = Attempting n' p' -> panels p <> [].
Proof.
  intros Hs Hp. apply step_Attempting in Hs as ((e & He & Hc) & _).
  rewrite (attempt_no_panels _ _ _ Hp) in He. by simplify_eq.
Qed.

(** Every retry strictly increases the total panel quantity, and the
    distance to the limit strictly decreases. *)
Lemma step_Attempting_total m n p n' p' :
  step m n p = Attempting n' p' ->
  (_get_total_panel_quantity p < _get_total_panel_quantity p')%Z /\ gap p' < gap p.
Proof.
  intros Hs. pose proof (step_Attempting_nonempty _ _ _ _ _ Hs) as Hne.
  apply step_Attempting in Hs as (_ & Hlt & _ & ->).
  unfold gap. rewrite increment_total. destruct (panels p); [done|]. simpl length. lia.
Qed.

(** ** Counting the retries *)

(** Division rounded up, for a positive divisor. *)
Definition ceil_div (a b : Z) : Z := ((a + b - 1) / b)%Z.

(** The number of retries after which the total quantity has reached the
    limit: the distance to 50 divided by the number of panel types, rounded
    up (each retry adds one sheet of every type). *)
Definition retries_needed (p : UserParams) : nat :=
  Z.to_nat (ceil_div (50 - _get_total_panel_quantity p) (Z.of_nat (length (panels p)))).

(** The number of attempts the loop can make at most. *)
Definition attempts_bound (p : UserParams) : nat := S (retries_needed p).

(** The request of the attempt that follows [j] retries. *)
Definition retry_params (p : UserParams) (j : nat) : UserParams :=
  Nat.iter j (fun q => _increment_panel_quantities q 1) p.

Lemma ceil_div_step a b : (0 < b)%Z -> ceil_div (a - b) b = (ceil_div a b - 1)%Z.
Proof.
  intros Hb. unfold ceil_div.
  replace (a - b + b - 1)%Z with (a + b - 1 + (-1) * b)%Z by lia.
  rewrite Z.div_add by lia. lia.
Qed.

Lemma ceil_div_pos a b : (0 < a)%Z -> (0 < b)%Z -> (0 < ceil_div a b)%Z.
Proof. intros Ha Hb. unfold ceil_div. apply Z.div_str_pos. lia. Qed.

Lemma ceil_div_bounds a b :
  (0 < b)%Z -> (a <= ceil_div a b * b < a + b)%Z.
Proof.
  intros Hb. unfold ceil_div.
  pose proof (Z.div_mod (a + b - 1) b ltac:(lia)).
  pose proof (Z.mod_pos_bound (a + b - 1) b Hb). lia.
Qed.

Lemma length_increment_panels p increment :
  length (panels (_increment_panel_quantities p increment)) = length (panels p).
Proof. by rewrite increment_panels, length_fmap. Qed.

Lemma retries_needed_done p :
  (50 <= _get_total_panel_quantity p)%Z -> retries_needed p = 0.
Proof.
  intros Ht. unfold retries_needed. destruct (panels p) as [|panel0 l] eqn:Hp.
  { unfold ceil_div. simpl. by rewrite Z.div_0_r. }
  pose proof (ceil_div_bounds (50 - _get_total_panel_quantity p)
                (Z.of_nat (length (panel0 :: l))) ltac:(simpl length; lia)).
  simpl length in *. nia.
Qed.

Lemma retries_needed_retry p :
  (_get_total_panel_quantity p < 50)%Z -> panels p <> [] ->
  retries_needed p = S (retries_needed (_increment_panel_quantities p 1)).
Proof.
  intros Ht Hp. unfold retries_needed.
  rewrite increment_total, length_increment_panels.
  assert (0 < Z.of_nat (length (panels p)))%Z as Hlen by (destruct (panels p); [done|simpl; lia]).
  replace (50 - (_get_total_panel_quantity p + 1 * Z.of_nat (length (panels p))))%Z
    with (50 - _get_total_panel_quantity p - Z.of_nat (length (panels p)))%Z by lia.
  rewrite ceil_div_step by done.
  pose proof (ceil_div_pos (50 - _get_total_panel_quantity p) _ ltac:(lia) Hlen). lia.
Qed.

Lemma retries_needed_step m n p n' p' :
  step m n p = Attempting n' p' -> retries_needed p = S (retries_needed p').
Proof.
  intros Hs. pose proof (step_Attempting_nonempty _ _ _ _ _ Hs).
  apply step_Attempting in Hs as (_ & ? & _ & ->). by apply retries_needed_retry.
Qed.

Lemma retry_params_S p j :
  retry_params p (S j) = retry_params (_increment_panel_quantities p 1) j.
Proof. unfold retry_params. by rewrite Nat.iter_succ_r. Qed.

Lemma retry_params_panels p j :
  panels (retry_params p j) =
  (fun panel => mkPanelInput (pi_name panel) (pi_width panel) (pi_height panel)
                  (pi_quantity panel + Z.of_nat j) (pi_grain panel)) <$> panels p.
Proof.
  revert p. induction j as [|j IH]; intros p.
  - simpl. rewrite <- (list_fmap_id (panels p)) at 1. apply list_fmap_ext.
    intros _ [] _. simpl. f_equal. lia.
  - rewrite retry_params_S, IH, increment_panels, <- list_fmap_compose.
    apply list_fmap_ext. intros _ [] _. simpl. f_equal. lia.
Qed.

Lemma retry_params_total p j :
  _get_total_panel_quantity (retry_params p j) =
  (_get_total_panel_quantity p + Z.of_nat j * Z.of_nat (length (panels p)))%Z.
Proof.
  unfold _get_total_panel_quantity. rewrite retry_params_panels, <- list_fmap_compose.
  apply (py_sum_fmap_add pi_quantity).
Qed.

Lemma retry_params_items p j : items (retry_params p j) = items p.
Proof. revert p. induction j as [|j IH]; intros p; [done|]. by rewrite retry_params_S, IH. Qed.

Lemma retry_params_head p j panel0 :
  head (panels p) = Some panel0 ->
  exists panel0', head (panels (retry_params p j)) = Some panel0' /\
    pi_grain panel0' = pi_grain panel0.
Proof.
  rewrite retry_params_panels. destruct (panels p) as [|x l]; [done|].
  intros [= ->]. by eexists.
Qed.

End step.

(** ** The loop *)

(** A value together with the equation that it is the value of [a]; lets
    the termination proof see which branch of [step] was taken. *)
Definition inspect {A} (a : A) : {b | a = b} := exist _ a eq_refl.

Section loop.
Context `{P : Packer}.
Implicit Types (m : Method) (n : nat) (p : UserParams) (r : CalculationResponse).

(** [while True]: repeat [step] until it ends with a response. *)
Equations? calculate_loop (opcut_method : Method) (n : nat) (current_user_params : UserParams)
  : CalculationResponse by wf (gap current_user_params) lt :=
  calculate_loop opcut_method n current_user_params
    with inspect (step opcut_method n current_user_params) := {
    | exist _ (Terminal response) _ => response
    | exist _ (Attempting n' next_user_params) Hstep =>
        calculate_loop opcut_method n' next_user_params }.
Proof. by apply step_Attempting_total in Hstep as [_ ?]. Qed.

(** [CuttingOptimizer.calculate]: the method check, then the loop. *)
Definition calculate (user_params : UserParams) (method : string)
  : res CalculationResponse :=
  match method_map !! method with
  | None => Raise (Exn ValueError ("Unknown method: " +:+ method))
  | Some opcut_method => Ok (calculate_loop opcut_method 0 user_params)
  end.

(** The same loop with a bound on the number of rounds, for evaluation. *)
Fixpoint calculate_fuel (fuel : nat) (opcut_method : Method) (n : nat)
    (current_user_params : UserParams) : option CalculationResponse :=
  match fuel with
  | 0 => None
  | S fuel =>
      match step opcut_method n current_user_params with
      | Terminal response => Some response
      | Attempting n' next_user_params => calculate_fuel fuel opcut_method n' next_user_params
      end
  end.

Lemma calculate_loop_step m n p :
  calculate_loop m n p =
  match step m n p with
  | Terminal r => r
  | Attempting n' p' => calculate_loop m n' p'
  end.
Proof.
  funelim (calculate_loop m n p);
    match goal with H : step _ _ _ = _ |- _ => by rewrite H end.
Qed.

(** The loop as a relation: [exec m n p k r] when the loop entered with
    attempt number [n] and parameters [p] ends after [k] attempts with the
    response [r]. *)
Inductive exec (m : Method) : nat -> UserParams -> nat -> CalculationResponse -> Prop :=
| exec_done n p r :
    step m n p = Terminal r -> exec m n p 1 r
| exec_retry n p n' p' k r :
    step m n p = Attempting n' p' -> exec m n' p' k r -> exec m n p (S k) r.

Lemma exec_deterministic m n p k1 r1 k2 r2 :
  exec m n p k1 r1 -> exec m n p k2 r2 -> k1 = k2 /\ r1 = r2.
Proof.
  intros H1. revert k2 r2. induction H1 as [n p r Hs|n p n' p' k r Hs _ IH];
    intros k2 r2 H2; inv H2;
    match goal with H : step _ _ _ = _ |- _ => rewrite Hs in H; simplify_eq end.
  - done.
  - by edestruct IH as [-> ->].
Qed.

(** Induction along the loop: a property that holds when the round ends
    the loop, and that holds before a round if it holds after it, holds for
    every entry state. *)
Lemma loop_ind m (Q : nat -> UserParams -> Prop) :
  (forall n p r, step m n p = Terminal r -> Q n p) ->
  (forall n p n' p', step m n p = Attempting n' p' -> Q n' p' -> Q n p) ->
  forall n p, Q n p.
Proof.
  intros Hdone Hretry n p. remember (gap p) as g eqn:Hg. revert n p Hg.
  induction (lt_wf g) as [g _ IH]. intros n p ->.
  destruct (step m n p) as [n' p'|r] eqn:Hs; [|by eapply Hdone].
  eapply Hretry; [done|]. eapply IH; [|done]. by apply step_Attempting_total in Hs as [_ ?].
Qed.

Lemma exec_total m n p : exists k r, exec m n p k r.
Proof.
  revert n p. apply (loop_ind m).
  - intros n p r Hs. exists 1, r. by constructor.
  - intros n p n' p' Hs (k & r & Hk). exists (S k), r. by econstructor.
Qed.

Lemma exec_calculate_loop m n p k r : exec m n p k r -> calculate_loop m n p = r.
Proof. induction 1 as [n p r Hs|n p n' p' k r Hs _ IH]; by rewrite calculate_loop_step, Hs. Qed.

Lemma exec_attempts_le m n p k r : exec m n p k r -> k <= attempts_bound p.
Proof.
  unfold attempts_bound. induction 1 as [n p r Hs|n p n' p' k r Hs _ IH]; [lia|].
  rewrite (retries_needed_step _ _ _ _ _ Hs). lia.
Qed.

(** C1. The loop terminates: for every request, every method and every
    packer, [calculate_loop] is the response the loop ends with, and the
    loop makes at most [attempts_bound] attempts: one, plus the distance of
    the total quantity to 50 divided by the number of panel types, rounded
    up. *)
Theorem calculate_loop_exec m n p :
  exists k, exec m n p k (calculate_loop m n p) /\ k <= attempts_bound p.
Proof.
  destruct (exec_total m n p) as (k & r & Hk). exists k.
  rewrite (exec_calculate_loop _ _ _ _ _ Hk). eauto using exec_attempts_le.
Qed.

(** The run that [exec] counts, round by round: the first [k - 1] rounds
    retry, each with one more sheet of every panel type, and round [k]
    ends the loop. *)
Lemma exec_trace m n p k r :
  exec m n p k r ->
  exists j, k = S j /\
    (forall i, i < j ->
       step m (n + i) (retry_params p i) = Attempting (S (n + i)) (retry_params p (S i))) /\
    step m (n + j) (retry_params p j) = Terminal r.
Proof.
  induction 1 as [n p r Hs|n p n' p' k r Hs _ (j & -> & Hretry & Hend)].
  - exists 0. rewrite Nat.add_0_r. split_and!; [done|lia|done].
  - pose proof Hs as (_ & _ & -> & ->)%step_Attempting.
    exists (S j). rewrite retry_params_S, Nat.add_succ_r. split_and!; [done| |done].
    intros [|i] Hi; [by rewrite Nat.add_0_r|].
    rewrite (retry_params_S p i), (retry_params_S p (S i)), Nat.add_succ_r.
    apply Hretry. lia.
Qed.

(** ** The loop as a transition system *)

(** The states the loop can be in when it is started on the request [p0]:
    the initial state, and every state a reachable [Attempting] state
    steps to. *)
Inductive reachable (m : Method) (p0 : UserParams) : state -> Prop :=
| reachable_init : reachable m p0 (Attempting 0 p0)
| reachable_step n p : reachable m p0 (Attempting n p) -> reachable m p0 (step m n p).

(** The invariant of the [Attempting] states: attempt [n] runs on the
    request with [n] more sheets of every panel type and nothing else
    changed, and the result of the loop from there is the result of the
    whole loop. *)
Lemma reachable_Attempting m p0 s :
  reachable m p0 s ->
  forall n p, s = Attempting n p ->
    p = retry_params p0 n /\ calculate_loop m n p = calculate_loop m 0 p0.
Proof.
  induction 1 as [|n' p' _ IH]; intros n p Hs; [by injection Hs as <- <-|].
  destruct (IH n' p' eq_refl) as [-> Hloop].
  rewrite <- Hloop, (calculate_loop_step m n'), Hs.
  by apply step_Attempting in Hs as (_ & _ & -> & ->).
Qed.

Lemma exec_reachable m p0 n p k r :
  exec m n p k r -> reachable m p0 (Attempting n p) -> reachable m p0 (Terminal r).
Proof.
  induction 1 as [n p r Hs|n p n' p' k r Hs _ IH]; intros Hr.
  - rewrite <- Hs. by constructor.
  - apply IH. rewrite <- Hs. by constructor.
Qed.

(** The transition system is adequate for the loop: the terminal state it
    reaches, and the only one, carries the response of [calculate_loop]. *)
Lemma reachable_Terminal m p0 r :
  reachable m p0 (Terminal r) <-> r = calculate_loop m 0 p0.
Proof.
  split.
  - inversion 1 as [|n p Hr Hs]. destruct (reachable_Attempting _ _ _ Hr n p eq_refl) as [_ <-].
    by rewrite calculate_loop_step, Hs.
  - intros ->. destruct (exec_total m 0 p0) as (k & r & Hk).
    rewrite (exec_calculate_loop _ _ _ _ _ Hk). eapply exec_reachable; [done|constructor].
Qed.

(** ** How a round ends the loop *)

Lemma step_Terminal m n p r :
  step m n p = Terminal r <->
  attempt m n p = Ok r \/
  (exists e, attempt m n p = Raise e /\ exn_cls e = UnresolvableError /\
     (50 <= _get_total_panel_quantity p)%Z /\
     r = unresolvable_response (_get_total_panel_quantity p) (elapsed n)) \/
  (exists e, attempt m n p = Raise e /\ exn_cls e <> UnresolvableError /\
     r = exception_response e (elapsed n)).
Proof.
  unfold step. destruct (attempt m n p) as [r'|e].
  { split; [intros [= ->]; by left|]. intros [[= ->]|Hr]; [done|]. by break_hyps. }
  repeat case_decide; (split; [intros [=]|intros [[=]|Hr]]); break_hyps; try lia.
  right. left. exists e. split_and!; [done..|lia|done].
Qed.

(** What every response of the service looks like: a success carries no
    error; a failure carries an error message and nothing else; the elapsed
    time is always set. *)
Definition response_wf (r : CalculationResponse) : Prop :=
  is_Some (calculation_time r) /\
  match success r with
  | true => error r = None
  | false => resp_panels r = [] /\ cuts r = [] /\ summary r = ∅ /\ is_Some (error r)
  end.

Lemma attempt_Ok_inv m n p r :
  attempt m n p = Ok r ->
  exists panel0 result_json t,
    head (panels p) = Some panel0 /\
    opcut_calculate m (opcut_params_of p panel0) = Ok result_json /\
    transform_result result_json p = Ok t /\
    r = set_calculation_time t (elapsed n).
Proof.
  unfold attempt. intros (panel0 & Hp%py_head_Ok & H)%res_bind_Ok_inv.
  apply res_bind_Ok_inv in H as (result_json & Hr & H).
  apply res_bind_Ok_inv in H as (t & Ht & [= <-]). eauto 10.
Qed.

(** A successful response is the response of a successful attempt, made
    after some retries. *)
Lemma loop_success_attempt m n p :
  success (calculate_loop m n p) = true ->
  exists j, j <= retries_needed p /\
    attempt m (n + j) (retry_params p j) = Ok (calculate_loop m n p).
Proof.
  destruct (exec_total m n p) as (k & r & Hk).
  rewrite (exec_calculate_loop _ _ _ _ _ Hk).
  pose proof (exec_attempts_le _ _ _ _ _ Hk) as Hle.
  apply exec_trace in Hk as (j & -> & _ & Hend). intros Hr. exists j.
  split; [unfold attempts_bound in Hle; lia|].
  by apply step_Terminal in Hend as [?|[(e & _ & _ & _ & ->)|(e & _ & _ & ->)]].
Qed.

(** Every response the loop returns is well formed. *)
Lemma calculate_loop_wf m n p : response_wf (calculate_loop m n p).
Proof.
  revert n p. apply (loop_ind m); intros n p; [|intros n' p' Hs IH; by rewrite calculate_loop_step, Hs].
  intros r Hs. rewrite calculate_loop_step, Hs.
  apply step_Terminal in Hs as [Hok|[(e & _ & _ & _ & ->)|(e & _ & _ & ->)]];
    [|by split; [eexists|split_and!; [..|eexists]]..].
  apply attempt_Ok_inv in Hok as (panel0 & result_json & t & _ & _ & Ht & ->).
  apply transform_result_Ok_inv in Ht as (? & _ & _ & ->). by split; [eexists|].
Qed.

(** C4. What the loop returns, in full: after some number [j] of retries,
    each caused by [UnresolvableError] and each adding one sheet of every
    panel type, attempt [j] either succeeds and its response is returned,
    or raises [UnresolvableError] with the total at 50 or more, or raises
    another exception; the two failures give the responses of the two
    handlers. *)
Theorem calculate_loop_outcome m n p :
  exists j, j <= retries_needed p /\
    (forall i, i < j ->
       exists e, attempt m (n + i) (retry_params p i) = Raise e /\
                 exn_cls e = UnresolvableError) /\
    (attempt m (n + j) (retry_params p j) = Ok (calculate_loop m n p) \/
     (exists e, attempt m (n + j) (retry_params p j) = Raise e /\
        exn_cls e = UnresolvableError /\
        (50 <= _get_total_panel_quantity (retry_params p j))%Z /\
        calculate_loop m n p =
          unresolvable_response (_get_total_panel_quantity (retry_params p j))
            (elapsed (n + j))) \/
     (exists e, attempt m (n + j) (retry_params p j) = Raise e /\
        exn_cls e <> UnresolvableError /\
        calculate_loop m n p = exception_response e (elapsed (n + j)))).
Proof.
  destruct (exec_total m n p) as (k & r & Hk).
  rewrite (exec_calculate_loop _ _ _ _ _ Hk).
  pose proof (exec_attempts_le _ _ _ _ _ Hk) as Hle.
  apply exec_trace in Hk as (j & -> & Hretry & Hend). exists j.
  split_and!; [unfold attempts_bound in Hle; lia| |by apply step_Terminal].
  intros i Hi. by apply Hretry, step_Attempting in Hi as [? _].
Qed.

(** A request without panel types ends at the first attempt:
    [panels[0]] raises [IndexError], which the generic handler reports. *)
Lemma calculate_loop_no_panels m n p :
  panels p = [] ->
  calculate_loop m n p =
  exception_response (Exn IndexError "list index out of range") (elapsed n).
Proof.
  intros Hp. rewrite calculate_loop_step. unfold step.
  by rewrite (attempt_no_panels _ _ _ Hp).
Qed.

(** [calculate] rejects a method name that is not one of the four
    keys of [method_map] with [ValueError], before anything else happens;
    for the four names it always returns a response: every later failure
    is reported in the response, none is raised. *)
Lemma calculate_method_check (user_params : UserParams) (method : string) :
  if decide (method ∈ ["greedy"; "forward_greedy"; "greedy_native"; "forward_greedy_native"])
  then exists opcut_method,
         method_map !! method = Some opcut_method /\
         calculate user_params method = Ok (calculate_loop opcut_method 0 user_params)
  else calculate user_params method = Raise (Exn ValueError ("Unknown method: " +:+ method)).
Proof.
  unfold calculate. case_decide as Hm.
  - destruct (method_map !! method) as [opcut_method|] eqn:Hl; [by eexists|].
    apply not_elem_of_dom in Hl. exfalso. apply Hl. set_solver.
  - destruct (method_map !! method) as [opcut_method|] eqn:Hl; [|done].
    apply elem_of_dom_2 in Hl. exfalso. apply Hm. set_solver.
Qed.

(** ** What a retry changes *)

Lemma expand_panels_increment p :
  _expand_panels (panels p) ⊆ _expand_panels (panels (_increment_panel_quantities p 1)).
Proof.
  intros u. unfold _expand_panels. rewrite !list_elem_of_bind, increment_panels.
  intros (x & (i & -> & Hi%elem_of_py_range)%list_elem_of_fmap & Hx).
  eexists. split; [|by eapply list_elem_of_fmap_2]. simpl.
  apply (list_elem_of_fmap_2 (fun i => mkPanel (unit_id (pi_name x) i) _ _)).
  apply elem_of_py_range. lia.
Qed.

Lemma expand_items_increment p :
  _expand_items (items (_increment_panel_quantities p 1))
    <$> head (panels (_increment_panel_quantities p 1)) =
  _expand_items (items p) <$> head (panels p).
Proof.
  rewrite increment_panels. destruct (panels p) as [|panel0 l]; [done|]. simpl.
  f_equal; [by apply expand_items_grain_only..].
Qed.

(** C11. A retry hands the packer a strictly larger supply and the same
    demand: the attempt number grows by one, every panel type has one
    sheet more, the total grows by the number of panel types, which is
    not zero, every panel
    unit of the failed attempt is a unit of the next one, and the expanded
    items are the same. *)
Theorem retry_monotone m n p n' p' :
  step m n p = Attempting n' p' ->
  n' = S n /\
  (pi_quantity <$> panels p') = (Z.succ <$> (pi_quantity <$> panels p)) /\
  (0 < length (panels p)) /\
  _get_total_panel_quantity p' =
    (_get_total_panel_quantity p + Z.of_nat (length (panels p)))%Z /\
  _expand_panels (panels p) ⊆ _expand_panels (panels p') /\
  (_expand_items (items p') <$> head (panels p')) =
    (_expand_items (items p) <$> head (panels p)).
Proof.
  intros Hs. pose proof (step_Attempting_nonempty _ _ _ _ _ Hs) as Hne.
  apply step_Attempting in Hs as (_ & _ & -> & ->).
  split_and!; [done| | | |apply expand_panels_increment|apply expand_items_increment].
  - rewrite increment_panels, <- !list_fmap_compose. apply list_fmap_ext. intros; simpl; lia.
  - destruct (panels p); [done|simpl; lia].
  - rewrite increment_total. lia.
Qed.

(** ** A packer that never finds a plan *)

Section exhausted.
Context (m : Method).
Context (Hunres : forall prm, exists e,
           opcut_calculate m prm = Raise e /\ exn_cls e = UnresolvableError).

Lemma step_unresolvable n p :
  panels p <> [] ->
  step m n p =
  if decide (_get_total_panel_quantity p < 50)%Z
  then Attempting (S n) (_increment_panel_quantities p 1)
  else Terminal (unresolvable_response (_get_total_panel_quantity p) (elapsed n)).
Proof.
  intros Hp. unfold step, attempt. destruct (panels p) as [|panel0 l]; [done|]. simpl.
  destruct (Hunres (opcut_params_of p panel0)) as (e & -> & He). simpl.
  by rewrite decide_True.
Qed.

Lemma exec_exhausted n p :
  panels p <> [] ->
  exec m n p (attempts_bound p)
    (unresolvable_response
       (_get_total_panel_quantity (retry_params p (retries_needed p)))
       (elapsed (n + retries_needed p))).
Proof.
  revert n p. apply (loop_ind m (fun n p => panels p <> [] -> exec m n p _ _)).
  - intros n p r Hs Hp. rewrite (step_unresolvable n p Hp) in Hs. case_decide; [done|].
    injection Hs as <-. unfold attempts_bound.
    rewrite retries_needed_done, Nat.add_0_r by lia.
    apply exec_done. rewrite step_unresolvable by done. by rewrite decide_False.
  - intros n p n' p' Hs IH Hp. unfold attempts_bound.
    rewrite (retries_needed_step _ _ _ _ _ Hs), retry_params_S, Nat.add_succ_r.
    pose proof Hs as (_ & _ & -> & ->)%step_Attempting.
    eapply exec_retry; [done|]. apply IH. rewrite increment_panels. by destruct (panels p).
Qed.

(** C8. When the packer never finds a plan, the loop makes exactly
    [attempts_bound] attempts (the bound is reached) and returns the
    failure response that names the total quantity of the last attempt:
    the initial total plus the number of panel types for every retry. *)
Theorem calculate_loop_exhausted n p :
  panels p <> [] ->
  exec m n p (attempts_bound p) (calculate_loop m n p) /\
  calculate_loop m n p =
  unresolvable_response
    (_get_total_panel_quantity p +
     Z.of_nat (retries_needed p) * Z.of_nat (length (panels p)))
    (elapsed (n + retries_needed p)).
Proof.
  intros Hp. pose proof (exec_exhausted n p Hp) as Hex.
  rewrite (exec_calculate_loop _ _ _ _ _ Hex). split; [done|]. by rewrite retry_params_total.
Qed.

End exhausted.

(** The total quantity at which the loop gives up: for a request
    that starts at 50 or below it is at least 50 and less than 50 plus the
    number of panel types, so it is exactly 50 for a single panel type and
    can exceed 50 for several. *)
Lemma exhausted_total_range p :
  panels p <> [] -> (_get_total_panel_quantity p <= 50)%Z ->
  (50 <= _get_total_panel_quantity (retry_params p (retries_needed p))
      < 50 + Z.of_nat (length (panels p)))%Z.
Proof.
  intros Hp Ht. rewrite retry_params_total. unfold retries_needed.
  assert (0 < Z.of_nat (length (panels p)))%Z as Hlen by (destruct (panels p); [done|simpl; lia]).
  pose proof (ceil_div_bounds (50 - _get_total_panel_quantity p) _ Hlen).
  assert (0 <= ceil_div (50 - _get_total_panel_quantity p) (Z.of_nat (length (panels p))))%Z
    by (apply Z.div_pos; lia).
  rewrite Z2Nat.id by done. lia.
Qed.

(** ** The bounded loop *)

Lemma exec_fuel m n p k r fuel :
  exec m n p k r -> k <= fuel -> calculate_fuel fuel m n p = Some r.
Proof.
  intros Hex. revert fuel. induction Hex as [n p r Hs|n p n' p' k r Hs _ IH];
    (intros [|fuel] Hle; [lia|]); simpl; rewrite Hs; [done|]. apply IH. lia.
Qed.

Lemma calculate_fuel_Some m n p fuel r :
  calculate_fuel fuel m n p = Some r -> calculate_loop m n p = r.
Proof.
  revert n p. induction fuel as [|fuel IH]; intros n p; [done|]. simpl.
  rewrite calculate_loop_step. destruct (step m n p); [apply IH|by intros [=]].
Qed.

(** [calculate] evaluated with the bounded loop. *)
Lemma calculate_run fuel user_params method m r :
  method_map !! method = Some m ->
  calculate_fuel fuel m 0 user_params = Some r ->
  calculate user_params method = Ok r.
Proof.
  intros Hm Hr. unfold calculate. rewrite Hm. f_equal. by eapply calculate_fuel_Some.
Qed.

(** The bounded loop with [attempts_bound] rounds or more returns
    what [calculate_loop] returns: the bound is enough fuel for every
    request and every packer. *)
Lemma calculate_fuel_enough m n p fuel :
  attempts_bound p <= fuel -> calculate_fuel fuel m n p = Some (calculate_loop m n p).
Proof.
  intros Hle. destruct (exec_total m n p) as (k & r & Hk).
  rewrite (exec_calculate_loop _ _ _ _ _ Hk). apply (exec_fuel _ _ _ _ _ _ Hk).
  pose proof (exec_attempts_le _ _ _ _ _ Hk). lia.
Qed.

(** ** A packer that honours its contract *)

Section contract.
Context {HC : PackerContract P}.

Lemma contract_ids_known m p panel0 result_json :
  opcut_calculate m (opcut_params_of p panel0) = Ok result_json ->
  Forall (fun pid => pid ∈ dom (_create_panel_mapping (panels p)))
    (placement_ids (default [] (rj_used result_json)) (default [] (rj_unused result_json))).
Proof.
  intros [Hu Hn]%packer_within. unfold placement_ids.
  rewrite Forall_app, !Forall_fmap, !Forall_forall.
  split; intros x Hx; simpl; rewrite dom_create_panel_mapping, elem_of_list_to_set;
    [by apply Hu|by apply Hn].
Qed.

(** C24. With a packer that names only panels it was given, an attempt
    on a request with a panel type fails only if the packer raises: when
    the packer returns a result, the attempt returns the specified
    response with the elapsed time, and the assembler raises no
    [KeyError]. *)
Theorem attempt_with_contract m n p panel0 :
  head (panels p) = Some panel0 ->
  attempt m n p =
  match opcut_calculate m (opcut_params_of p panel0) with
  | Ok result_json =>
      Ok (set_calculation_time (response_spec result_json p panel0) (elapsed n))
  | Raise e => Raise e
  end.
Proof.
  intros Hp0%py_head_Ok. unfold attempt. rewrite Hp0. simpl.
  destruct (opcut_calculate m _) as [result_json|e] eqn:Hr; [|done]. simpl.
  rewrite transform_result_unfold, Hp0. simpl.
  by rewrite (proj2 (first_unknown_None _ _) (contract_ids_known _ _ _ _ Hr)).
Qed.

End contract.

End loop.

(** Replace [calculate] on a closed request by the response the bounded
    loop computes in [fuel] rounds. *)
Ltac rewrite_calculate fuel :=
  match goal with
  | |- context [@calculate ?P ?p ?method] =>
      let m := eval vm_compute in (method_map !! method) in
      match m with
      | Some ?m' =>
          let r := eval vm_compute in (@calculate_fuel P fuel m' 0 p) in
          match r with
          | Some ?r' =>
              rewrite (@calculate_run P fuel p method m' r'
                         ltac:(vm_compute; reflexivity) ltac:(vm_compute; reflexivity))
          end
      end
  end.

(** ** Packers that answer alike *)

(** Two packers are equivalent when they give the same answers and the
    same clock readings.  Without extensionality of functions this is
    coarser than equality of the two records. *)
Definition packer_equiv (P1 P2 : Packer) : Prop :=
  (forall m prm, @opcut_calculate P1 m prm = @opcut_calculate P2 m prm) /\
  (forall n, @elapsed P1 n = @elapsed P2 n).

#[export] Instance packer_equiv_equivalence : Equivalence packer_equiv.
Proof.
  split.
  - by intros P.
  - intros P1 P2 [Hc He]. by split.
  - intros P1 P2 P3 [Hc1 He1] [Hc2 He2]. split; intros; [by rewrite Hc1|by rewrite He1].
Qed.

Section same_answers.
Context (P1 P2 : Packer) (m1 m2 : Method).
Context (Hcalc : forall prm, @opcut_calculate P1 m1 prm = @opcut_calculate P2 m2 prm).
Context (Hclock : forall n, @elapsed P1 n = @elapsed P2 n).

Lemma attempt_same n p : @attempt P1 m1 n p = @attempt P2 m2 n p.
Proof. unfold attempt. destruct (py_head (panels p)); simpl; [|done]. by rewrite Hcalc, Hclock. Qed.

Lemma step_same n p : @step P1 m1 n p = @step P2 m2 n p.
Proof. unfold step. by rewrite attempt_same, Hclock. Qed.

Lemma calculate_loop_same n p : @calculate_loop P1 m1 n p = @calculate_loop P2 m2 n p.
Proof.
  revert n p. apply (loop_ind (P := P1) m1); intros n p.
  - intros r Hs. rewrite !calculate_loop_step, <- step_same. by rewrite Hs.
  - intros n' p' Hs IH. rewrite !calculate_loop_step, <- step_same. by rewrite Hs.
Qed.

End same_answers.

#[export] Instance calculate_loop_proper :
  Proper (packer_equiv ==> eq ==> eq ==> eq ==> eq) (@calculate_loop).
Proof. intros P1 P2 [Hc He] m ? <- n ? <- p ? <-. by apply calculate_loop_same. Qed.

#[export] Instance calculate_proper :
  Proper (packer_equiv ==> eq ==> eq ==> eq) (@calculate).
Proof.
  intros P1 P2 HP p ? <- method ? <-. unfold calculate.
  destruct (method_map !! method); [|done]. f_equal. by apply calculate_loop_proper.
Qed.

(** The response depends on the method only through the answers of
    the packer: two methods for which the packer answers alike, such as a
    strategy and its accelerated variant, give the same response to every
    request. *)
Lemma method_independent `{P : Packer} (method1 method2 : string) (m1 m2 : Method)
    (user_params : UserParams) :
  method_map !! method1 = Some m1 -> method_map !! method2 = Some m2 ->
  (forall prm, opcut_calculate m1 prm = opcut_calculate m2 prm) ->
  calculate user_params method1 = calculate user_params method2.
Proof.
  intros H1 H2 Hm. unfold calculate. rewrite H1, H2. f_equal.
  by apply calculate_loop_same.
Qed.

(** ** Enforcing the contract *)

#[export] Instance result_within_dec prm r : Decision (result_within prm r).
Proof.
  refine (cast_if_and
    (decide (Forall (fun u => uj_panel u ∈ panel_uid <$> prm_panels prm /\
                              uj_item u ∈ item_uid <$> prm_items prm)
               (default [] (rj_used r))))
    (decide (Forall (fun n => nj_panel n ∈ panel_uid <$> prm_panels prm)
               (default [] (rj_unused r)))));
    unfold result_within; rewrite ?Forall_forall in *; naive_solver.
Defined.

(** A packer whose answers are checked against the contract: an answer
    that names a panel or an item it was not given is turned into an
    exception. *)
Definition checked (P : Packer) : Packer :=
  {| opcut_calculate m prm :=
       r <- @opcut_calculate P m prm ;;
       if decide (result_within prm r) then Ok r
       else Raise (Exn (OtherError "ContractViolation") "result names an unknown unit");
     elapsed := @elapsed P |}.

#[export] Instance checked_contract P : PackerContract (checked P).
Proof.
  intros m prm r. simpl. intros (r' & _ & Hr)%res_bind_Ok_inv.
  case_decide; by simplify_eq.
Qed.

(** Checking changes nothing for a packer that honours the contract. *)
Lemma checked_equiv P : PackerContract P -> packer_equiv (checked P) P.
Proof.
  intros HC. split; [|done]. intros m prm. simpl.
  destruct (@opcut_calculate P m prm) as [r|e] eqn:Hr; [|done]. simpl.
  by rewrite decide_True by by eapply packer_within.
Qed.

(** ** Example packers *)

(** The clock of the examples: attempt [n] ends after [n] seconds. *)
Fixpoint seconds (n : nat) : float :=
  match n with
  | 0 => 0%float
  | S n => (seconds n + 1)%float
  end.

(** A packer that never finds a plan. *)
Definition never_packer : Packer :=
  {| opcut_calculate _ _ := Raise (Exn UnresolvableError "no solution");
     elapsed := seconds |}.

(** The result that stacks every item at the origin of [panel]. *)
Definition stack_on (panel : Panel) (items : list Item) : ResultJson :=
  {| rj_used :=
       Some ((fun it => mkUsedJson (panel_uid panel) (item_uid it) 0%float 0%float false
                          None None) <$> items);
     rj_unused := Some [];
     rj_cuts := Some (Some []) |}.

(** A packer that needs [k] sheets: it fails with fewer, and otherwise
    stacks every item on the last sheet. *)
Definition needy_packer (k : nat) : Packer :=
  {| opcut_calculate _ prm :=
       match last (prm_panels prm) with
       | Some panel =>
           if decide (k <= length (prm_panels prm))
           then Ok (stack_on panel (prm_items prm))
           else Raise (Exn UnresolvableError "no solution")
       | None => Raise (Exn UnresolvableError "no solution")
       end;
     elapsed := seconds |}.

#[export] Instance needy_packer_contract k : PackerContract (needy_packer k).
Proof.
  intros m prm r. simpl. destruct (last (prm_panels prm)) as [panel|] eqn:Hl; [|done].
  case_decide; [|done]. intros [= <-]. split; simpl; [|by intros ? ?%elem_of_nil].
  intros u (it & -> & Hit)%list_elem_of_fmap. simpl. split.
  - apply list_elem_of_fmap_2. rewrite last_lookup in Hl. by eapply list_elem_of_lookup_2.
  - by apply list_elem_of_fmap_2.
Qed.

(** One sheet of one panel type, and the two item types of the examples. *)
Definition ex_request : UserParams :=
  mkUserParams 3%float false
    [mkPanelInput "board" 2440%float 1220%float 1 vertical] [ex_item_shelf; ex_item_door].

(** Three panel types, one sheet of each. *)
Definition ex_request3 : UserParams :=
  mkUserParams 3%float false
    [mkPanelInput "a" 2440%float 1220%float 1 vertical;
     mkPanelInput "b" 1000%float 500%float 1 vertical;
     mkPanelInput "c" 800%float 600%float 1 horizontal] [ex_item_shelf].

(** ** The theorems at the examples *)

Lemma retry_monotone_witness :
  1 = 1 /\
  (pi_quantity <$> panels (_increment_panel_quantities ex_request3 1)) =
    (Z.succ <$> (pi_quantity <$> panels ex_request3)) /\
  (0 < length (panels ex_request3)) /\
  _get_total_panel_quantity (_increment_panel_quantities ex_request3 1) =
    (_get_total_panel_quantity ex_request3 + Z.of_nat (length (panels ex_request3)))%Z /\
  _expand_panels (panels ex_request3) ⊆
    _expand_panels (panels (_increment_panel_quantities ex_request3 1)) /\
  (_expand_items (items (_increment_panel_quantities ex_request3 1))
     <$> head (panels (_increment_panel_quantities ex_request3 1))) =
    (_expand_items (items ex_request3) <$> head (panels ex_request3)).
Proof. apply (retry_monotone (P := never_packer) GREEDY 0 ex_request3). by vm_compute. Defined.

Lemma calculate_loop_no_panels_witness :
  calculate_loop (P := never_packer) GREEDY 0 (mkUserParams 3%float false [] [ex_item_shelf]) =
  exception_response (Exn IndexError "list index out of range") 0%float.
Proof. by apply (calculate_loop_no_panels (P := never_packer)). Defined.

Lemma calculate_loop_exhausted_witness :
  exec (P := never_packer) GREEDY 0 ex_request 50
    (calculate_loop (P := never_packer) GREEDY 0 ex_request) /\
  calculate_loop (P := never_packer) GREEDY 0 ex_request =
  unresolvable_response 50 49%float.
Proof.
  apply (calculate_loop_exhausted (P := never_packer) GREEDY); [|done].
  intros prm. by eexists.
Defined.

Lemma exhausted_total_range_witness :
  (50 <= _get_total_panel_quantity (retry_params ex_request3 (retries_needed ex_request3))
      < 50 + 3)%Z.
Proof. apply (exhausted_total_range ex_request3); [done|by vm_compute]. Defined.

Lemma calculate_fuel_enough_witness :
  calculate_fuel (P := needy_packer 3) 50 GREEDY 0 ex_request =
  Some (calculate_loop (P := needy_packer 3) GREEDY 0 ex_request).
Proof. apply (calculate_fuel_enough (P := needy_packer 3)). vm_compute. lia. Defined.

Lemma attempt_with_contract_witness :
  attempt (P := needy_packer 1) GREEDY 0 ex_request =
  Ok (set_calculation_time
        (response_spec
           (stack_on (mkPanel "board_1" 2440%float 1220%float)
              (_expand_items [ex_item_shelf; ex_item_door]
                 (mkPanelInput "board" 2440%float 1220%float 1 vertical)))
           ex_request (mkPanelInput "board" 2440%float 1220%float 1 vertical))
        0%float).
Proof. by apply (attempt_with_contract (P := needy_packer 1) GREEDY 0 ex_request). Defined.

Lemma method_independent_witness :
  calculate (P := needy_packer 3) ex_request "greedy" =
  calculate (P := needy_packer 3) ex_request "greedy_native".
Proof. by apply (method_independent (P := needy_packer 3) _ _ GREEDY GREEDY_NATIVE). Defined.
