(* ===== verification/Service.v ===== *)
(** * Service: what a successful response says about the request

    The components composed: a response of [CuttingOptimizer.calculate]
    with [success = True] is assembled from the answer of the packer to the
    request with some number [j] of additional sheets per panel type.  For
    a packer that names only panels and items it was given
    ([PackerContract]), every panel of the response is a sheet of a panel
    type of the request, with that type's name and size, and every placed
    item is a unit of an item type of the request, displayed with that
    type's metadata. *)

From Equations Require Import Equations.
From Stdlib Require Import ZArith String List Lia PrimFloat.
From stdpp Require Import base tactics option list strings gmap sorting.
From S2P Require Import Prelude PyDict Model Geometry Expander Assembler Retry.

(** ** The two relations between a response and a request *)

(** [po] is one of the sheets of a panel type of [p], after [j] sheets were
    added to every type. *)
Definition panel_from_request (p : UserParams) (j : nat) (po : PanelOutput) : Prop :=
  exists ps i, ps ∈ panels p /\ (0 <= i < pi_quantity ps + Z.of_nat j)%Z /\
    panel_id po = unit_id (pi_name ps) i /\
    panel_name po = pi_name ps /\ po_width po = pi_width ps /\ po_height po = pi_height ps.

(** [e] displays a placement of one of the units of an item type of [p],
    against the reference panel [panel0]. *)
Definition item_from_request (p : UserParams) (panel0 : PanelInput) (e : UsedItem) : Prop :=
  exists item i used_item, item ∈ items p /\ (0 <= i < ii_quantity item)%Z /\
    uj_item used_item = unit_id (ii_name item) i /\
    e = display_of panel0 (item_details item panel0) used_item.

(** ** Only the grain of the reference panel matters *)

Lemma item_details_grain_only item panel panel' :
  pi_grain panel = pi_grain panel' -> item_details item panel = item_details item panel'.
Proof. intros Hg. unfold item_details. by rewrite (transform_grain_only item panel panel' Hg). Qed.

Lemma display_of_grain_only panel panel' d used_item :
  pi_grain panel = pi_grain panel' -> display_of panel d used_item = display_of panel' d used_item.
Proof. unfold display_of. by intros ->. Qed.

(** ** The panels and the items of a specified response *)

Section response.
Context (result : ResultJson) (q : UserParams) (panel0 : PanelInput).

Lemma panel_spec_from_request pid :
  pid ∈ dom (_create_panel_mapping (panels q)) ->
  panel_from_request q 0
    (panel_spec (_create_item_mapping (items q) panel0) (_create_panel_mapping (panels q))
       panel0 (default [] (rj_used result)) (default [] (rj_unused result)) pid).
Proof.
  intros [d Hd]%elem_of_dom. pose proof Hd as Hd'. rewrite create_panel_mapping_units in Hd'.
  apply unit_mapping_lookup_Some in Hd' as (ps & i & Hps & Hi & -> & ->).
  exists ps, i. unfold panel_spec. rewrite Hd. split_and!; try done; lia.
Qed.

Lemma display_from_request used_item :
  uj_item used_item ∈ item_uid <$> _expand_items (items q) panel0 ->
  item_from_request q panel0
    (_transform_used_item_for_display used_item (_create_item_mapping (items q) panel0) panel0).
Proof.
  intros Hu. assert (uj_item used_item ∈ dom (_create_item_mapping (items q) panel0)) as Hdom
    by by rewrite dom_create_item_mapping, elem_of_list_to_set.
  apply elem_of_dom in Hdom as [d Hd]. rewrite (display_known _ _ _ d Hd).
  rewrite create_item_mapping_units in Hd.
  apply unit_mapping_lookup_Some in Hd as (item & i & Hitem & Hi & Hid & ->).
  by exists item, i, used_item.
Qed.

(** The panels of the specified response for a result within the
    parameters of the request. *)
Lemma response_spec_from_request :
  result_within (opcut_params_of q panel0) result ->
  Forall (fun po => panel_from_request q 0 po /\
                    Forall (item_from_request q panel0) (used_items po))
    (resp_panels (response_spec result q panel0)).
Proof.
  intros [Hu Hn]. apply Forall_forall. intros po (pid & Hpid & ->)%elem_of_response_spec.
  split.
  - apply panel_spec_from_request. rewrite dom_create_panel_mapping, elem_of_list_to_set.
    unfold placement_ids in Hpid.
    apply elem_of_app in Hpid as [(u & -> & Hin)%list_elem_of_fmap|(a & -> & Hin)%list_elem_of_fmap];
      [by apply Hu|by apply Hn].
  - simpl. apply Forall_fmap, Forall_forall. intros u [_ Hin]%list_elem_of_filter.
    apply display_from_request. by apply Hu.
Qed.

End response.

(** ** From the retried request back to the original *)

Lemma panel_from_request_retry p j po :
  panel_from_request (retry_params p j) 0 po -> panel_from_request p j po.
Proof.
  intros (ps & i & Hps & Hi & Hid & Hn & Hw & Hh). rewrite retry_params_panels in Hps.
  apply list_elem_of_fmap in Hps as (ps0 & -> & Hps0). exists ps0, i.
  simpl in *. split_and!; try done; lia.
Qed.

Lemma item_from_request_retry p j panel0 panel0' e :
  pi_grain panel0' = pi_grain panel0 ->
  item_from_request (retry_params p j) panel0' e -> item_from_request p panel0 e.
Proof.
  intros Hg (item & i & u & Hitem & Hi & Hid & ->). rewrite retry_params_items in Hitem.
  exists item, i, u. split_and!; try done; try lia.
  by rewrite (item_details_grain_only item _ _ Hg), (display_of_grain_only _ _ _ _ Hg).
Qed.

(** ** The theorem *)

Section service.
Context `{P : Packer} {HC : PackerContract P}.

(** A successful response of the loop, read back against the request. *)
Lemma loop_response_from_request (m : Method) (n : nat) (p : UserParams) :
  success (calculate_loop m n p) = true ->
  exists j panel0, j <= retries_needed p /\ head (panels p) = Some panel0 /\
    StronglySorted str_lt (panel_id <$> resp_panels (calculate_loop m n p)) /\
    Forall (fun po => panel_from_request p j po /\
                      Forall (item_from_request p panel0) (used_items po))
      (resp_panels (calculate_loop m n p)).
Proof.
  intros (j & Hj & Hok)%loop_success_attempt.
  apply attempt_Ok_inv in Hok as (panel0' & result_json & t & Hp0' & Hres & Ht & ->).
  apply transform_result_Ok_inv in Ht as (? & ? & _ & ->). simplify_eq.
  destruct (head (panels p)) as [panel0|] eqn:Hp0;
    [|by rewrite retry_params_panels in Hp0'; destruct (panels p)].
  destruct (retry_params_head p j panel0 Hp0) as (? & ? & Hg). simplify_eq.
  exists j, panel0. split_and!; [done..|apply response_spec_sorted|].
  eapply Forall_impl; [apply response_spec_from_request; by eapply packer_within|].
  intros po [Hpo Hitems]. split; [by apply panel_from_request_retry|].
  eapply Forall_impl; [done|]. intros e. by apply item_from_request_retry.
Qed.

(** C2. Soundness of a successful response.  With a packer that names only
    panels and items it was given, a response with [success = True] was
    assembled after some number [j] of retries, within the bound; its
    panels are in strictly increasing order of id; each is a sheet of a
    panel type of the request (counting the [j] sheets added to every
    type) with the name and the size of that type; and each item placed
    on it is a unit of an item type of the request, displayed with the
    name, grain, engraved line and borders of that type against the first
    panel type. *)
Theorem success_response_sound (m : Method) (n : nat) (p : UserParams) :
  success (calculate_loop m n p) = true ->
  exists j panel0, j <= retries_needed p /\ head (panels p) = Some panel0 /\
    StronglySorted str_lt (panel_id <$> resp_panels (calculate_loop m n p)) /\
    Forall (fun po => panel_from_request p j po /\
                      Forall (item_from_request p panel0) (used_items po))
      (resp_panels (calculate_loop m n p)).
Proof. apply loop_response_from_request. Qed.

End service.

(** ** Example *)

Lemma success_response_sound_witness :
  exists j panel0, j <= retries_needed ex_request /\ head (panels ex_request) = Some panel0 /\
    StronglySorted str_lt
      (panel_id <$> resp_panels (calculate_loop (P := needy_packer 2) GREEDY 0 ex_request)) /\
    Forall (fun po => panel_from_request ex_request j po /\
                      Forall (item_from_request ex_request panel0) (used_items po))
      (resp_panels (calculate_loop (P := needy_packer 2) GREEDY 0 ex_request)).
Proof.
  apply (success_response_sound (P := needy_packer 2) GREEDY 0 ex_request).
  by erewrite (calculate_fuel_Some (P := needy_packer 2) GREEDY 0 ex_request 2)
    by (vm_compute; reflexivity).
Defined.
