(* ===== verification/Api.v ===== *)
(** * Api: the HTTP handlers of [src/app/main.py]

    [calculate_optimization] (lines 438-470) is the handler of
    [POST /calculate]: it logs the request, overwrites the quantity of the
    first panel type with 1 (line 458), calls [CuttingOptimizer.calculate]
    and turns every exception into a failure response whose error starts
    with ["API Error: "].  [health_check] (lines 473-476) returns a constant
    dict.

    The sums the handler computes for its log lines (447, 451) do not affect
    the response and are left out; the validation FastAPI runs on the body
    before it calls the handler is in [Pydantic], and composed with the
    handler in [Endpoints]. *)

From Equations Require Import Equations.
From Stdlib Require Import ZArith String List Lia PrimFloat.
From stdpp Require Import base tactics option list strings gmap.
From S2P Require Import Prelude PyDict Model Geometry Expander Assembler Retry.

(** ** The functions of the program *)

(** Line 458: [user_params.panels[0].quantity = quantity]. *)
Definition set_first_quantity (user_params : UserParams) (quantity : Z) : res UserParams :=
  match panels user_params with
  | [] => Raise (Exn IndexError "list index out of range")
  | panel0 :: rest =>
      Ok {| cut_width := cut_width user_params;
            min_initial_usage := min_initial_usage user_params;
            panels :=
              {| pi_name := pi_name panel0;
                 pi_width := pi_width panel0;
                 pi_height := pi_height panel0;
                 pi_quantity := quantity;
                 pi_grain := pi_grain panel0 |} :: rest;
            items := items user_params |}
  end.

(** The response of the handler's [except] clause (lines 463-469). *)
Definition api_error_response (e : exn) : CalculationResponse :=
  {| success := false;
     resp_panels := [];
     cuts := [];
     summary := ∅;
     error := Some ("API Error: " +:+ exn_msg e);
     calculation_time := None |}.

Section handlers.
Context `{P : Packer}.

Definition calculate_optimization (user_params : UserParams) (method : string)
  : CalculationResponse :=
  match (user_params <- set_first_quantity user_params 1 ;;
         calculate user_params method) with
  | Ok response => response
  | Raise e => api_error_response e
  end.

End handlers.

Definition health_check : odict string :=
  [("status", "healthy"); ("service", "cutting-optimizer")].

(** ** The first quantity *)

Lemma set_first_quantity_idem user_params user_params' q q' :
  set_first_quantity user_params q = Ok user_params' ->
  set_first_quantity user_params' q' = set_first_quantity user_params q'.
Proof.
  unfold set_first_quantity. destruct (panels user_params) as [|panel0 rest]; [done|].
  by intros [= <-].
Qed.

Lemma set_first_quantity_total user_params q :
  panels user_params <> [] ->
  exists user_params', set_first_quantity user_params q = Ok user_params' /\
    _get_total_panel_quantity user_params' =
    (q + py_sum (pi_quantity <$> tail (panels user_params)))%Z /\
    length (panels user_params') = length (panels user_params).
Proof.
  unfold set_first_quantity. destruct (panels user_params) as [|panel0 rest]; [done|].
  intros _. eexists. split; [done|]. split; [|done].
  unfold _get_total_panel_quantity. simpl. by autorewrite with py.
Qed.

(** ** The handler *)

Section handler.
Context `{P : Packer}.

(** The responses the handler can give. *)
Definition api_response_wf (r : CalculationResponse) : Prop :=
  match success r with
  | true => error r = None /\ is_Some (calculation_time r)
  | false => resp_panels r = [] /\ cuts r = [] /\ summary r = ∅ /\ is_Some (error r)
  end.

(** The handler as a case distinction: a request without panel types and an
    unknown method name give an ["API Error"] response without any
    attempt; every other request is answered by the retry loop, started on
    the request with the quantity of its first panel type replaced by 1. *)
Lemma calculate_optimization_unfold (user_params : UserParams) (method : string) :
  calculate_optimization user_params method =
  match panels user_params with
  | [] => api_error_response (Exn IndexError "list index out of range")
  | panel0 :: rest =>
      match method_map !! method with
      | None => api_error_response (Exn ValueError ("Unknown method: " +:+ method))
      | Some opcut_method =>
          calculate_loop opcut_method 0
            (mkUserParams (cut_width user_params) (min_initial_usage user_params)
               (mkPanelInput (pi_name panel0) (pi_width panel0) (pi_height panel0) 1
                  (pi_grain panel0) :: rest)
               (items user_params))
      end
  end.
Proof.
  unfold calculate_optimization, set_first_quantity, calculate.
  destruct (panels user_params) as [|panel0 rest]; [done|]. simpl.
  by destruct (method_map !! method).
Qed.

(** C25. The quantity requested for the first panel type has no effect on
    the response: the handler replaces it by 1 before the calculation. *)
Theorem calculate_optimization_first_quantity
    (user_params user_params' : UserParams) (q : Z) (method : string) :
  set_first_quantity user_params q = Ok user_params' ->
  calculate_optimization user_params' method = calculate_optimization user_params method.
Proof.
  intros Hq. unfold calculate_optimization.
  by rewrite (set_first_quantity_idem _ _ _ 1 Hq).
Qed.

(** The handler never raises and its response is well formed: a
    success has no error and a calculation time, a failure has an error
    message and no panels, cuts or summary. *)
Lemma calculate_optimization_wf (user_params : UserParams) (method : string) :
  api_response_wf (calculate_optimization user_params method).
Proof.
  rewrite calculate_optimization_unfold.
  destruct (panels user_params) as [|panel0 rest]; [by split_and!; [..|eexists]|].
  destruct (method_map !! method) as [opcut_method|]; [|by split_and!; [..|eexists]].
  match goal with |- api_response_wf (calculate_loop ?m ?n ?p) =>
    destruct (calculate_loop_wf m n p) as [Ht Hr] end.
  unfold api_response_wf. by destruct (success _).
Qed.

(** C26. Exhaustion through the handler.  A request with a single panel
    type always starts from one sheet, whatever quantity it asks for; when
    the packer never finds a plan it is answered after exactly 50
    attempts, with the failure that names 50 panels and the time of the
    last attempt. *)
Theorem calculate_optimization_exhausted
    (user_params : UserParams) (panel0 : PanelInput) (method : string) (m : Method) :
  (forall prm, exists e, opcut_calculate m prm = Raise e /\ exn_cls e = UnresolvableError) ->
  panels user_params = [panel0] ->
  method_map !! method = Some m ->
  calculate_optimization user_params method = unresolvable_response 50 (elapsed 49).
Proof.
  intros Hunres Hp Hm. rewrite calculate_optimization_unfold, Hp, Hm.
  match goal with |- calculate_loop m 0 ?p = _ =>
    pose proof (exec_exhausted m Hunres 0 p ltac:(done)) as Hex;
    apply exec_calculate_loop in Hex; rewrite Hex, retry_params_total
  end.
  by vm_compute.
Qed.

End handler.

(** ** Examples *)

Lemma health_check_status : od_get "status" health_check = Some "healthy".
Proof. done. Qed.

Lemma calculate_optimization_first_quantity_witness :
  calculate_optimization (P := never_packer)
    (mkUserParams 3%float false
       [mkPanelInput "board" 2440%float 1220%float 7 vertical] [ex_item_shelf; ex_item_door])
    "greedy" =
  calculate_optimization (P := never_packer) ex_request "greedy".
Proof.
  by apply (calculate_optimization_first_quantity (P := never_packer) ex_request _ 7).
Defined.

Lemma calculate_optimization_exhausted_witness :
  calculate_optimization (P := never_packer) ex_request "greedy_native" =
  unresolvable_response 50 49%float.
Proof.
  apply (calculate_optimization_exhausted (P := never_packer) ex_request
           (mkPanelInput "board" 2440%float 1220%float 1 vertical) "greedy_native"
           GREEDY_NATIVE); [|done..].
  intros prm. by eexists.
Defined.
