(* ===== verification/Request.v ===== *)
(** * Request: well-formed requests and what the service does with them

    The data model names three conditions on a request that the program
    never checks: the names of the panel types and of the item types are
    unique within the request, a quantity counts sheets, and there is a
    panel type to cut from.  [params_wf] states them.  This file shows that
    every operation the service applies to a request keeps it well formed
    ([_increment_panel_quantities] of the retry loop, the assignment
    [panels[0].quantity = 1] of the handler), that every state of the loop
    started on a well-formed request is well formed, and what this gives at
    the boundary with the packer: the identifiers it is handed are pairwise
    distinct, there are as many sheets as the total says, and a retry adds
    exactly the sheet [name_(Q+1)] of every panel type to the ones of the
    attempt before. *)

From Equations Require Import Equations.
From Stdlib Require Import ZArith String List Lia PrimFloat.
From stdpp Require Import base tactics option list strings gmap sorting.
From S2P Require Import Prelude PyDict Model Geometry Expander Assembler Retry Service Api.

(** ** Well-formed values *)

(** A request: at least one panel type, names unique among the panel types
    and among the item types, no negative number of sheets. *)
Definition params_wf (p : UserParams) : Prop :=
  panels p <> [] /\
  NoDup (pi_name <$> panels p) /\
  NoDup (ii_name <$> items p) /\
  Forall (fun panel => 0 <= pi_quantity panel)%Z (panels p).

#[export] Instance params_wf_dec p : Decision (params_wf p).
Proof. unfold params_wf. apply _. Defined.

(** What the packer is handed: no identifier twice. *)
Definition opcut_params_wf (prm : Params) : Prop :=
  NoDup (panel_uid <$> prm_panels prm) /\ NoDup (item_uid <$> prm_items prm).

#[export] Instance opcut_params_wf_dec prm : Decision (opcut_params_wf prm).
Proof. unfold opcut_params_wf. apply _. Defined.

(** The largest total the loop can reach from [p0]: the total of the
    request when that is 50 or more, and otherwise less than 50 plus one
    sheet of every type. *)
Definition supply_bound (p0 : UserParams) : Z :=
  Z.max (_get_total_panel_quantity p0) (49 + Z.of_nat (length (panels p0))).

(** The states of the loop started on [p0] that are well formed. *)
Definition state_wf (p0 : UserParams) (s : state) : Prop :=
  match s with
  | Attempting n p =>
      params_wf p /\ p = retry_params p0 n /\
      (_get_total_panel_quantity p <= supply_bound p0)%Z
  | Terminal r => response_wf r
  end.

(** The sheets a retry adds to those of [p]: for every panel type of
    quantity [Q], the one with index [Q]. *)
Definition added_panels (p : UserParams) : list Panel :=
  (fun panel => mkPanel (unit_id (pi_name panel) (pi_quantity panel))
                  (pi_width panel) (pi_height panel)) <$> panels p.

(** ** Every operation keeps a request well formed *)

Lemma increment_wf p increment :
  (0 <= increment)%Z -> params_wf p -> params_wf (_increment_panel_quantities p increment).
Proof.
  intros Hi (Hne & Hpn & Hin & Hq). unfold params_wf.
  destruct (increment_keeps_rest p increment) as (-> & _ & _ & ->).
  rewrite increment_panels, Forall_fmap. split_and!; try done.
  - by destruct (panels p).
  - eapply Forall_impl; [done|]. simpl. lia.
Qed.

Lemma retry_params_wf p j : params_wf p -> params_wf (retry_params p j).
Proof.
  revert p. induction j as [|j IH]; intros p Hp; [done|].
  rewrite retry_params_S. by apply IH, increment_wf.
Qed.

Lemma set_first_quantity_wf p q :
  (0 <= q)%Z -> params_wf p ->
  exists p', set_first_quantity p q = Ok p' /\ params_wf p'.
Proof.
  intros Hq (Hne & Hpn & Hin & Hqs). unfold set_first_quantity.
  destruct (panels p) as [|panel0 rest] eqn:Hp; [done|]. eexists. split; [done|].
  apply Forall_cons in Hqs as [_ Hqs]. unfold params_wf. simpl. by split_and!; [..|constructor].
Qed.

(** ** The total and the bound *)

Lemma supply_bound_ge p0 : (_get_total_panel_quantity p0 <= supply_bound p0)%Z.
Proof. unfold supply_bound. lia. Qed.

Lemma supply_bound_retry p0 j :
  (_get_total_panel_quantity (retry_params p0 j) < 50)%Z ->
  (_get_total_panel_quantity (retry_params p0 (S j)) <= supply_bound p0)%Z.
Proof. rewrite !retry_params_total. unfold supply_bound. lia. Qed.

(** ** The invariant of the loop *)

Section invariant.
Context `{P : Packer}.

Lemma step_wf m p0 n p : state_wf p0 (Attempting n p) -> state_wf p0 (step m n p).
Proof.
  intros (Hwf & -> & Hb). destruct (step m n (retry_params p0 n)) as [n' p'|r] eqn:Hs.
  - apply step_Attempting in Hs as (_ & Hlt & -> & ->).
    split_and!; [by apply increment_wf|done|by apply supply_bound_retry].
  - pose proof (calculate_loop_wf m n (retry_params p0 n)) as Hr.
    by rewrite calculate_loop_step, Hs in Hr.
Qed.

(** The well-formed states are closed under the transitions of the loop. *)
Lemma reachable_wf m p0 s : params_wf p0 -> reachable m p0 s -> state_wf p0 s.
Proof.
  intros Hwf. induction 1 as [|n p _ IH]; [|by apply step_wf].
  split_and!; [done..|apply supply_bound_ge].
Qed.

End invariant.

(** ** At the boundary with the packer *)

Lemma opcut_params_of_wf p panel0 : params_wf p -> opcut_params_wf (opcut_params_of p panel0).
Proof.
  intros (_ & Hpn & Hin & _). split; simpl.
  - rewrite expand_panels_ids. by apply NoDup_unit_ids.
  - by apply expand_items_NoDup.
Qed.

Lemma opcut_params_of_count p panel0 :
  params_wf p ->
  Z.of_nat (length (prm_panels (opcut_params_of p panel0))) = _get_total_panel_quantity p.
Proof. intros (_ & _ & _ & Hq). symmetry. by apply total_is_unit_count. Qed.

(** The sheets after a retry are the sheets before it and the added
    ones. *)
Lemma expand_panels_added p :
  Forall (fun panel => 0 <= pi_quantity panel)%Z (panels p) ->
  _expand_panels (panels (_increment_panel_quantities p 1)) ≡ₚ
  _expand_panels (panels p) ++ added_panels p.
Proof.
  rewrite increment_panels. unfold added_panels, _expand_panels.
  induction 1 as [|panel l Hq _ IH]; [done|].
  rewrite !fmap_cons, !bind_cons, IH. simpl. rewrite py_range_succ, fmap_app by done. simpl.
  by solve_Permutation.
Qed.

(** The added sheets are new: none has the identifier of a sheet the
    request already had. *)
Lemma added_panels_fresh p u :
  NoDup (pi_name <$> panels p) -> u ∈ added_panels p ->
  panel_uid u ∉ panel_uid <$> _expand_panels (panels p).
Proof.
  intros Hnd (panel & -> & Hp)%list_elem_of_fmap. simpl.
  rewrite expand_panels_ids, elem_of_unit_ids. intros (panel' & i & Hp' & Hi & Hid).
  apply unit_id_inj in Hid as [Hn Hq].
  assert (panel = panel') as <- by by apply (NoDup_fmap_eq pi_name (panels p)). lia.
Qed.

(** The states in which the loop has made [j] retries. *)
Lemma trace_reachable `{P : Packer} m p j :
  (forall i, i < j ->
     step m i (retry_params p i) = Attempting (S i) (retry_params p (S i))) ->
  reachable m p (Attempting j (retry_params p j)).
Proof.
  induction j as [|j IH]; intros Hretry; [constructor|].
  rewrite <- (Hretry j) by lia. constructor. apply IH. intros i Hi. apply Hretry. lia.
Qed.

(** A successful response was assembled in a reachable state. *)
Lemma loop_success_reachable `{P : Packer} m p :
  success (calculate_loop m 0 p) = true ->
  exists j, j <= retries_needed p /\ reachable m p (Attempting j (retry_params p j)) /\
    attempt m j (retry_params p j) = Ok (calculate_loop m 0 p).
Proof.
  destruct (exec_total m 0 p) as (k & r & Hk).
  rewrite (exec_calculate_loop _ _ _ _ _ Hk).
  pose proof (exec_attempts_le _ _ _ _ _ Hk) as Hle.
  apply exec_trace in Hk as (j & -> & Hretry & Hend). intros Hr. exists j.
  split_and!; [unfold attempts_bound in Hle; lia|by apply trace_reachable|].
  by apply step_Terminal in Hend as [?|[(e & _ & _ & _ & ->)|(e & _ & _ & ->)]].
Qed.

(** With one sheet or more, 49 retries reach the limit. *)
Lemma retries_needed_le p :
  panels p <> [] -> (1 <= _get_total_panel_quantity p)%Z -> retries_needed p <= 49.
Proof.
  intros Hne Ht. unfold retries_needed, ceil_div.
  assert (1 <= Z.of_nat (length (panels p)))%Z as Hlen by (destruct (panels p); [done|simpl; lia]).
  enough ((50 - _get_total_panel_quantity p + Z.of_nat (length (panels p)) - 1)
            / Z.of_nat (length (panels p)) < 50)%Z by lia.
  apply Z.div_lt_upper_bound; lia.
Qed.

(** The panel units of a reachable state: as many as the total says,
    which is the total of the request plus one sheet of every type per
    retry, within the bound. *)
Lemma reachable_units `{P : Packer} m p0 n p :
  params_wf p0 -> reachable m p0 (Attempting n p) ->
  params_wf p /\
  Z.of_nat (length (_expand_panels (panels p))) =
    (_get_total_panel_quantity p0 + Z.of_nat n * Z.of_nat (length (panels p0)))%Z /\
  (Z.of_nat (length (_expand_panels (panels p))) <= supply_bound p0)%Z.
Proof.
  intros Hwf0 (Hwf & -> & Hb)%reachable_wf; [|done]. split; [done|].
  rewrite <- retry_params_total, <- total_is_unit_count; [done|by destruct Hwf as (_ & _ & _ & ?)].
Qed.

(** ** The theorems *)

Section service.
Context `{P : Packer}.

(** C13. Every operation the service applies to a request keeps it well
    formed: the increment of the retry loop, any number of them, and the
    assignment of a non-negative quantity to the first panel type, which
    succeeds on a well-formed request. *)
Theorem operations_keep_wf (p : UserParams) :
  params_wf p ->
  params_wf (_increment_panel_quantities p 1) /\
  (forall j, params_wf (retry_params p j)) /\
  (forall q, (0 <= q)%Z -> exists p', set_first_quantity p q = Ok p' /\ params_wf p').
Proof.
  intros Hwf. split_and!;
    [by apply increment_wf|intros; by apply retry_params_wf|intros; by apply set_first_quantity_wf].
Qed.

(** C6. In every state the loop reaches from a well-formed request, what
    the packer is handed is well formed: there is a reference panel, no
    panel unit and no item unit shares its identifier with another, the
    number of panel units is the total of the request plus one sheet of
    every type per retry made so far, and it never exceeds the bound. *)
Theorem packer_input_wf (m : Method) (p0 : UserParams) (n : nat) (p : UserParams) :
  params_wf p0 -> reachable m p0 (Attempting n p) ->
  exists panel0, head (panels p) = Some panel0 /\
    opcut_params_wf (opcut_params_of p panel0) /\
    Z.of_nat (length (prm_panels (opcut_params_of p panel0))) =
      (_get_total_panel_quantity p0 + Z.of_nat n * Z.of_nat (length (panels p0)))%Z /\
    (Z.of_nat (length (prm_panels (opcut_params_of p panel0))) <= supply_bound p0)%Z.
Proof.
  intros Hwf0 Hreach. destruct (reachable_units m p0 n p Hwf0 Hreach) as (Hwf & Hcount & Hb).
  assert (exists panel0, head (panels p) = Some panel0) as [panel0 Hp0]
    by (destruct Hwf as [Hne _]; destruct (panels p); [done|by eexists]).
  exists panel0. split_and!; [done|by apply opcut_params_of_wf|exact Hcount|exact Hb].
Qed.

(** C12. A retry on a well-formed request hands the packer the sheets of
    the failed attempt and, for every panel type of quantity [Q], the one
    new sheet [name_(Q+1)], whose identifier no sheet of the failed attempt
    has. *)
Theorem retry_adds_one_sheet (m : Method) (n : nat) (p : UserParams) (n' : nat)
    (p' : UserParams) :
  params_wf p -> step m n p = Attempting n' p' ->
  _expand_panels (panels p') ≡ₚ _expand_panels (panels p) ++ added_panels p /\
  panel_uid <$> added_panels p =
    (fun panel => pi_name panel +:+ "_" +:+ py_str (pi_quantity panel + 1)) <$> panels p /\
  Forall (fun u => panel_uid u ∉ panel_uid <$> _expand_panels (panels p)) (added_panels p).
Proof.
  intros (_ & Hpn & _ & Hq) (_ & _ & _ & ->)%step_Attempting.
  split_and!; [by apply expand_panels_added| |].
  - unfold added_panels. by rewrite <- list_fmap_compose.
  - apply Forall_forall. intros u. by apply added_panels_fresh.
Qed.

Context {HC : PackerContract P}.

(** The panels of a response assembled from an answer of the packer are
    distinct sheets among those the packer was handed. *)
Lemma attempt_panels_offered m n p r :
  attempt m n p = Ok r ->
  panel_id <$> resp_panels r ⊆+ panel_uid <$> _expand_panels (panels p).
Proof.
  intros (panel0 & result_json & t & Hp0 & Hres & Ht & ->)%attempt_Ok_inv.
  pose proof (contract_ids_known _ _ _ _ Hres) as Hknown. simpl.
  rewrite (resp_panel_ids _ _ _ Ht). apply NoDup_submseteq.
  - rewrite py_sorted_Permutation. apply NoDup_remove_dups.
  - intros pid. rewrite elem_of_py_sorted, elem_of_remove_dups. intros Hpid.
    rewrite Forall_forall in Hknown. apply Hknown in Hpid.
    by rewrite dom_create_panel_mapping, elem_of_list_to_set in Hpid.
Qed.

(** C14. With a packer that names only panels it was given, a successful
    response to a well-formed request never has more panels than the
    bound on the supply: the total of the request when that is 50 or
    more, and otherwise at most 49 sheets and one more of every type. *)
Theorem response_panels_bound (m : Method) (p : UserParams) :
  params_wf p -> success (calculate_loop m 0 p) = true ->
  (Z.of_nat (length (resp_panels (calculate_loop m 0 p))) <= supply_bound p)%Z.
Proof.
  intros Hwf (j & _ & Hreach & Hok)%loop_success_reachable.
  destruct (reachable_units m p j _ Hwf Hreach) as (_ & _ & Hb).
  apply attempt_panels_offered, submseteq_length in Hok.
  rewrite !length_fmap in Hok. lia.
Qed.

(** C7. Soundness of a successful response of the handler.  For a
    well-formed request and a packer that names only panels and items it
    was given, a response of [POST /calculate] with [success = True] was
    assembled after at most 49 retries on the request with the quantity of
    its first panel type replaced by 1; its panels are in strictly
    increasing order of id; each is a sheet of a panel type of that
    request with the type's name and size, and each item placed on it is a
    unit of an item type of the request, displayed with the metadata of
    that type against the first panel type. *)
Theorem handler_response_sound (p : UserParams) (method : string) :
  params_wf p -> success (calculate_optimization p method) = true ->
  exists p1 j panel0,
    set_first_quantity p 1 = Ok p1 /\ j <= 49 /\ head (panels p1) = Some panel0 /\
    StronglySorted str_lt (panel_id <$> resp_panels (calculate_optimization p method)) /\
    Forall (fun po => panel_from_request p1 j po /\
                      Forall (item_from_request p1 panel0) (used_items po))
      (resp_panels (calculate_optimization p method)).
Proof.
  intros Hwf. destruct (set_first_quantity_wf p 1 ltac:(done) Hwf) as (p1 & Hp1 & Hwf1).
  unfold calculate_optimization, calculate. rewrite Hp1. simpl.
  destruct (method_map !! method) as [m|]; [simpl|done].
  intros (j & panel0 & Hj & Hrest)%loop_response_from_request.
  exists p1, j, panel0. split_and!; [done| |apply Hrest..].
  etrans; [exact Hj|]. apply retries_needed_le; [by destruct Hwf1|].
  destruct (set_first_quantity_total p 1) as (p1' & Hp1' & Ht & _); [by destruct Hwf|].
  assert (p1' = p1) as -> by congruence. rewrite Ht. destruct Hwf as (_ & _ & _ & Hq).
  enough (0 <= py_sum (pi_quantity <$> tail (panels p)))%Z by lia.
  apply py_sum_nonneg, Forall_fmap. destruct (panels p); [done|]. by apply Forall_cons in Hq as [_ ?].
Qed.

End service.

(** ** The theorems at the examples *)

Lemma operations_keep_wf_witness :
  params_wf (_increment_panel_quantities ex_request3 1) /\
  (forall j, params_wf (retry_params ex_request3 j)) /\
  (forall q, (0 <= q)%Z ->
     exists p', set_first_quantity ex_request3 q = Ok p' /\ params_wf p').
Proof. apply (operations_keep_wf ex_request3). by_compute. Defined.

Lemma packer_input_wf_witness :
  exists panel0, head (panels (retry_params ex_request3 1)) = Some panel0 /\
    opcut_params_wf (opcut_params_of (retry_params ex_request3 1) panel0) /\
    Z.of_nat (length (prm_panels (opcut_params_of (retry_params ex_request3 1) panel0))) =
      (_get_total_panel_quantity ex_request3 + Z.of_nat 1 *
         Z.of_nat (length (panels ex_request3)))%Z /\
    (Z.of_nat (length (prm_panels (opcut_params_of (retry_params ex_request3 1) panel0)))
       <= supply_bound ex_request3)%Z.
Proof.
  apply (packer_input_wf (P := never_packer) GREEDY ex_request3 1); [by_compute|].
  apply (reachable_step (P := never_packer) GREEDY ex_request3 0 ex_request3), reachable_init.
Defined.

Lemma retry_adds_one_sheet_witness :
  _expand_panels (panels (_increment_panel_quantities ex_request3 1)) ≡ₚ
    _expand_panels (panels ex_request3) ++ added_panels ex_request3 /\
  panel_uid <$> added_panels ex_request3 =
    (fun panel => pi_name panel +:+ "_" +:+ py_str (pi_quantity panel + 1))
      <$> panels ex_request3 /\
  Forall (fun u => panel_uid u ∉ panel_uid <$> _expand_panels (panels ex_request3))
    (added_panels ex_request3).
Proof.
  apply (retry_adds_one_sheet (P := never_packer) GREEDY 0 ex_request3 1); [by_compute|].
  by vm_compute.
Defined.

Lemma response_panels_bound_witness :
  (Z.of_nat (length (resp_panels (calculate_loop (P := needy_packer 2) GREEDY 0 ex_request)))
     <= supply_bound ex_request)%Z.
Proof.
  apply (response_panels_bound (P := needy_packer 2) GREEDY ex_request); [by_compute|].
  by erewrite (calculate_fuel_Some (P := needy_packer 2) GREEDY 0 ex_request 2)
    by (vm_compute; reflexivity).
Defined.

Lemma handler_response_sound_witness :
  exists p1 j panel0,
    set_first_quantity ex_request3 1 = Ok p1 /\ j <= 49 /\ head (panels p1) = Some panel0 /\
    StronglySorted str_lt
      (panel_id <$> resp_panels
         (calculate_optimization (P := needy_packer 5) ex_request3 "greedy")) /\
    Forall (fun po => panel_from_request p1 j po /\
                      Forall (item_from_request p1 panel0) (used_items po))
      (resp_panels (calculate_optimization (P := needy_packer 5) ex_request3 "greedy")).
Proof.
  apply (handler_response_sound (P := needy_packer 5) ex_request3 "greedy"); [by_compute|].
  unfold calculate_optimization, set_first_quantity. simpl. by rewrite_calculate 2.
Defined.
