(* ===== verification/Pydantic.v ===== *)
(** * Pydantic: the models as Python values

    The records of [Model] stand for validated instances of the pydantic
    models.  The program also moves between instances and plain dicts:
    [_increment_panel_quantities] turns the request into a dict with
    [.dict()] and validates a dict again by calling [UserParams] on it
    (line 326); [transform_result] collects dicts of placed items
    ([enriched_item.dict()], line 266) and validates each panel by calling
    [PanelOutput] on its dict (line 284); FastAPI validates the body of a
    request as a [UserParams].  This file models that layer: Python values
    ([pyval]), [.dict()] of every model ([to_dict]), the validation of a
    dict against the field declarations of lines 14-79 with their
    defaults ([validate]), and the declared types ([has_type]).  The
    functions of the program that use it are in [Dicts].

    What pydantic makes of a value that does not have the type of its
    field (a number in a string, an int for a float, a list of pairs for a
    dict) differs between its versions; these conversions, and the text of
    its [ValidationError], are the fields of the class [Pydantic], and
    every theorem holds for every instance.  The theorems: validating the
    dict of an instance gives the instance back, so the records of
    [Model] are a faithful reading of the dicts; a request that leaves
    the optional fields out gets the declared defaults; and a body whose
    values have the declared types is accepted whatever the version. *)

From Stdlib Require Import ZArith String List Lia PrimFloat.
From stdpp Require Import base tactics option list strings gmap.
From S2P Require Import Prelude PyDict Model.

(** ** Python values *)

(** The values [json.loads] produces and [.dict()] returns. *)
#[local] Unset Elimination Schemes.
Inductive pyval : Type :=
| PNone
| PBool (b : bool)
| PInt (z : Z)
| PFloat (f : float)
| PStr (s : string)
| PList (l : list pyval)
| PDict (d : list (string * pyval)).
#[local] Set Elimination Schemes.

(** A Python dict with [str] keys. *)
Abbreviation pydict := (list (string * pyval)).

(** ** The library *)

(** The part of pydantic that depends on its version: the conversion of a
    value that is not of the type of its field ([None] when the value is
    rejected), and the text of the error for a model and its input. *)
Class Pydantic : Type := mkPydantic {
  lax_str : pyval -> option string;
  lax_int : pyval -> option Z;
  lax_float : pyval -> option float;
  lax_bool : pyval -> option bool;
  lax_dict : pyval -> option (list (string * pyval));
  error_text : string -> pyval -> string
}.

(** [mapM] for the exception monad: the first exception ends the
    traversal. *)
Fixpoint res_mapM {A B} (f : A -> res B) (l : list A) : res (list B) :=
  match l with
  | [] => Ok []
  | x :: l' => y <- f x ;; ys <- res_mapM f l' ;; Ok (y :: ys)
  end.

Section validators.
Context `{Pydantic}.

(** A field that is rejected; the exception is rewritten by the model
    that holds the field. *)
Definition invalid {A} : res A := Raise (Exn (OtherError "ValidationError") "").

Definition of_option {A} (o : option A) : res A :=
  match o with Some a => Ok a | None => invalid end.

(** [str], [int], [float] and [bool] fields. *)
Definition validate_str (v : pyval) : res string :=
  match v with PStr s => Ok s | _ => of_option (lax_str v) end.

Definition validate_int (v : pyval) : res Z :=
  match v with PInt z => Ok z | _ => of_option (lax_int v) end.

Definition validate_float (v : pyval) : res float :=
  match v with PFloat f => Ok f | _ => of_option (lax_float v) end.

Definition validate_bool (v : pyval) : res bool :=
  match v with PBool b => Ok b | _ => of_option (lax_bool v) end.

(** [Literal[...]]: one of the listed strings, nothing else. *)
Definition validate_literal {A} (values : list (string * A)) (v : pyval) : res A :=
  match v with
  | PStr s => of_option (od_get s values)
  | _ => invalid
  end.

(** [List[X]] *)
Definition validate_list {A} (validate_X : pyval -> res A) (v : pyval) : res (list A) :=
  match v with
  | PList l => res_mapM validate_X l
  | _ => invalid
  end.

(** [Optional[X]] *)
Definition validate_optional {A} (validate_X : pyval -> res A) (v : pyval) : res (option A) :=
  match v with
  | PNone => Ok None
  | _ => Some <$> validate_X v
  end.

(** A dict, or what the library converts to one. *)
Definition as_dict (v : pyval) : res (list (string * pyval)) :=
  match v with PDict d => Ok d | _ => of_option (lax_dict v) end.

(** [Dict[str, X]] *)
Definition validate_dict {A} (validate_X : pyval -> res A) (v : pyval)
  : res (gmap string A) :=
  d <- as_dict v ;;
  kvs <- res_mapM (fun kv => x <- validate_X kv.2 ;; Ok (kv.1, x)) d ;;
  Ok (list_to_map kvs).

(** A field without default, and a field with one. *)
Definition required {A} (d : list (string * pyval)) (k : string)
    (validate_X : pyval -> res A) : res A :=
  match od_get k d with
  | Some v => validate_X v
  | None => invalid
  end.

Definition optional {A} (d : list (string * pyval)) (k : string)
    (validate_X : pyval -> res A) (default : A) : res A :=
  match od_get k d with
  | Some v => validate_X v
  | None => Ok default
  end.

(** The validation of a model: any failure of a field becomes the
    [ValidationError] of the model for its input. *)
Definition model {A} (name : string) (v : pyval)
    (fields : list (string * pyval) -> res A) : res A :=
  match d <- as_dict v ;; fields d with
  | Ok a => Ok a
  | Raise _ => Raise (Exn (OtherError "ValidationError") (error_text name v))
  end.

End validators.

(** ** [.dict()] *)

Definition dict_Grain (g : Grain) : pyval :=
  PStr match g with horizontal => "horizontal" | vertical => "vertical" end.

Definition dict_EngravedLine (e : EngravedLine) : pyval :=
  PStr match e with
       | line_horizontal => "horizontal"
       | line_vertical => "vertical"
       | line_none => "none"
       end.

(** A dict from [str] to [X]; the record keeps the dict as a finite map,
    so the keys come out in the order of the map, not of insertion. *)
Definition dict_map {A} (dict_X : A -> pyval) (m : gmap string A) : pyval :=
  PDict ((fun kv => (kv.1, dict_X kv.2)) <$> map_to_list m).

Definition dict_optional {A} (dict_X : A -> pyval) (o : option A) : pyval :=
  match o with Some x => dict_X x | None => PNone end.

Definition dict_PanelInput (panel : PanelInput) : pydict :=
  [ ("name", PStr (pi_name panel));
          ("width", PFloat (pi_width panel));
          ("height", PFloat (pi_height panel));
          ("quantity", PInt (pi_quantity panel));
          ("grain", dict_Grain (pi_grain panel)) ].

Definition dict_ItemInput (item : ItemInput) : pydict :=
  [ ("name", PStr (ii_name item));
          ("width", PFloat (ii_width item));
          ("height", PFloat (ii_height item));
          ("isRotate", PBool (ii_isRotate item));
          ("quantity", PInt (ii_quantity item));
          ("grain", dict_Grain (ii_grain item));
          ("engraved_line", dict_EngravedLine (ii_engraved_line item));
          ("borders", dict_map PBool (ii_borders item)) ].

Definition dict_UserParams (user_params : UserParams) : pydict :=
  [ ("cut_width", PFloat (cut_width user_params));
          ("min_initial_usage", PBool (min_initial_usage user_params));
          ("panels", PList (PDict ∘ dict_PanelInput <$> panels user_params));
          ("items", PList (PDict ∘ dict_ItemInput <$> items user_params)) ].

Definition dict_UsedItem (u : UsedItem) : pydict :=
  [ ("item_id", PStr (item_id u));
          ("name", PStr (ui_name u));
          ("width", PFloat (ui_width u));
          ("height", PFloat (ui_height u));
          ("x", PFloat (ui_x u));
          ("y", PFloat (ui_y u));
          ("rotate", PBool (ui_rotate u));
          ("grain", dict_Grain (ui_grain u));
          ("engraved_line", dict_EngravedLine (ui_engraved_line u));
          ("borders", dict_map PBool (ui_borders u)) ].

Definition dict_UnusedArea (a : UnusedArea) : pydict :=
  [ ("width", PFloat (ua_width a));
          ("height", PFloat (ua_height a));
          ("x", PFloat (ua_x a));
          ("y", PFloat (ua_y a)) ].

Definition dict_PanelOutput (panel : PanelOutput) : pydict :=
  [ ("panel_id", PStr (panel_id panel));
          ("panel_name", PStr (panel_name panel));
          ("width", PFloat (po_width panel));
          ("height", PFloat (po_height panel));
          ("used_items", PList (PDict ∘ dict_UsedItem <$> used_items panel));
          ("unused_areas", PList (PDict ∘ dict_UnusedArea <$> unused_areas panel)) ].

Definition dict_CalculationResponse (r : CalculationResponse) : pydict :=
  [ ("success", PBool (success r));
          ("panels", PList (PDict ∘ dict_PanelOutput <$> resp_panels r));
          ("cuts", PList (PStr <$> cuts r));
          ("summary", dict_map PInt (summary r));
          ("error", dict_optional PStr (error r));
          ("calculation_time", dict_optional PFloat (calculation_time r)) ].

(** ** Validation, field by field as the models declare them *)

Section models.
Context `{Pydantic}.

Definition validate_Grain : pyval -> res Grain :=
  validate_literal [("horizontal", horizontal); ("vertical", vertical)].

Definition validate_EngravedLine : pyval -> res EngravedLine :=
  validate_literal
    [("horizontal", line_horizontal); ("vertical", line_vertical); ("none", line_none)].

Definition validate_PanelInput (v : pyval) : res PanelInput :=
  model "PanelInput" v (fun d =>
    name <- required d "name" validate_str ;;
    width <- required d "width" validate_float ;;
    height <- required d "height" validate_float ;;
    quantity <- optional d "quantity" validate_int 1%Z ;;
    grain <- optional d "grain" validate_Grain vertical ;;
    Ok (mkPanelInput name width height quantity grain)).

Definition validate_ItemInput (v : pyval) : res ItemInput :=
  model "ItemInput" v (fun d =>
    name <- required d "name" validate_str ;;
    width <- required d "width" validate_float ;;
    height <- required d "height" validate_float ;;
    isRotate <- required d "isRotate" validate_bool ;;
    quantity <- optional d "quantity" validate_int 1%Z ;;
    grain <- optional d "grain" validate_Grain vertical ;;
    engraved_line <- optional d "engraved_line" validate_EngravedLine line_none ;;
    borders <- optional d "borders" (validate_dict validate_bool) default_borders ;;
    Ok (mkItemInput name width height isRotate quantity grain engraved_line borders)).

Definition validate_UserParams (v : pyval) : res UserParams :=
  model "UserParams" v (fun d =>
    cut_width <- required d "cut_width" validate_float ;;
    min_initial_usage <- optional d "min_initial_usage" validate_bool false ;;
    panels <- required d "panels" (validate_list validate_PanelInput) ;;
    items <- required d "items" (validate_list validate_ItemInput) ;;
    Ok (mkUserParams cut_width min_initial_usage panels items)).

Definition validate_UsedItem (v : pyval) : res UsedItem :=
  model "UsedItem" v (fun d =>
    item_id <- required d "item_id" validate_str ;;
    name <- required d "name" validate_str ;;
    width <- required d "width" validate_float ;;
    height <- required d "height" validate_float ;;
    x <- required d "x" validate_float ;;
    y <- required d "y" validate_float ;;
    rotate <- required d "rotate" validate_bool ;;
    grain <- optional d "grain" validate_Grain vertical ;;
    engraved_line <- optional d "engraved_line" validate_EngravedLine line_none ;;
    borders <- optional d "borders" (validate_dict validate_bool) default_borders ;;
    Ok (mkUsedItem item_id name width height x y rotate grain engraved_line borders)).

Definition validate_UnusedArea (v : pyval) : res UnusedArea :=
  model "UnusedArea" v (fun d =>
    width <- required d "width" validate_float ;;
    height <- required d "height" validate_float ;;
    x <- required d "x" validate_float ;;
    y <- required d "y" validate_float ;;
    Ok (mkUnusedArea width height x y)).

Definition validate_PanelOutput (v : pyval) : res PanelOutput :=
  model "PanelOutput" v (fun d =>
    panel_id <- required d "panel_id" validate_str ;;
    panel_name <- required d "panel_name" validate_str ;;
    width <- required d "width" validate_float ;;
    height <- required d "height" validate_float ;;
    used_items <- required d "used_items" (validate_list validate_UsedItem) ;;
    unused_areas <- required d "unused_areas" (validate_list validate_UnusedArea) ;;
    Ok (mkPanelOutput panel_id panel_name width height used_items unused_areas)).

Definition validate_CalculationResponse (v : pyval) : res CalculationResponse :=
  model "CalculationResponse" v (fun d =>
    success <- required d "success" validate_bool ;;
    panels <- optional d "panels" (validate_list validate_PanelOutput) [] ;;
    cuts <- optional d "cuts" (validate_list validate_str) [] ;;
    summary <- optional d "summary" (validate_dict validate_int) ∅ ;;
    error <- optional d "error" (validate_optional validate_str) None ;;
    calculation_time <- optional d "calculation_time" (validate_optional validate_float) None ;;
    Ok (mkCalculationResponse success panels cuts summary error calculation_time)).

End models.

#[global] Arguments dict_Grain : simpl never.
#[global] Arguments dict_EngravedLine : simpl never.
#[global] Arguments dict_map : simpl never.
#[global] Arguments dict_optional : simpl never.
#[global] Arguments dict_PanelInput : simpl never.
#[global] Arguments dict_ItemInput : simpl never.
#[global] Arguments dict_UsedItem : simpl never.
#[global] Arguments dict_UnusedArea : simpl never.
#[global] Arguments dict_PanelOutput : simpl never.
#[global] Arguments validate_Grain : simpl never.
#[global] Arguments validate_EngravedLine : simpl never.
#[global] Arguments validate_list : simpl never.
#[global] Arguments validate_dict : simpl never.
#[global] Arguments validate_optional : simpl never.
#[global] Arguments validate_PanelInput : simpl never.
#[global] Arguments validate_ItemInput : simpl never.
#[global] Arguments validate_UsedItem : simpl never.
#[global] Arguments validate_UnusedArea : simpl never.
#[global] Arguments validate_PanelOutput : simpl never.

(** ** Validating the dict of an instance *)

Create Rewrite HintDb pydantic.

Section roundtrip.
Context `{Pydantic}.

Lemma res_mapM_fmap {A B C} (f : C -> res B) (h : A -> C) (g : A -> B) (l : list A) :
  (forall x, f (h x) = Ok (g x)) -> res_mapM f (h <$> l) = Ok (g <$> l).
Proof. intros Hx. induction l as [|x l IH]; [done|]. csimpl. by rewrite Hx, IH. Qed.

Lemma validate_list_dict {A} (validate_X : pyval -> res A) (dict_X : A -> pyval) l :
  (forall x, validate_X (dict_X x) = Ok x) ->
  validate_list validate_X (PList (dict_X <$> l)) = Ok l.
Proof. intros Hx. unfold validate_list. by rewrite (res_mapM_fmap _ _ id), list_fmap_id. Qed.

Lemma validate_dict_map {A} (validate_X : pyval -> res A) (dict_X : A -> pyval) m :
  (forall x, validate_X (dict_X x) = Ok x) ->
  validate_dict validate_X (dict_map dict_X m) = Ok m.
Proof.
  intros Hx. unfold validate_dict, dict_map. simpl.
  rewrite (res_mapM_fmap _ _ id); [|by intros [k x]; simpl; rewrite Hx].
  simpl. by rewrite list_fmap_id, list_to_map_to_list.
Qed.

Lemma validate_optional_dict {A} (validate_X : pyval -> res A) (dict_X : A -> pyval) o :
  (forall x, validate_X (dict_X x) = Ok x) -> (forall x, dict_X x <> PNone) ->
  validate_optional validate_X (dict_optional dict_X o) = Ok o.
Proof.
  intros Hx Hn. destruct o as [x|]; [|done]. unfold validate_optional, dict_optional.
  specialize (Hn x). destruct (dict_X x) eqn:E; [done|..]; by rewrite <- E, Hx.
Qed.

Lemma validate_dict_Grain g : validate_Grain (dict_Grain g) = Ok g.
Proof. by destruct g. Qed.

Lemma validate_dict_EngravedLine e : validate_EngravedLine (dict_EngravedLine e) = Ok e.
Proof. by destruct e. Qed.

#[local] Hint Rewrite validate_dict_Grain validate_dict_EngravedLine : pydantic.

(** Validate the fields of the dict of an instance, one after the other. *)
Ltac validate_fields :=
  unfold model, required, optional; simpl; autorewrite with pydantic; simpl;
  repeat (first [rewrite validate_dict_map by (intros; simpl; autorewrite with pydantic; done)
                |rewrite validate_list_dict by (intros; simpl; autorewrite with pydantic; done)
                |rewrite validate_optional_dict by (intros; simpl; autorewrite with pydantic; done)];
          simpl; autorewrite with pydantic; simpl);
  try done.

Lemma validate_dict_PanelInput panel : validate_PanelInput (PDict (dict_PanelInput panel)) = Ok panel.
Proof. destruct panel. unfold validate_PanelInput, dict_PanelInput. validate_fields. Qed.

Lemma validate_dict_ItemInput item : validate_ItemInput (PDict (dict_ItemInput item)) = Ok item.
Proof. destruct item. unfold validate_ItemInput, dict_ItemInput. validate_fields. Qed.

#[local] Hint Rewrite validate_dict_PanelInput validate_dict_ItemInput : pydantic.

Lemma validate_dict_UserParams p : validate_UserParams (PDict (dict_UserParams p)) = Ok p.
Proof. destruct p. unfold validate_UserParams, dict_UserParams. validate_fields. Qed.

Lemma validate_dict_UsedItem u : validate_UsedItem (PDict (dict_UsedItem u)) = Ok u.
Proof. destruct u. unfold validate_UsedItem, dict_UsedItem. validate_fields. Qed.

Lemma validate_dict_UnusedArea a : validate_UnusedArea (PDict (dict_UnusedArea a)) = Ok a.
Proof. destruct a. unfold validate_UnusedArea, dict_UnusedArea. validate_fields. Qed.

#[local] Hint Rewrite validate_dict_UsedItem validate_dict_UnusedArea : pydantic.

Lemma validate_dict_PanelOutput po : validate_PanelOutput (PDict (dict_PanelOutput po)) = Ok po.
Proof. destruct po. unfold validate_PanelOutput, dict_PanelOutput. validate_fields. Qed.

#[local] Hint Rewrite validate_dict_PanelOutput : pydantic.

Lemma validate_dict_CalculationResponse r :
  validate_CalculationResponse (PDict (dict_CalculationResponse r)) = Ok r.
Proof. destruct r. unfold validate_CalculationResponse, dict_CalculationResponse. validate_fields. Qed.

End roundtrip.

(** ** The models as instances of one interface *)

(** A pydantic model: [.dict()], the validation of a value, and the law
    that validating the dict of an instance returns the instance. *)
Class Model `{Pydantic} (A : Type) : Type := mkModel {
  to_dict : A -> pydict;
  validate : pyval -> res A;
  validate_to_dict x : validate (PDict (to_dict x)) = Ok x
}.

Section instances.
Context `{Pydantic}.

#[export] Instance PanelInput_model : Model PanelInput :=
  mkModel _ _ dict_PanelInput validate_PanelInput validate_dict_PanelInput.
#[export] Instance ItemInput_model : Model ItemInput :=
  mkModel _ _ dict_ItemInput validate_ItemInput validate_dict_ItemInput.
#[export] Instance UserParams_model : Model UserParams :=
  mkModel _ _ dict_UserParams validate_UserParams validate_dict_UserParams.
#[export] Instance UsedItem_model : Model UsedItem :=
  mkModel _ _ dict_UsedItem validate_UsedItem validate_dict_UsedItem.
#[export] Instance UnusedArea_model : Model UnusedArea :=
  mkModel _ _ dict_UnusedArea validate_UnusedArea validate_dict_UnusedArea.
#[export] Instance PanelOutput_model : Model PanelOutput :=
  mkModel _ _ dict_PanelOutput validate_PanelOutput validate_dict_PanelOutput.
#[export] Instance CalculationResponse_model : Model CalculationResponse :=
  mkModel _ _ dict_CalculationResponse validate_CalculationResponse
    validate_dict_CalculationResponse.

(** Two instances with the same dict are equal. *)
#[export] Instance to_dict_inj `{!Model A} : Inj (=) (=) (to_dict (A := A)).
Proof.
  intros x y Hxy. assert (Ok x = Ok y) as [= ->]; [|done].
  by rewrite <- !validate_to_dict, Hxy.
Qed.

End instances.

(** ** Declared types *)

(** The types of the field declarations. *)
#[local] Unset Elimination Schemes.
Inductive ptype : Type :=
| TStr
| TInt
| TFloat
| TBool
| TLiteral (values : list string)
| TList (t : ptype)
| TDict (t : ptype)
| TOptional (t : ptype)
| TModel (fields : list (string * (ptype * bool))).
#[local] Set Elimination Schemes.

(** [v] has the type [t], without any conversion: a model is a dict that
    holds a value of the declared type under every key it has among the
    declared ones, and has every key that is declared without default
    (the flag of the field). *)
Fixpoint has_type (t : ptype) (v : pyval) {struct t} : bool :=
  match t with
  | TStr => match v with PStr _ => true | _ => false end
  | TInt => match v with PInt _ => true | _ => false end
  | TFloat => match v with PFloat _ => true | _ => false end
  | TBool => match v with PBool _ => true | _ => false end
  | TLiteral values => match v with PStr s => bool_decide (s ∈ values) | _ => false end
  | TList t' => match v with PList l => forallb (has_type t') l | _ => false end
  | TDict t' =>
      match v with PDict d => forallb (fun kv => has_type t' kv.2) d | _ => false end
  | TOptional t' => match v with PNone => true | _ => has_type t' v end
  | TModel fields =>
      match v with
      | PDict d =>
          forallb (fun '(k, (t', required)) =>
                     match od_get k d with
                     | Some v' => has_type t' v'
                     | None => negb required
                     end) fields
      | _ => false
      end
  end.

Definition Grain_type : ptype := TLiteral ["horizontal"; "vertical"].
Definition EngravedLine_type : ptype := TLiteral ["horizontal"; "vertical"; "none"].

Definition PanelInput_type : ptype :=
  TModel [ ("name", (TStr, true)); ("width", (TFloat, true)); ("height", (TFloat, true));
           ("quantity", (TInt, false)); ("grain", (Grain_type, false)) ].

Definition ItemInput_type : ptype :=
  TModel [ ("name", (TStr, true)); ("width", (TFloat, true)); ("height", (TFloat, true));
           ("isRotate", (TBool, true)); ("quantity", (TInt, false));
           ("grain", (Grain_type, false)); ("engraved_line", (EngravedLine_type, false));
           ("borders", (TDict TBool, false)) ].

Definition UserParams_type : ptype :=
  TModel [ ("cut_width", (TFloat, true)); ("min_initial_usage", (TBool, false));
           ("panels", (TList PanelInput_type, true));
           ("items", (TList ItemInput_type, true)) ].

#[global] Arguments Grain_type : simpl never.
#[global] Arguments EngravedLine_type : simpl never.
#[global] Arguments PanelInput_type : simpl never.
#[global] Arguments ItemInput_type : simpl never.

(** ** Values of the declared type are accepted *)

Section typed.
Context `{Pydantic}.

(** The validator [f] accepts every value of type [t]. *)
Definition accepts {A} (t : ptype) (f : pyval -> res A) : Prop :=
  forall v, has_type t v = true -> exists a, f v = Ok a.

Lemma accepts_str : accepts TStr validate_str.
Proof. intros [] Hv; try done. by eexists. Qed.

Lemma accepts_int : accepts TInt validate_int.
Proof. intros [] Hv; try done. by eexists. Qed.

Lemma accepts_float : accepts TFloat validate_float.
Proof. intros [] Hv; try done. by eexists. Qed.

Lemma accepts_bool : accepts TBool validate_bool.
Proof. intros [] Hv; try done. by eexists. Qed.

Lemma accepts_literal {A} (values : list (string * A)) :
  accepts (TLiteral values.*1) (validate_literal values).
Proof.
  intros [] Hv; try done. simpl in Hv. apply bool_decide_eq_true in Hv.
  unfold validate_literal. induction values as [|[k a] values IH]; [by apply elem_of_nil in Hv|].
  simpl. case_decide; [by eexists|]. apply IH. by apply elem_of_cons in Hv as [->|?].
Qed.

Lemma res_mapM_accepts {A B} (f : A -> res B) (l : list A) :
  Forall (fun x => exists b, f x = Ok b) l -> exists bs, res_mapM f l = Ok bs.
Proof.
  induction 1 as [|x l [b Hb] _ [bs IH]]; [by eexists|]. simpl. rewrite Hb, IH. by eexists.
Qed.

Lemma forallb_Forall {A} (f : A -> bool) (l : list A) :
  forallb f l = true <-> Forall (fun x => f x = true) l.
Proof. rewrite forallb_forall, Forall_forall. by setoid_rewrite list_elem_of_In. Qed.

Lemma accepts_list {A} t (f : pyval -> res A) : accepts t f -> accepts (TList t) (validate_list f).
Proof.
  intros Hf [] Hv; try done. simpl in Hv. unfold validate_list.
  apply res_mapM_accepts. apply forallb_Forall in Hv. eapply Forall_impl; [done|]. apply Hf.
Qed.

Lemma accepts_dict {A} t (f : pyval -> res A) : accepts t f -> accepts (TDict t) (validate_dict f).
Proof.
  intros Hf [] Hv; try done. simpl in Hv. unfold validate_dict. simpl.
  edestruct (res_mapM_accepts (fun kv : string * pyval => x <- f kv.2 ;; Ok (kv.1, x)) d)
    as [kvs ->]; [|by eexists].
  apply forallb_Forall in Hv. eapply Forall_impl; [done|].
  intros [k x] [a Ha]%Hf. simpl in *. rewrite Ha. by eexists.
Qed.

(** The check of one field of a model. *)
Definition field_typed (d : pydict) (k : string) (t : ptype) (required : bool) : Prop :=
  match od_get k d with
  | Some v => has_type t v = true
  | None => required = false
  end.

Lemma required_accepts {A} d k t (f : pyval -> res A) :
  accepts t f -> field_typed d k t true -> exists a, required d k f = Ok a.
Proof. unfold field_typed, required. intros Hf Hk. destruct (od_get k d); [by apply Hf|done]. Qed.

Lemma optional_accepts {A} d k t (f : pyval -> res A) default :
  accepts t f -> field_typed d k t false -> exists a, optional d k f default = Ok a.
Proof.
  unfold field_typed, optional. intros Hf Hk. destruct (od_get k d); [by apply Hf|by eexists].
Qed.

Lemma has_type_model fields v :
  has_type (TModel fields) v = true ->
  exists d, v = PDict d /\
    Forall (fun '(k, (t, required)) => field_typed d k t required) fields.
Proof.
  destruct v as [| | | | | |d]; try done. simpl. intros Hv. exists d. split; [done|].
  apply forallb_Forall in Hv. eapply Forall_impl; [done|].
  intros (k & t & required). unfold field_typed. destruct (od_get k d); [done|].
  by destruct required.
Qed.

Lemma has_type_model_intro fields d :
  Forall (fun '(k, (t, required)) => field_typed d k t required) fields ->
  has_type (TModel fields) (PDict d) = true.
Proof.
  intros Hf. simpl. apply forallb_Forall. eapply Forall_impl; [done|].
  intros (k & t & required). unfold field_typed. destruct (od_get k d); [done|].
  by intros ->.
Qed.

End typed.

(** ** The theorems *)

Create HintDb accepts discriminated.
#[export] Hint Resolve accepts_str accepts_int accepts_float accepts_bool
  accepts_list accepts_dict : accepts.

(** Find the value of the next field of a model among the typed fields. *)
Ltac accept_fields :=
  repeat match goal with
  | H : Forall _ (_ :: _) |- _ => apply Forall_cons in H as [? H]
  end;
  repeat match goal with
  | Hk : field_typed ?d ?k ?t true |- context [required ?d ?k ?f] =>
      let a := fresh "a" in
      destruct (required_accepts d k t f) as [a ->]; [eauto with accepts|exact Hk|]; simpl
  | Hk : field_typed ?d ?k ?t false |- context [optional ?d ?k ?f ?default] =>
      let a := fresh "a" in
      destruct (optional_accepts d k t f default) as [a ->];
        [eauto with accepts|exact Hk|]; simpl
  end;
  by eexists.

(** Read the fields of an accepted dict back from the validation. *)
Ltac invert_fields H :=
  unfold model in H; simpl in H;
  repeat match type of H with
  | match (x <- ?m ;; _) with _ => _ end = Ok _ =>
      let E := fresh "E" in destruct m eqn:E; simpl in H; [|done]
  end;
  simplify_eq.

Section theorems.
Context `{Pydantic}.

Lemma accepts_Grain : accepts Grain_type validate_Grain.
Proof. apply (accepts_literal [("horizontal", horizontal); ("vertical", vertical)]). Qed.

Lemma accepts_EngravedLine : accepts EngravedLine_type validate_EngravedLine.
Proof.
  apply (accepts_literal
           [("horizontal", line_horizontal); ("vertical", line_vertical); ("none", line_none)]).
Qed.

#[local] Hint Resolve accepts_Grain accepts_EngravedLine : accepts.

Lemma accepts_PanelInput : accepts PanelInput_type validate_PanelInput.
Proof.
  unfold PanelInput_type. intros v (d & -> & Hf)%has_type_model.
  unfold validate_PanelInput, model. simpl. accept_fields.
Qed.

Lemma accepts_ItemInput : accepts ItemInput_type validate_ItemInput.
Proof.
  unfold ItemInput_type. intros v (d & -> & Hf)%has_type_model.
  unfold validate_ItemInput, model. simpl. accept_fields.
Qed.

#[local] Hint Resolve accepts_PanelInput accepts_ItemInput : accepts.

Lemma accepts_UserParams : accepts UserParams_type validate_UserParams.
Proof.
  unfold UserParams_type. intros v (d & -> & Hf)%has_type_model.
  unfold validate_UserParams, model. simpl. accept_fields.
Qed.

Lemma has_type_dict_Grain g : has_type Grain_type (dict_Grain g) = true.
Proof. by destruct g. Qed.

Lemma has_type_dict_EngravedLine e : has_type EngravedLine_type (dict_EngravedLine e) = true.
Proof. by destruct e. Qed.

Lemma has_type_list {A} t (dict_X : A -> pyval) (l : list A) :
  (forall x, has_type t (dict_X x) = true) -> forallb (has_type t) (dict_X <$> l) = true.
Proof. intros Hx. apply forallb_Forall, Forall_fmap, Forall_forall. intros x _. apply Hx. Qed.

Lemma has_type_dict_PanelInput (panel : PanelInput) :
  has_type PanelInput_type (PDict (to_dict panel)) = true.
Proof. by destruct panel as [? ? ? ? []]. Qed.

Lemma has_type_dict_ItemInput (item : ItemInput) : has_type ItemInput_type (PDict (to_dict item)) = true.
Proof.
  destruct item as [? ? ? ? ? [] [] borders]; unfold ItemInput_type; simpl;
    rewrite andb_true_r; apply forallb_Forall, Forall_fmap, Forall_forall; by intros [k b] _.
Qed.

(** C23. The defaults of the request models.  A panel type accepted
    without the key [quantity] has quantity 1, and without [grain] it is
    vertical; an item type accepted without [quantity], [grain],
    [engraved_line] or [borders] has quantity 1, vertical grain, no
    engraved line and no border. *)
Theorem request_defaults (d : pydict) :
  (forall panel : PanelInput, validate (PDict d) = Ok panel ->
     (od_get "quantity" d = None -> pi_quantity panel = 1%Z) /\
     (od_get "grain" d = None -> pi_grain panel = vertical)) /\
  (forall item : ItemInput, validate (PDict d) = Ok item ->
     (od_get "quantity" d = None -> ii_quantity item = 1%Z) /\
     (od_get "grain" d = None -> ii_grain item = vertical) /\
     (od_get "engraved_line" d = None -> ii_engraved_line item = line_none) /\
     (od_get "borders" d = None -> ii_borders item = default_borders)).
Proof.
  split; intros x Hx; simpl in Hx.
  - unfold validate_PanelInput in Hx. invert_fields Hx. simpl.
    split; intros Hk; unfold optional in *; rewrite Hk in *; by simplify_eq.
  - unfold validate_ItemInput in Hx. invert_fields Hx. simpl.
    split_and!; intros Hk; unfold optional in *; rewrite Hk in *; by simplify_eq.
Qed.

(** Typing of the request.  The dict of every request has the
    declared type, and a body that has the declared type (every value of
    the type of its field, optional fields present or not) is accepted,
    whatever the library does with values of other types. *)
Lemma typed_request_accepted :
  (forall user_params : UserParams,
     has_type UserParams_type (PDict (to_dict user_params)) = true) /\
  (forall v, has_type UserParams_type v = true ->
     exists user_params : UserParams, validate v = Ok user_params).
Proof.
  split; [|apply accepts_UserParams].
  intros [cw miu ps its]. apply has_type_model_intro.
  repeat constructor; unfold field_typed; cbn -[has_type]; try done.
  - apply (has_type_list PanelInput_type (PDict ∘ dict_PanelInput)), has_type_dict_PanelInput.
  - apply (has_type_list ItemInput_type (PDict ∘ dict_ItemInput)), has_type_dict_ItemInput.
Qed.

End theorems.

(** ** Examples *)

(** The float of a small [int]: exact below [2^53]. *)
Fixpoint float_of_pos (p : positive) : float :=
  match p with
  | xH => 1
  | xO p => 2 * float_of_pos p
  | xI p => 2 * float_of_pos p + 1
  end%float.

Definition float_of_Z (z : Z) : float :=
  match z with
  | Z0 => 0
  | Zpos p => float_of_pos p
  | Zneg p => - float_of_pos p
  end%float.

(** A library that converts an [int] below [2^53] to a [float] and
    rejects every other value that is not of the type of its field. *)
Definition ex_pydantic : Pydantic :=
  {| lax_str _ := None;
     lax_int _ := None;
     lax_float v :=
       match v with
       | PInt z => if decide (Z.abs z < 2 ^ 53)%Z then Some (float_of_Z z) else None
       | _ => None
       end;
     lax_bool _ := None;
     lax_dict _ := None;
     error_text name _ := "validation error for " +:+ name |}.

(** The body of a request that writes the sizes as integers and leaves
    every optional field out. *)
Definition ex_body : pyval :=
  PDict [ ("cut_width", PInt 3);
          ("panels", PList [PDict [("name", PStr "panel"); ("width", PInt 2440);
                                   ("height", PInt 1220)]]);
          ("items", PList [PDict [("name", PStr "item"); ("width", PInt 500);
                                  ("height", PInt 300); ("isRotate", PBool false)]]) ].

Lemma ex_body_validates :
  validate (H := ex_pydantic) ex_body =
  Ok (mkUserParams 3%float false
        [mkPanelInput "panel" 2440%float 1220%float 1 vertical]
        [mkItemInput "item" 500%float 300%float false 1 vertical line_none default_borders]).
Proof. by vm_compute. Qed.

(** A body without panels, and a grain that is not one of the two
    literals, are rejected. *)
Lemma ex_body_rejected :
  validate (A := UserParams) (H := ex_pydantic) (PDict [("cut_width", PFloat 3)]) =
    Raise (Exn (OtherError "ValidationError") "validation error for UserParams") /\
  validate (A := PanelInput) (H := ex_pydantic)
    (PDict [("name", PStr "panel"); ("width", PFloat 2440); ("height", PFloat 1220);
            ("grain", PStr "diagonal")]) =
    Raise (Exn (OtherError "ValidationError") "validation error for PanelInput").
Proof. by vm_compute. Qed.

Lemma request_defaults_witness :
  exists panel : PanelInput,
    validate (H := ex_pydantic)
      (PDict [("name", PStr "panel"); ("width", PInt 2440); ("height", PInt 1220)]) = Ok panel /\
    pi_quantity panel = 1%Z /\ pi_grain panel = vertical.
Proof.
  destruct (request_defaults (H := ex_pydantic)
              [("name", PStr "panel"); ("width", PInt 2440); ("height", PInt 1220)])
    as [Hpanel _].
  exists (mkPanelInput "panel" 2440%float 1220%float 1 vertical).
  destruct (Hpanel (mkPanelInput "panel" 2440%float 1220%float 1 vertical)) as [Hq Hg];
    [by vm_compute|].
  split; [by vm_compute|]. split; [by apply Hq|by apply Hg].
Defined.

Lemma typed_request_accepted_witness :
  exists user_params : UserParams,
    validate (H := ex_pydantic)
      (PDict [ ("cut_width", PFloat 3); ("panels", PList []); ("items", PList []);
               ("comment", PStr "extra keys are ignored") ]) = Ok user_params.
Proof. by apply (typed_request_accepted (H := ex_pydantic)). Defined.
