(* ===== verification/Dicts.v ===== *)
(** * Dicts: the functions of the program that work on dicts

    Two functions of [src/app/main.py] leave the typed models and work on
    plain dicts.  [_increment_panel_quantities] (lines 313-326) takes the
    dict of the request, rebuilds its list of panels from the dicts of the
    panels and validates the result as a [UserParams].
    [transform_result] (lines 247-311) keeps in [panels_dict] a dict per
    panel, appends to the lists it holds under ["used_items"] and
    ["unused_areas"], sorts the dicts by the value under ["panel_id"] and
    validates each as a [PanelOutput] (line 284).

    [Retry] and [Assembler] model the two functions on records.  This file
    writes them on dicts, statement by statement, with every subscript
    that can raise and every validation that can fail, and shows that the
    functions on records compute the same result, exceptions included:
    the simulation goes along the encoding [od_map to_dict] of a dict of
    panels, on the states of the invariant [panels_dict_inv]. *)

From Equations Require Import Equations.
From Stdlib Require Import ZArith String List Lia PrimFloat.
From stdpp Require Import base tactics option list strings gmap.
From S2P Require Import Prelude PyDict Model Geometry Expander Assembler Retry Pydantic.

(** ** Python operations on values *)

(** [type(v).__name__] *)
Definition type_name (v : pyval) : string :=
  match v with
  | PNone => "NoneType"
  | PBool _ => "bool"
  | PInt _ => "int"
  | PFloat _ => "float"
  | PStr _ => "str"
  | PList _ => "list"
  | PDict _ => "dict"
  end.

(** [d[k].append(x)]: the list under [k] grows in place; a missing key
    raises [KeyError], a value without [append] raises [AttributeError]. *)
Definition list_append (k : string) (x : pyval) (d : pydict) : res pydict :=
  v <- od_getitem d k ;;
  match v with
  | PList l => Ok (od_set k (PList (l ++ [x])) d)
  | _ => Raise (Exn (OtherError "AttributeError")
                  ("'" +:+ type_name v +:+ "' object has no attribute 'append'"))
  end.

(** The key of [sorted] at line 285, [lambda x: x["panel_id"]].  The value
    stored there is the [str] that [_build_panel_structure] was given; the
    comparison of keys of other types is not modelled and ends the
    function here. *)
Definition panel_id_key (x : pydict) : res string :=
  v <- od_getitem x "panel_id" ;;
  match v with
  | PStr s => Ok s
  | _ => Raise (Exn (OtherError "TypeError") ("unsupported sort key: " +:+ type_name v))
  end.

Section dicts.
Context `{Pydantic}.

(** ** [_increment_panel_quantities] *)

(** Lines 318-326; the list [new_params_dict['panels']] is built before it
    is stored. *)
Definition _increment_panel_quantities_dict (user_params : UserParams) (increment : Z)
  : res UserParams :=
  let new_params_dict := to_dict user_params in
  let new_params_dict := od_set "panels" (PList []) new_params_dict in
  let new_panels :=
    foldl (fun new_panels panel =>
             let new_panel_dict := to_dict panel in
             let new_panel_dict :=
               od_set "quantity" (PInt (pi_quantity panel + increment)) new_panel_dict in
             new_panels ++ [PDict new_panel_dict])
          [] (panels user_params) in
  let new_params_dict := od_set "panels" (PList new_panels) new_params_dict in
  validate (PDict new_params_dict).

(** ** [transform_result] *)

(** Lines 181-191. *)
Definition _build_panel_structure_dict (panel_id : string)
    (panel_mapping : gmap string PanelDetails) : res pydict :=
  panel_data <- py_getitem panel_mapping panel_id ;;
  Ok [ ("panel_id", PStr panel_id);
       ("panel_name", PStr (pd_name panel_data));
       ("width", PFloat (pd_width panel_data));
       ("height", PFloat (pd_height panel_data));
       ("used_items", PList []);
       ("unused_areas", PList []) ].

(** Lines 262-263 and 273-274. *)
Definition ensure_panel_dict (panel_id : string) (panel_mapping : gmap string PanelDetails)
    (panels_dict : odict pydict) : res (odict pydict) :=
  if od_contains panel_id panels_dict then Ok panels_dict
  else
    structure <- _build_panel_structure_dict panel_id panel_mapping ;;
    Ok (od_set panel_id structure panels_dict).

(** [panels_dict[panel_id][key].append(x)] (lines 266 and 276): the dict
    of the panel is changed in place, so it keeps its position. *)
Definition panels_dict_append (panel_id key : string) (x : pyval)
    (panels_dict : odict pydict) : res (odict pydict) :=
  panel_data <- od_getitem panels_dict panel_id ;;
  panel_data <- list_append key x panel_data ;;
  Ok (od_set panel_id panel_data panels_dict).

(** The body of the loop over [result["used"]] (lines 259-266). *)
Definition process_used_dict (item_mapping : gmap string ItemDetails)
    (panel_mapping : gmap string PanelDetails) (panel0 : PanelInput)
    (panels_dict : odict pydict) (used_item : UsedJson) : res (odict pydict) :=
  let panel_id := uj_panel used_item in
  panels_dict <- ensure_panel_dict panel_id panel_mapping panels_dict ;;
  let enriched_item := _transform_used_item_for_display used_item item_mapping panel0 in
  panels_dict_append panel_id "used_items" (PDict (to_dict enriched_item)) panels_dict.

(** The body of the loop over [result["unused"]] (lines 270-281). *)
Definition process_unused_dict (panel_mapping : gmap string PanelDetails)
    (panels_dict : odict pydict) (unused_area : UnusedJson) : res (odict pydict) :=
  let panel_id := nj_panel unused_area in
  panels_dict <- ensure_panel_dict panel_id panel_mapping panels_dict ;;
  panels_dict_append panel_id "unused_areas"
    (PDict [ ("width", PFloat (nj_width unused_area));
             ("height", PFloat (nj_height unused_area));
             ("x", PFloat (nj_x unused_area));
             ("y", PFloat (nj_y unused_area)) ])
    panels_dict.

(** Line 284: [PanelOutput] called on the dict of a panel. *)
Definition panel_of_panel_data (panel_data : pydict) : res PanelOutput :=
  validate (PDict panel_data).

(** Lines 284-285.  [sorted] computes the key of every element before it
    compares any two, so the first dict without ["panel_id"] raises; the
    sorted dicts are then validated one after the other. *)
Definition panels_list_of (panels_dict : odict pydict) : res (list PanelOutput) :=
  keyed <- res_mapM (fun x => k <- panel_id_key x ;; Ok (k, x)) (od_values panels_dict) ;;
  res_mapM panel_of_panel_data (snd <$> sorted_by String.leb fst keyed).

Definition transform_result_dict (result : ResultJson) (user_params : UserParams)
  : res CalculationResponse :=
  panel0 <- py_head (panels user_params) ;;
  let item_mapping := _create_item_mapping (items user_params) panel0 in
  let panel_mapping := _create_panel_mapping (panels user_params) in
  panels_dict <- res_foldl (process_used_dict item_mapping panel_mapping panel0) []
                   (default [] (rj_used result)) ;;
  panels_dict <- res_foldl (process_unused_dict panel_mapping) panels_dict
                   (default [] (rj_unused result)) ;;
  panels_list <- panels_list_of panels_dict ;;
  Ok {| success := true;
        resp_panels := panels_list;
        cuts := result_cuts result;
        summary := result_summary panels_list result;
        error := None;
        calculation_time := None |}.

(** ** The request *)

Lemma foldl_snoc_fmap {A B} (g : A -> B) (l : list A) (acc : list B) :
  foldl (fun acc x => acc ++ [g x]) acc l = acc ++ (g <$> l).
Proof.
  revert acc. induction l as [|x l IH]; intros acc; simpl; [by rewrite app_nil_r|].
  by rewrite IH, <- app_assoc.
Qed.

(** The dict that line 326 validates is the dict of the incremented
    request. *)
Lemma increment_dict_to_dict user_params increment :
  od_set "panels"
    (PList (foldl (fun new_panels panel =>
                     new_panels ++
                     [PDict (od_set "quantity" (PInt (pi_quantity panel + increment))
                               (to_dict panel))])
                  [] (panels user_params)))
    (od_set "panels" (PList []) (to_dict user_params)) =
  to_dict (_increment_panel_quantities user_params increment).
Proof.
  rewrite (foldl_snoc_fmap (fun panel => PDict (od_set "quantity" _ (to_dict panel)))).
  destruct user_params as [cw miu ps its]. simpl. unfold dict_UserParams. simpl.
  rewrite <- list_fmap_compose.
  reflexivity.
Qed.

(** ** The panels: the encoding and the simulation *)

(** [panels_dict] on dicts, for [panels_dict] on records. *)
Definition encode (panels_dict : odict PanelOutput) : odict pydict :=
  od_map to_dict panels_dict.

Section simulation.
Context (item_mapping : gmap string ItemDetails).
Context (panel_mapping : gmap string PanelDetails) (panel0 : PanelInput).
Implicit Types (panels_dict : odict PanelOutput) (pid : string).

Lemma build_panel_structure_encode pid :
  _build_panel_structure_dict pid panel_mapping =
  to_dict <$> _build_panel_structure pid panel_mapping.
Proof.
  unfold _build_panel_structure_dict, _build_panel_structure.
  by destruct (py_getitem panel_mapping pid).
Qed.

Lemma ensure_panel_encode pid panels_dict :
  ensure_panel_dict pid panel_mapping (encode panels_dict) =
  encode <$> ensure_panel pid panel_mapping panels_dict.
Proof.
  unfold ensure_panel_dict, ensure_panel, encode. rewrite od_contains_map.
  destruct (od_contains pid panels_dict); [done|]. rewrite build_panel_structure_encode.
  destruct (_build_panel_structure pid panel_mapping) as [structure|e]; [|done].
  simpl. by rewrite <- od_set_map.
Qed.

(** Appending to a list of the dict of a panel that is present is the
    in-place change of the record. *)
Lemma panels_dict_append_encode (f : PanelOutput -> PanelOutput) key x pid panels_dict :
  (forall panel, list_append key x (to_dict panel) = Ok (to_dict (f panel))) ->
  od_wf panels_dict -> pid ∈ od_keys panels_dict ->
  panels_dict_append pid key x (encode panels_dict) = Ok (encode (od_alter f pid panels_dict)).
Proof.
  intros Hf Hwf [panel Hpanel]%od_get_is_Some. unfold panels_dict_append, encode.
  rewrite od_getitem_map. unfold od_getitem. rewrite Hpanel. simpl. rewrite Hf. simpl.
  by rewrite od_set_map, (od_alter_set f pid panel).
Qed.

Lemma list_append_used (e : UsedItem) (panel : PanelOutput) :
  list_append "used_items" (PDict (to_dict e)) (to_dict panel) =
  Ok (to_dict (append_used e panel)).
Proof.
  unfold list_append, append_used. simpl. unfold dict_PanelOutput. simpl.
  by rewrite fmap_app.
Qed.

Lemma list_append_unused (unused_area : UnusedJson) (panel : PanelOutput) :
  list_append "unused_areas"
    (PDict [ ("width", PFloat (nj_width unused_area));
             ("height", PFloat (nj_height unused_area));
             ("x", PFloat (nj_x unused_area));
             ("y", PFloat (nj_y unused_area)) ])
    (to_dict panel) =
  Ok (to_dict (append_unused (unused_area_of unused_area) panel)).
Proof.
  unfold list_append, append_unused. simpl. unfold dict_PanelOutput. simpl.
  by rewrite fmap_app.
Qed.

(** One round of either loop, from a state of the invariant. *)
Lemma ensure_then_append (f : PanelOutput -> PanelOutput) key x pid panels_dict :
  (forall panel, list_append key x (to_dict panel) = Ok (to_dict (f panel))) ->
  panels_dict_inv panel_mapping panels_dict ->
  (panels_dict <- ensure_panel_dict pid panel_mapping (encode panels_dict) ;;
   panels_dict_append pid key x panels_dict) =
  encode <$> (panels_dict <- ensure_panel pid panel_mapping panels_dict ;;
              Ok (od_alter f pid panels_dict)).
Proof.
  intros Hf Hinv. rewrite ensure_panel_encode.
  destruct (ensure_panel pid panel_mapping panels_dict) as [panels_dict'|e] eqn:He; [|done].
  apply ensure_panel_inv in He as [[Hwf _] Hpid]; [|done]. simpl.
  by rewrite (panels_dict_append_encode f).
Qed.

Lemma process_used_encode panels_dict used_item :
  panels_dict_inv panel_mapping panels_dict ->
  process_used_dict item_mapping panel_mapping panel0 (encode panels_dict) used_item =
  encode <$> process_used item_mapping panel_mapping panel0 panels_dict used_item.
Proof. intros Hinv. apply ensure_then_append; [apply list_append_used|done]. Qed.

Lemma process_unused_encode panels_dict unused_area :
  panels_dict_inv panel_mapping panels_dict ->
  process_unused_dict panel_mapping (encode panels_dict) unused_area =
  encode <$> process_unused panel_mapping panels_dict unused_area.
Proof.
  intros Hinv.
  apply (ensure_then_append (append_unused (unused_area_of unused_area)));
    [apply list_append_unused|done].
Qed.

(** The two loops. *)
Lemma used_loop_encode panels_dict used :
  panels_dict_inv panel_mapping panels_dict ->
  res_foldl (process_used_dict item_mapping panel_mapping panel0) (encode panels_dict) used =
  encode <$> res_foldl (process_used item_mapping panel_mapping panel0) panels_dict used.
Proof.
  apply (res_foldl_sim _ _ encode (panels_dict_inv panel_mapping)).
  - intros ? ? ? ?. by apply process_used_inv.
  - intros ? ?. apply process_used_encode.
Qed.

Lemma unused_loop_encode panels_dict unused :
  panels_dict_inv panel_mapping panels_dict ->
  res_foldl (process_unused_dict panel_mapping) (encode panels_dict) unused =
  encode <$> res_foldl (process_unused panel_mapping) panels_dict unused.
Proof.
  apply (res_foldl_sim _ _ encode (panels_dict_inv panel_mapping)).
  - intros ? ? ? ?. by apply process_unused_inv.
  - intros ? ?. apply process_unused_encode.
Qed.

End simulation.

(** Sorting the dicts and validating them gives the sorted records. *)
Lemma panels_list_of_encode (panels_dict : odict PanelOutput) :
  panels_list_of (encode panels_dict) = Ok (py_sorted panel_id (od_values panels_dict)).
Proof.
  unfold panels_list_of, encode. rewrite od_values_map.
  rewrite (res_mapM_fmap _ _ (fun panel => (panel_id panel, to_dict panel))) by done.
  simpl. rewrite sorted_by_fmap, <- list_fmap_compose.
  rewrite (res_mapM_fmap _ _ id); [by rewrite list_fmap_id|].
  intros panel. exact (validate_to_dict panel).
Qed.

(** ** The theorems *)

(** C16. [_increment_panel_quantities] as the program writes it, on
    dicts, returns what the function on records returns: the request
    with [increment] added to the quantity of every panel type.  The
    validation of line 326 never raises. *)
Theorem increment_dict_refines (user_params : UserParams) (increment : Z) :
  _increment_panel_quantities_dict user_params increment =
  Ok (_increment_panel_quantities user_params increment).
Proof.
  unfold _increment_panel_quantities_dict. rewrite increment_dict_to_dict.
  apply validate_to_dict.
Qed.

(** C15. [transform_result] as the program writes it, with [panels_dict]
    a dict of dicts, the lists under ["used_items"] and ["unused_areas"]
    extended in place, the dicts sorted by the value under ["panel_id"]
    and each validated as a [PanelOutput], returns what the function on
    records returns, and raises what it raises: no subscript of a panel
    dict fails and no validation of line 284 is refused, whatever the
    packer answered. *)
Theorem transform_result_dict_refines (result : ResultJson) (user_params : UserParams) :
  transform_result_dict result user_params = transform_result result user_params.
Proof.
  unfold transform_result_dict, transform_result.
  destruct (py_head (panels user_params)) as [panel0|e]; [|done]. simpl.
  set (panel_mapping := _create_panel_mapping (panels user_params)).
  rewrite (used_loop_encode _ _ _ []) by apply panels_dict_inv_nil.
  destruct (res_foldl (process_used _ _ _) _ _) as [panels_dict1|e] eqn:H1; [|done]. simpl.
  apply res_foldl_invariant with (I := panels_dict_inv panel_mapping) in H1;
    [|intros ? ? ? _; apply process_used_inv|apply panels_dict_inv_nil].
  rewrite unused_loop_encode by done.
  destruct (res_foldl (process_unused _) _ _) as [panels_dict2|e]; [|done]. simpl.
  by rewrite panels_list_of_encode.
Qed.

End dicts.

(** ** Examples *)

Lemma increment_dict_refines_witness :
  _increment_panel_quantities_dict (H := ex_pydantic) ex_request3 1 =
  Ok (_increment_panel_quantities ex_request3 1).
Proof. apply (increment_dict_refines (H := ex_pydantic)). Defined.

(** A dict of a panel whose list of placements was replaced by a number:
    appending to it raises the [AttributeError] of Python. *)
Lemma list_append_not_a_list :
  list_append "used_items" PNone [("panel_id", PStr "p_1"); ("used_items", PInt 0)] =
  Raise (Exn (OtherError "AttributeError") "'int' object has no attribute 'append'").
Proof. done. Qed.

(** The function on dicts runs: the panels of the example of [Assembler],
    and the [KeyError] for a sheet that was never offered. *)
Lemma ex_transform_result_dict :
  (fun r => (panel_id <$> resp_panels r,
             (length ∘ used_items) <$> resp_panels r,
             (length ∘ unused_areas) <$> resp_panels r))
    <$> transform_result_dict (H := ex_pydantic) ex_result ex_params
  = Ok (["A_1"; "A_2"], [1; 2], [1; 1]) /\
  transform_result_dict (H := ex_pydantic) ex_result_bad ex_params =
  Raise (Exn KeyError "'A_3'").
Proof. split; by vm_compute. Qed.

(** A dict of a panel without ["panel_id"] ends [sorted] with the
    [KeyError] of the key function. *)
Lemma panels_list_of_no_id :
  panels_list_of (H := ex_pydantic) [("A_1", [("panel_name", PStr "A")])] =
  Raise (Exn KeyError "'panel_id'").
Proof. done. Qed.
