(* ===== verification/Tools.v ===== *)
(** * Tools: the stand-alone endpoint of [src/app.py]

    [src/app.py] is a second, smaller service: [calculate_job] (lines 27-54)
    takes panels and items as dicts from identifier to dimensions, hands
    them to the packer as they are (no quantities, no grain) and returns the
    packer's result, or a dict with the key ["error"] when anything raises. *)

From Stdlib Require Import ZArith String List Lia PrimFloat.
From stdpp Require Import base tactics option list strings gmap.
From S2P Require Import Prelude PyDict Model.

(** [PanelModel], [ItemModel] and [ParamsModel] (lines 10-24). *)
Record PanelModel : Type := mkPanelModel {
  pm_width : float;
  pm_height : float
}.

Record ItemModel : Type := mkItemModel {
  im_width : float;
  im_height : float;
  im_can_rotate : bool
}.

Record ParamsModel : Type := mkParamsModel {
  pm_cut_width : float;
  pm_min_initial_usage : bool;
  pm_panels : odict PanelModel;
  pm_items : odict ItemModel
}.

(** What [calculate_job] returns: the packer's result, or [{"error": msg}]. *)
Inductive JobResponse : Type :=
| JobResult (result : ResultJson)
| JobError (msg : string).

(** Lines 30-38: the parameters handed to the packer. *)
Definition job_params (params : ParamsModel) : Params :=
  let panels_list :=
    (fun '(k, v) => mkPanel k (pm_width v) (pm_height v)) <$> pm_panels params in
  let items_list :=
    (fun '(k, v) => mkItem k (im_width v) (im_height v) (im_can_rotate v))
      <$> pm_items params in
  {| prm_cut_width := pm_cut_width params;
     prm_min_initial_usage := pm_min_initial_usage params;
     prm_panels := panels_list;
     prm_items := items_list |}.

Section job.
Context `{P : Packer}.

Definition calculate_job (params : ParamsModel) (method : string) : JobResponse :=
  let opcut_params := job_params params in
  match (opcut_method <- py_getitem method_map method ;;
         opcut_calculate opcut_method opcut_params) with
  | Ok result => JobResult result
  | Raise e => JobError (exn_msg e)
  end.

End job.

(** ** The endpoint *)

Lemma job_params_ids params :
  panel_uid <$> prm_panels (job_params params) = od_keys (pm_panels params) /\
  item_uid <$> prm_items (job_params params) = od_keys (pm_items params).
Proof.
  unfold od_keys. simpl. rewrite <- !list_fmap_compose.
  split; apply list_fmap_ext; by intros _ [] _.
Qed.

Section job_facts.
Context `{P : Packer}.

(** [calculate_job] as a case distinction on the method and on the answer
    of the packer. *)
Lemma calculate_job_unfold (params : ParamsModel) (method : string) :
  calculate_job params method =
  match method_map !! method with
  | None => JobError (py_repr method)
  | Some opcut_method =>
      match opcut_calculate opcut_method (job_params params) with
      | Ok result => JobResult result
      | Raise e => JobError (exn_msg e)
      end
  end.
Proof.
  unfold calculate_job, py_getitem. by destruct (method_map !! method).
Qed.

(** C32. What [calculate_job] returns.  A result is the answer of the packer
    to the panels and items of the request for a known method and, for a
    packer that honours its contract, it places only items that are keys
    of the item dict on panels that are keys of the panel dict.  An error
    is the quoted method name when the method is unknown (the text of the
    [KeyError]), and otherwise the text of the exception of the packer. *)
Theorem calculate_job_cases {HC : PackerContract P} (params : ParamsModel) (method : string) :
  match calculate_job params method with
  | JobResult result =>
      exists opcut_method, method_map !! method = Some opcut_method /\
        opcut_calculate opcut_method (job_params params) = Ok result /\
        Forall (fun u => uj_panel u ∈ od_keys (pm_panels params) /\
                         uj_item u ∈ od_keys (pm_items params))
          (default [] (rj_used result))
  | JobError msg =>
      (method_map !! method = None /\ msg = py_repr method) \/
      (exists opcut_method e, method_map !! method = Some opcut_method /\
         opcut_calculate opcut_method (job_params params) = Raise e /\ msg = exn_msg e)
  end.
Proof.
  rewrite calculate_job_unfold. destruct (method_map !! method) as [m|]; [|by left].
  destruct (opcut_calculate m (job_params params)) as [result|e] eqn:Hr; [|by right; eauto].
  exists m. split_and!; [done..|]. apply packer_within in Hr as [Hu _].
  destruct (job_params_ids params) as [<- <-]. by apply Forall_forall.
Qed.

(** The identifiers handed to the packer by [calculate_job] are the
    keys of the two dicts of the request, so they are pairwise distinct:
    unlike the main service, this endpoint cannot produce colliding
    identifiers. *)
Lemma job_params_NoDup (params : ParamsModel) :
  od_wf (pm_panels params) -> od_wf (pm_items params) ->
  NoDup (panel_uid <$> prm_panels (job_params params)) /\
  NoDup (item_uid <$> prm_items (job_params params)).
Proof. destruct (job_params_ids params) as [-> ->]. by split. Qed.

End job_facts.

(** ** Examples *)

Definition ex_job_params : ParamsModel :=
  mkParamsModel 3%float false
    [("p1", mkPanelModel 2440%float 1220%float); ("p2", mkPanelModel 1000%float 500%float)]
    [("a", mkItemModel 500%float 300%float true)].

(** A packer that puts every item at the origin of the first panel. *)
Definition first_panel_packer : Packer :=
  {| opcut_calculate _ prm :=
       match prm_panels prm with
       | [] => Raise (Exn UnresolvableError "no solution")
       | panel :: _ =>
           Ok {| rj_used :=
                   Some ((fun it => mkUsedJson (panel_uid panel) (item_uid it)
                                      0%float 0%float false None None) <$> prm_items prm);
                 rj_unused := Some [];
                 rj_cuts := None |}
       end;
     elapsed _ := 0%float |}.

#[export] Instance first_panel_packer_contract : PackerContract first_panel_packer.
Proof.
  intros m prm r. simpl. destruct (prm_panels prm) as [|panel l] eqn:Hp; [done|].
  intros [= <-]. split; simpl; [|by intros ? ?%elem_of_nil].
  intros u (it & -> & Hit)%list_elem_of_fmap. simpl.
  split; [rewrite Hp; left|by apply list_elem_of_fmap_2].
Qed.

Lemma job_params_NoDup_witness :
  NoDup (panel_uid <$> prm_panels (job_params ex_job_params)) /\
  NoDup (item_uid <$> prm_items (job_params ex_job_params)).
Proof. apply (job_params_NoDup ex_job_params); by_compute. Defined.

Lemma calculate_job_cases_witness :
  exists result,
    calculate_job (P := first_panel_packer) ex_job_params "greedy" = JobResult result /\
    Forall (fun u => uj_panel u ∈ od_keys (pm_panels ex_job_params) /\
                     uj_item u ∈ od_keys (pm_items ex_job_params))
      (default [] (rj_used result)).
Proof.
  destruct (calculate_job (P := first_panel_packer) ex_job_params "greedy")
    as [result|msg] eqn:E; [|by vm_compute in E].
  exists result. split; [done|].
  pose proof (calculate_job_cases (P := first_panel_packer) ex_job_params "greedy") as H.
  rewrite E in H. by destruct H as (m & _ & _ & H).
Defined.
