(* ===== verification/Endpoints.v ===== *)
(** * Endpoints: from the body of a request to the body of the response

    The two services declare their handlers to FastAPI with the types of
    their parameters: [calculate_optimization(user_params: UserParams,
    method: str)] with [response_model=CalculationResponse]
    ([src/app/main.py], lines 438-439) and [calculate_job(params:
    ParamsModel, method: str = Query(...))] ([src/app.py], lines 28-29).
    FastAPI validates the body against the model and requires the query
    parameter before it calls the handler, answers 422 when either fails,
    and otherwise serialises what the handler returns.

    This file composes the validation of [Pydantic], the handlers of [Api]
    and [Tools] and the serialisation into the function from the decoded
    body to the answer, and shows what every answer is.  The content of a
    422, a list of errors in a format of the library, is not modelled. *)

From Stdlib Require Import ZArith String List Lia PrimFloat.
From stdpp Require Import base tactics option list strings gmap.
From S2P Require Import Prelude PyDict Model Geometry Expander Assembler Retry Api.
From S2P Require Import Pydantic Tools.

(** What the service answers: 200 with a content, or 422. *)
Inductive Outcome (A : Type) : Type :=
| Ok200 (content : A)
| Unprocessable422.
#[global] Arguments Ok200 {A} content.
#[global] Arguments Unprocessable422 {A}.

(** ** The models of [src/app.py] *)

Section models.
Context `{Pydantic}.

(** [Dict[str, X]] with the order of the keys, which [calculate_job]
    hands on to the packer. *)
Definition validate_odict {A} (validate_X : pyval -> res A) (v : pyval) : res (odict A) :=
  d <- as_dict v ;;
  res_mapM (fun kv => x <- validate_X kv.2 ;; Ok (kv.1, x)) d.

(** Lines 10-25. *)
Definition validate_PanelModel (v : pyval) : res PanelModel :=
  model "PanelModel" v (fun d =>
    width <- required d "width" validate_float ;;
    height <- required d "height" validate_float ;;
    Ok (mkPanelModel width height)).

Definition validate_ItemModel (v : pyval) : res ItemModel :=
  model "ItemModel" v (fun d =>
    width <- required d "width" validate_float ;;
    height <- required d "height" validate_float ;;
    can_rotate <- required d "can_rotate" validate_bool ;;
    Ok (mkItemModel width height can_rotate)).

Definition validate_ParamsModel (v : pyval) : res ParamsModel :=
  model "ParamsModel" v (fun d =>
    cut_width <- required d "cut_width" validate_float ;;
    min_initial_usage <- optional d "min_initial_usage" validate_bool false ;;
    panels <- required d "panels" (validate_odict validate_PanelModel) ;;
    items <- required d "items" (validate_odict validate_ItemModel) ;;
    Ok (mkParamsModel cut_width min_initial_usage panels items)).

End models.

(** ** The endpoints *)

Section endpoints.
Context `{Pydantic} `{P : Packer}.

(** [POST /calculate] of [src/app/main.py]. *)
Definition post_calculate (method : option string) (body : pyval) : Outcome pyval :=
  match method, validate body with
  | Some method, Ok user_params =>
      Ok200 (PDict (to_dict (calculate_optimization user_params method)))
  | _, _ => Unprocessable422
  end.

(** [GET /health] *)
Definition get_health : Outcome pyval := Ok200 (PDict (od_map PStr health_check)).

(** [POST /calculate] of [src/app.py]; the dict the handler returns is
    sent as it is. *)
Definition post_calculate_job (method : option string) (body : pyval) : Outcome JobResponse :=
  match method, validate_ParamsModel body with
  | Some method, Ok params => Ok200 (calculate_job params method)
  | _, _ => Unprocessable422
  end.

(** ** What the service answers *)

(** C28. The answer of [POST /calculate] to every request.  It is 422
    exactly when the query parameter [method] is missing or the body is
    refused as a [UserParams].  Otherwise it is 200, and its content is
    the dict of the response of the handler to the validated request: a
    dict that reads back as that response, which is well formed (a
    success has a calculation time and no error; a failure has an error
    and no panels).  No request is answered by an exception. *)
Theorem post_calculate_cases (method : option string) (body : pyval) :
  match post_calculate method body with
  | Unprocessable422 =>
      method = None \/ exists e, validate (A := UserParams) body = Raise e
  | Ok200 content =>
      exists m user_params response,
        method = Some m /\ validate body = Ok user_params /\
        response = calculate_optimization user_params m /\
        content = PDict (to_dict response) /\
        validate content = Ok response /\ api_response_wf response
  end.
Proof.
  unfold post_calculate. destruct method as [m|]; [|by left].
  destruct (validate body) as [user_params|e] eqn:Hbody; [|right; by eexists].
  exists m, user_params, (calculate_optimization user_params m).
  split_and!; try done; [apply validate_to_dict|apply calculate_optimization_wf].
Qed.

(** A body of the declared type with a method is answered with 200
    by every version of the library. *)
Lemma typed_request_answered (m : string) (body : pyval) :
  has_type UserParams_type body = true ->
  exists user_params,
    validate body = Ok user_params /\
    post_calculate (Some m) body =
    Ok200 (PDict (to_dict (calculate_optimization user_params m))).
Proof.
  intros [user_params Hbody]%accepts_UserParams. exists user_params. split; [done|].
  unfold post_calculate. simpl in *. by rewrite Hbody.
Qed.

(** The answer of [POST /calculate] of [src/app.py]. *)
Lemma post_calculate_job_cases (method : option string) (body : pyval) :
  match post_calculate_job method body with
  | Unprocessable422 => method = None \/ exists e, validate_ParamsModel body = Raise e
  | Ok200 content =>
      exists m params, method = Some m /\ validate_ParamsModel body = Ok params /\
        content = calculate_job params m
  end.
Proof.
  unfold post_calculate_job. destruct method as [m|]; [|by left].
  destruct (validate_ParamsModel body) as [params|e]; [by eauto|right; by eexists].
Qed.

End endpoints.

(** ** Examples *)

(** The request of [Pydantic.ex_body], whose packer never finds a plan,
    is answered with 200 and a failure that names 50 panels. *)
Lemma ex_post_calculate :
  exists content,
    post_calculate (H := ex_pydantic) (P := never_packer) (Some "greedy") ex_body = Ok200 content /\
    (r <- validate (H := ex_pydantic) (A := CalculationResponse) content ;; Ok (success r, error r)) =
    Ok (false, Some ("UnresolvableError: No valid cutting solution found even with 50 panels. " +:+
                     "Try adjusting item dimensions or using different optimization method.")).
Proof. eexists. split; [reflexivity|]. by vm_compute. Qed.

(** Without the query parameter, and with a body without items, the
    handler is not called. *)
Lemma ex_post_calculate_422 :
  post_calculate (H := ex_pydantic) (P := never_packer) None ex_body = Unprocessable422 /\
  post_calculate (H := ex_pydantic) (P := never_packer) (Some "greedy")
    (PDict [("cut_width", PFloat 3); ("panels", PList [])]) = Unprocessable422.
Proof. split; by vm_compute. Qed.

(** A body for [src/app.py]: the panels reach the packer in the order of
    the body. *)
Lemma ex_post_calculate_job :
  (fun r => match r with
            | Ok200 (JobResult result) => uj_panel <$> default [] (rj_used result)
            | _ => []
            end)
    (post_calculate_job (H := ex_pydantic) (P := first_panel_packer) (Some "greedy")
       (PDict [ ("cut_width", PFloat 3);
                ("panels", PDict [("p2", PDict [("width", PFloat 1000); ("height", PFloat 500)]);
                                  ("p1", PDict [("width", PFloat 2440); ("height", PFloat 1220)])]);
                ("items", PDict [("a", PDict [("width", PFloat 500); ("height", PFloat 300);
                                              ("can_rotate", PBool true)])]) ]))
  = ["p2"].
Proof. by vm_compute. Qed.
