(* ===== verification/Scripts.v ===== *)
(** * Scripts: the two command-line scripts

    [src/main.py] loads a stored result of the packer and prints how often
    every item identifier occurs among its placements, with
    [collections.Counter].  [src/main2.py] builds a one-dimensional
    cutting problem from constants, hands it to a solver and prints the
    solution.

    A script is modelled as a function from what its environment gives it
    (the outcome of loading [result.json]; the solver) to the lines it
    prints, or the exception that ends it: both scripts print only after
    the last operation that can raise.  [print] of a counter shows the
    items in the order of [most_common], which is a stable sort by
    decreasing count. *)

From Stdlib Require Import ZArith String Ascii List Lia PrimFloat Morphisms.
From stdpp Require Import base tactics option list strings gmap sorting.
From S2P Require Import Prelude PyDict Model.

(** ** [src/main.py] *)

(** One step of [Counter(iterable)]: [self[elem] = self.get(elem, 0) + 1]. *)
Definition counter_add (counts : odict Z) (elem : string) : odict Z :=
  od_set elem (default 0 (od_get elem counts) + 1)%Z counts.

(** [Counter(iterable)] *)
Definition Counter (iterable : list string) : odict Z := foldl counter_add [] iterable.

(** Line 7: [Counter(u['item'] for u in data['used'])]. *)
Definition item_counts (used : list UsedJson) : odict Z := Counter (uj_item <$> used).

(** [Counter.most_common()]: [sorted(self.items(), key=itemgetter(1),
    reverse=True)]. *)
Definition most_common (counts : odict Z) : list (string * Z) :=
  sorted_by Z.geb snd counts.

(** [repr] of a dict from [str] to [int]. *)
Definition dict_repr (d : odict Z) : string :=
  "{" +:+ String.concat ", " ((fun '(k, v) => py_repr k +:+ ": " +:+ py_str v) <$> d) +:+ "}".

(** [Counter.__repr__]: ["Counter()"] for an empty counter, and otherwise
    the dict of [most_common]. *)
Definition Counter_repr (counts : odict Z) : string :=
  match counts with
  | [] => "Counter()"
  | _ => "Counter(" +:+ dict_repr (od_of_list (most_common counts)) +:+ ")"
  end.

(** The script: [load] is the outcome of lines 4-5 ([open] and
    [json.load]); the result is the line that [print(counts)] writes. *)
Definition main_script (load : res ResultJson) : res (list string) :=
  data <- load ;;
  used <- match rj_used data with
          | Some used => Ok used
          | None => Raise (Exn KeyError (py_repr "used"))
          end ;;
  let counts := item_counts used in
  Ok [Counter_repr counts].

(** ** [src/main2.py] *)

(** The values of the solver library, as the script builds and reads
    them. *)
Record StockItem : Type := mkStockItem { stock_length : Z; stock_quantity : Z }.
Record OrderItem : Type := mkOrderItem { order_length : Z; order_quantity : Z }.
Record Problem : Type := mkProblem { stocks : list StockItem; orders : list OrderItem }.
Record Cut : Type := mkCut { cut_length : Z }.
Record Pattern : Type := mkPattern { waste : Z; pattern_cuts : list Cut }.
Record Solution : Type := mkSolution { total_waste : Z; patterns : list Pattern }.

(** [Solver(problem).solve()] *)
Class Solver : Type := solve : Problem -> res Solution.

(** Lines 7-19. *)
Definition main2_stocks : list StockItem := [mkStockItem 2440 10].
Definition main2_orders : list OrderItem :=
  [mkOrderItem 500 8; mkOrderItem 700 6; mkOrderItem 300 10].
Definition main2_problem : Problem := mkProblem main2_stocks main2_orders.

(** [repr] of a list of [int]. *)
Definition list_repr (l : list Z) : string :=
  "[" +:+ String.concat ", " (py_str <$> l) +:+ "]".

(** The body of the loop of lines 27-30: three calls of [print], the first
    of which starts with a newline. *)
Definition print_pattern (pattern : Pattern) : list string :=
  [ ""; "Pattern:";
    "  Waste: " +:+ py_str (waste pattern);
    "  Cuts: " +:+ list_repr (cut_length <$> pattern_cuts pattern) ].

(** The script: the lines it prints. *)
Definition main2_script `{Solver} : res (list string) :=
  solution <- solve main2_problem ;;
  Ok (("Total waste: " +:+ py_str (total_waste solution))
        :: (patterns solution ≫= print_pattern)).

(** ** The counter *)

Lemma Counter_snoc l k : Counter (l ++ [k]) = counter_add (Counter l) k.
Proof. unfold Counter. by rewrite foldl_app. Qed.

Lemma od_keys_counter_add counts k :
  od_keys (counter_add counts k) =
  if bool_decide (k ∈ od_keys counts) then od_keys counts else od_keys counts ++ [k].
Proof.
  unfold counter_add. case_bool_decide.
  - by apply od_keys_set_in.
  - by apply od_keys_set_notin.
Qed.

Lemma od_keys_Counter l : od_keys (Counter l) = first_occurrences l.
Proof.
  induction l as [|k l IH] using rev_ind; [done|].
  by rewrite Counter_snoc, od_keys_counter_add, first_occurrences_snoc_raw, IH.
Qed.

(** The number of occurrences of [k] in [l]. *)
Definition occurrences (k : string) (l : list string) : Z :=
  Z.of_nat (length (filter (fun k' => k' = k) l)).

Lemma occurrences_snoc k l k' :
  occurrences k (l ++ [k']) = (occurrences k l + if decide (k' = k) then 1 else 0)%Z.
Proof.
  unfold occurrences. rewrite filter_app, length_app, filter_cons, filter_nil.
  case_decide; simpl; lia.
Qed.

Lemma occurrences_pos k l : k ∈ l <-> (0 < occurrences k l)%Z.
Proof.
  unfold occurrences. split.
  - intros Hk. assert (k ∈ filter (fun k' => k' = k) l) as Hf by by apply list_elem_of_filter.
    destruct (filter _ l); [by apply elem_of_nil in Hf|simpl; lia].
  - intros Hpos. destruct (filter (fun k' => k' = k) l) as [|k' f] eqn:Hf; [simpl in Hpos; lia|].
    assert (k' ∈ filter (fun k' => k' = k) l) as [-> ?]%list_elem_of_filter
      by (rewrite Hf; left). done.
Qed.

Lemma od_get_Counter k l :
  od_get k (Counter l) = if decide (k ∈ l) then Some (occurrences k l) else None.
Proof.
  induction l as [|k' l IH] using rev_ind; [done|].
  rewrite Counter_snoc. unfold counter_add. rewrite !od_get_to_map, od_set_to_map.
  rewrite occurrences_snoc, <- !od_get_to_map.
  destruct (decide (k' = k)) as [->|Hne].
  - rewrite lookup_insert_eq, IH, (decide_True (P := k ∈ l ++ [k])) by set_solver. f_equal.
    case_decide as Hk; simpl; [lia|].
    destruct (occurrences_pos k l) as [_ Hp].
    assert (~ (0 < occurrences k l)%Z) by auto. unfold occurrences in *. lia.
  - rewrite lookup_insert_ne, <- od_get_to_map, IH by done.
    rewrite Z.add_0_r. apply decide_ext. set_solver.
Qed.

Lemma py_sum_values_set k (v : Z) (counts : odict Z) :
  py_sum (od_values (od_set k v counts)) =
  (py_sum (od_values counts) - default 0 (od_get k counts) + v)%Z.
Proof.
  unfold od_values. induction counts as [|[k' v'] counts IH]; csimpl.
  - autorewrite with py. lia.
  - case_decide; csimpl; autorewrite with py; [lia|]. rewrite IH. lia.
Qed.

#[export] Instance occurrences_proper k : Proper ((≡ₚ) ==> eq) (occurrences k).
Proof. intros l1 l2 Hl. unfold occurrences. by rewrite Hl. Qed.

#[export] Instance counter_add_proper :
  Proper (od_equiv ==> eq ==> od_equiv) counter_add.
Proof.
  intros c1 c2 Hc k ? <-. unfold counter_add.
  rewrite (od_get_proper k _ _ Hc). by apply od_set_proper.
Qed.

(** The counts do not depend on the order of the elements. *)
#[export] Instance Counter_proper : Proper ((≡ₚ) ==> od_equiv) Counter.
Proof.
  intros l1 l2 Hl. apply od_equiv_get. intros k. rewrite !od_get_Counter.
  rewrite (occurrences_proper k _ _ Hl). apply decide_ext. by rewrite Hl.
Qed.

(** The counter of [src/main.py]: its keys are the distinct item
    identifiers in the order of their first placement, the count of each
    is the number of placements that name it, and the counts add up to the
    number of placements. *)
Lemma item_counts_spec (used : list UsedJson) :
  od_keys (item_counts used) = first_occurrences (uj_item <$> used) /\
  (forall k, od_get k (item_counts used) =
             if decide (k ∈ uj_item <$> used)
             then Some (occurrences k (uj_item <$> used)) else None) /\
  py_sum (od_values (item_counts used)) = Z.of_nat (length used).
Proof.
  unfold item_counts. split_and!; [apply od_keys_Counter|intros; apply od_get_Counter|].
  rewrite <- (length_fmap uj_item used).
  induction (uj_item <$> used) as [|k l IH] using rev_ind; [done|].
  rewrite Counter_snoc. unfold counter_add.
  rewrite py_sum_values_set, IH, length_app. simpl. lia.
Qed.

(** When no item identifier is placed twice, every count is 1. *)
Lemma item_counts_NoDup (used : list UsedJson) (k : string) :
  NoDup (uj_item <$> used) -> k ∈ uj_item <$> used ->
  od_get k (item_counts used) = Some 1%Z.
Proof.
  intros Hnd Hk. unfold item_counts. rewrite od_get_Counter, decide_True by done.
  f_equal. unfold occurrences.
  apply list_elem_of_split in Hk as (l1 & l2 & Hl). rewrite Hl in *.
  apply NoDup_app in Hnd as (_ & Hl1 & [Hl2 _]%NoDup_cons).
  rewrite filter_app, filter_cons, decide_True by done.
  rewrite !filter_none; [done|..]; apply Forall_forall; intros k' Hk' ->;
    [done|by eapply Hl1; [|left]].
Qed.

Lemma Counter_wf l : od_wf (Counter l).
Proof. unfold od_wf. rewrite od_keys_Counter. apply NoDup_first_occurrences. Qed.

Lemma Counter_nil l : Counter l = [] -> l = [].
Proof.
  intros E. apply (f_equal od_keys) in E. rewrite od_keys_Counter in E.
  destruct l as [|k l]; [done|].
  assert (k ∈ first_occurrences (k :: l)) as Hk by (apply elem_of_first_occurrences; left).
  rewrite E in Hk. by apply elem_of_nil in Hk.
Qed.

(** The items of a counter: every distinct element with the number of
    its occurrences. *)
Lemma Counter_items l :
  Counter l = (fun k => (k, occurrences k l)) <$> first_occurrences l.
Proof.
  apply (list_eq_same_length _ _ (length (Counter l))); [|done|].
  { rewrite length_fmap, <- od_keys_Counter. apply length_fmap. }
  intros i [k n] y _ Hi Hi'.
  apply list_lookup_fmap_Some in Hi' as (k' & -> & Hk).
  assert (od_keys (Counter l) !! i = Some k) as Hk'
    by (unfold od_keys; by rewrite list_lookup_fmap, Hi).
  rewrite od_keys_Counter in Hk'. assert (k = k') as <- by congruence. f_equal.
  assert (od_get k (Counter l) = Some n) as Hget.
  { rewrite od_get_to_map. apply elem_of_list_to_map; [apply Counter_wf|].
    by eapply list_elem_of_lookup_2. }
  rewrite od_get_Counter in Hget. by case_decide; simplify_eq.
Qed.

(** ** What [print(counts)] shows *)

(** The order of [most_common]: a larger count first. *)
Definition count_ge : relation (string * Z) := fun x y => (y.2 <= x.2)%Z.

Lemma count_ge_key_ord x y : key_ord Z.geb snd x y <-> count_ge x y.
Proof. unfold key_ord, count_ge. rewrite Z.geb_leb. apply Z.leb_le. Qed.

Lemma StronglySorted_count_ge l :
  StronglySorted (key_ord Z.geb snd) l <-> StronglySorted count_ge l.
Proof.
  split; induction 1 as [|x l' _ IH Hx]; constructor; try done;
    (eapply Forall_impl; [done|]); intros y; by apply count_ge_key_ord.
Qed.

Lemma od_of_list_most_common counts :
  od_wf counts -> od_of_list (most_common counts) = most_common counts.
Proof.
  intros Hwf. apply od_of_list_wf. unfold most_common. by rewrite sorted_by_Permutation.
Qed.

(** [most_common] is the stable sort by decreasing count, whatever
    algorithm [sorted] runs: a list is the one [most_common] returns
    exactly when its counts never increase and, for every count, it holds
    the items of that count in the order the counter holds them. *)
Lemma most_common_spec (counts l' : odict Z) :
  l' = most_common counts <->
  StronglySorted count_ge l' /\
  (forall n, filter (fun kv => kv.2 = n) l' = filter (fun kv => kv.2 = n) counts).
Proof.
  unfold most_common. rewrite <- StronglySorted_count_ge. split.
  - intros ->. split; [apply (sorted_by_StronglySorted Z.geb snd)|].
    intros n. apply (sorted_by_stable Z.geb snd).
  - intros [Hs Hf]. by apply (sorted_by_unique Z.geb snd).
Qed.

(** C33. What [src/main.py] prints.  A failure to load the file and a
    result without the key ["used"] end the script with the exception;
    without placements the line is [Counter()]; otherwise it shows, in the
    order of [most_common], every placed item identifier once with the
    number of placements that name it. *)
Theorem main_script_cases (load : res ResultJson) :
  main_script load =
  match load with
  | Raise e => Raise e
  | Ok data =>
      match rj_used data with
      | None => Raise (Exn KeyError "'used'")
      | Some [] => Ok ["Counter()"]
      | Some used =>
          Ok ["Counter(" +:+ dict_repr (most_common (item_counts used)) +:+ ")"]
      end
  end /\
  forall data used, load = Ok data -> rj_used data = Some used ->
    most_common (item_counts used) ≡ₚ
      (fun k => (k, occurrences k (uj_item <$> used)))
        <$> first_occurrences (uj_item <$> used).
Proof.
  split.
  - destruct load as [data|e]; [|done]. unfold main_script. simpl.
    destruct (rj_used data) as [[|u used]|]; [done| |done]. simpl.
    unfold Counter_repr, item_counts. rewrite od_of_list_most_common by apply Counter_wf.
    by destruct (Counter _) eqn:E; [apply Counter_nil in E|].
  - intros data used _ _. unfold most_common, item_counts.
    by rewrite sorted_by_Permutation, Counter_items.
Qed.

(** What [src/main2.py] prints: when the solver returns a solution,
    the total waste and then, for every pattern in the order of the
    solution, an empty line, the heading, the waste and the list of cut
    lengths; when the solver raises, nothing. *)
Lemma main2_script_cases `{Solver} :
  main2_script =
  match solve main2_problem with
  | Ok solution =>
      Ok (("Total waste: " +:+ py_str (total_waste solution))
            :: concat ((fun pattern =>
                          [""; "Pattern:"; "  Waste: " +:+ py_str (waste pattern);
                           "  Cuts: [" +:+ String.concat ", "
                                            (py_str ∘ cut_length <$> pattern_cuts pattern)
                                     +:+ "]"]) <$> patterns solution))
  | Raise e => Raise e
  end.
Proof.
  unfold main2_script. destruct (solve main2_problem) as [solution|e]; [|done]. simpl.
  do 2 f_equal. induction (patterns solution) as [|pattern l IH]; [done|].
  rewrite bind_cons, fmap_cons, IH. simpl. unfold list_repr. by rewrite <- list_fmap_compose.
Qed.

(** ** Examples *)

Definition ex_used : list UsedJson :=
  [ mkUsedJson "p1" "a" 0%float 0%float false None None;
    mkUsedJson "p1" "b" 503%float 0%float false None None;
    mkUsedJson "p2" "a" 0%float 0%float true None None ].

Lemma ex_item_counts : item_counts ex_used = [("a", 2%Z); ("b", 1%Z)].
Proof. by vm_compute. Qed.

Lemma item_counts_NoDup_witness :
  od_get "b" (item_counts (take 2 ex_used)) = Some 1%Z.
Proof. apply (item_counts_NoDup (take 2 ex_used) "b"); by_compute. Defined.

(** A stored result in which the item placed first is not the most
    frequent one. *)
Definition ex_stored : ResultJson :=
  {| rj_used := Some (mkUsedJson "p1" "c" 0%float 700%float false None None :: ex_used
                      ++ [mkUsedJson "p2" "b" 0%float 0%float false None None]);
     rj_unused := Some [];
     rj_cuts := None |}.

(** The counter is printed by decreasing count; [b] and [a], both placed
    twice, keep the order of their first placement, [a] before [b]. *)
Lemma ex_main_script :
  main_script (Ok ex_stored) = Ok ["Counter({'a': 2, 'b': 2, 'c': 1})"] /\
  main_script (Ok (mkResultJson (Some []) None None)) = Ok ["Counter()"] /\
  main_script (Ok (mkResultJson None None None)) = Raise (Exn KeyError "'used'") /\
  main_script (Raise (Exn (OtherError "FileNotFoundError") "result.json")) =
    Raise (Exn (OtherError "FileNotFoundError") "result.json").
Proof. by vm_compute. Qed.

(** A solver that cuts the three kinds of part from separate boards. *)
Definition ex_solver : Solver := fun _ =>
  Ok (mkSolution 1160
        [ mkPattern 440 (replicate 4 (mkCut 500));
          mkPattern 340 (replicate 3 (mkCut 700));
          mkPattern 380 (replicate 6 (mkCut 300) ++ [mkCut 260]) ]).

Lemma ex_main2_script :
  main2_script (H := ex_solver) =
  Ok [ "Total waste: 1160";
       ""; "Pattern:"; "  Waste: 440"; "  Cuts: [500, 500, 500, 500]";
       ""; "Pattern:"; "  Waste: 340"; "  Cuts: [700, 700, 700]";
       ""; "Pattern:"; "  Waste: 380"; "  Cuts: [300, 300, 300, 300, 300, 300, 260]" ].
Proof. by vm_compute. Qed.
