(* ===== verification/Scenarios.v ===== *)
(** * Scenarios: the service on concrete requests

    Examples, not properties: the three end-to-end scenarios of the
    specification, and requests at the quantity limit, with panels of
    mixed grain and with a negative quantity, each evaluated with a
    concrete packer: [needy_packer k] places every item on the last sheet
    once it is offered [k] sheets, [never_packer] never finds a plan.
    They show the general theorems at work and exhibit the behaviours
    recorded as findings (the displayed size of a cross-grain item, the
    total of 51 sheets).  The response of [CuttingOptimizer.calculate] is
    obtained by running the bounded loop [calculate_fuel] and transferring
    the result to [calculate_loop]. *)

From Equations Require Import Equations.
From Stdlib Require Import ZArith String List Lia PrimFloat.
From stdpp Require Import base tactics option list strings gmap.
From S2P Require Import Prelude PyDict Model Geometry Expander Assembler Retry Api.

(** Evaluate [calculate] on a closed request with [fuel] rounds and compare
    the two sides. *)
Ltac run_calculate fuel := rewrite_calculate fuel; by vm_compute.

(** What the scenarios observe of a response: the success flag, the error
    and, for every panel, its id and the id, name, width, height and
    engraved line of each placed item. *)
Definition observe (r : CalculationResponse)
  : bool * option string * list (string * list (string * string * float * float * EngravedLine)) :=
  (success r, error r,
   (fun p => (panel_id p,
              (fun u => (item_id u, ui_name u, ui_width u, ui_height u, ui_engraved_line u))
                <$> used_items p)) <$> resp_panels r).

(** ** The scenarios of the specification *)

(** Scenario A: one sheet, one item, same grain. *)
Definition scenario_A : UserParams :=
  mkUserParams 3%float false
    [mkPanelInput "panel" 2440%float 1220%float 1 vertical]
    [mkItemInput "item" 500%float 300%float false 1 vertical line_none default_borders].

(** Scenario B: an item across the grain. *)
Definition scenario_B : UserParams :=
  mkUserParams 3%float false
    [mkPanelInput "panel" 2440%float 1220%float 1 vertical]
    [mkItemInput "item" 500%float 300%float false 1 horizontal line_horizontal default_borders].

(** The three scenarios of the specification, as examples.  A: the response has
    exactly one panel, with one placed item of display width 500 and
    height 300.  B: the unit submitted to the packer has width 300 and
    height 500, and the engraved line of the displayed item is flipped to
    vertical; the displayed width and height are the submitted 300 and
    500, not the declared 500 and 300.  C: when the packer fails with one
    sheet, the second attempt offers two sheets, and its success is
    returned with the time of the second attempt; when the packer never
    finds a plan, the loop stops with 50 sheets, after 50 attempts, and
    the error message names the 50 panels. *)
Example spec_scenarios :
  observe <$> calculate (P := needy_packer 1) scenario_A "greedy" =
    Ok (true, None, [("panel_1", [("item_1", "item", 500%float, 300%float, line_none)])]) /\
  _expand_items (items scenario_B) (mkPanelInput "panel" 2440%float 1220%float 1 vertical) =
    [mkItem "item_1" 300%float 500%float false] /\
  observe <$> calculate (P := needy_packer 1) scenario_B "greedy" =
    Ok (true, None, [("panel_1", [("item_1", "item", 300%float, 500%float, line_vertical)])]) /\
  (fun r => (observe r, calculation_time r))
    <$> calculate (P := needy_packer 2) scenario_A "greedy" =
    Ok ((true, None, [("panel_2", [("item_1", "item", 500%float, 300%float, line_none)])]),
        Some 1%float) /\
  calculate (P := never_packer) scenario_A "greedy" =
    Ok {| success := false; resp_panels := []; cuts := []; summary := ∅;
          error := Some "UnresolvableError: No valid cutting solution found even with 50 panels. Try adjusting item dimensions or using different optimization method.";
          calculation_time := Some 49%float |}.
Proof.
  split_and!; [run_calculate 1|by vm_compute|run_calculate 1|run_calculate 2|run_calculate 50].
Qed.

(** ** Requests at the edges *)

(** Three panel types, one sheet of each. *)
Definition three_types : UserParams :=
  mkUserParams 3%float false
    [mkPanelInput "a" 2440%float 1220%float 1 vertical;
     mkPanelInput "b" 1000%float 500%float 1 vertical;
     mkPanelInput "c" 800%float 600%float 1 horizontal]
    [mkItemInput "item" 500%float 300%float false 1 vertical line_none default_borders].

Definition sixty_sheets : UserParams :=
  mkUserParams 3%float false
    [mkPanelInput "panel" 2440%float 1220%float 60 vertical]
    [mkItemInput "item" 500%float 300%float false 1 vertical line_none default_borders].

(** A vertical and a horizontal panel type, and one horizontal item with a
    horizontal engraved line. *)
Definition mixed_grain : UserParams :=
  mkUserParams 3%float false
    [mkPanelInput "oak" 2440%float 1220%float 1 vertical;
     mkPanelInput "pine" 2000%float 1000%float 1 horizontal]
    [mkItemInput "item" 500%float 300%float false 1 horizontal line_horizontal default_borders].

Definition negative_quantity : UserParams :=
  mkUserParams 3%float false
    [mkPanelInput "oak" 2440%float 1220%float (-1) vertical;
     mkPanelInput "pine" 2000%float 1000%float 2 vertical]
    [mkItemInput "item" 500%float 300%float false 1 vertical line_none default_borders].

(** Four requests the specification does not settle, as examples.  With three
    panel types the total goes 3, 6, ..., 48, 51: the loop gives up at 51
    sheets, above the limit of 50, after 17 attempts.  A request that asks
    for more than 50 sheets is attempted as it is, once, and a failure
    names its own total.  The grain of every item is compared with the
    grain of the first panel type, also for an item placed on a sheet of
    another type: the horizontal item placed on the horizontal sheet
    [pine_1] is submitted as 300 by 500 and displayed with its engraved
    line flipped, because the first panel type is vertical.  A negative
    quantity expands to no sheet but is subtracted from the total: two
    sheets are offered to the packer and the total the retry test reads
    is 1. *)
Example edge_requests :
  (fun r => (error r, calculation_time r))
    <$> calculate (P := never_packer) three_types "forward_greedy" =
    Ok (Some "UnresolvableError: No valid cutting solution found even with 51 panels. Try adjusting item dimensions or using different optimization method.",
        Some 16%float) /\
  (fun r => (error r, calculation_time r))
    <$> calculate (P := never_packer) sixty_sheets "greedy" =
    Ok (Some "UnresolvableError: No valid cutting solution found even with 60 panels. Try adjusting item dimensions or using different optimization method.",
        Some 0%float) /\
  _expand_items (items mixed_grain) (mkPanelInput "oak" 2440%float 1220%float 1 vertical) =
    [mkItem "item_1" 300%float 500%float false] /\
  observe <$> calculate (P := needy_packer 1) mixed_grain "greedy" =
    Ok (true, None, [("pine_1", [("item_1", "item", 300%float, 500%float, line_vertical)])]) /\
  panel_uid <$> _expand_panels (panels negative_quantity) = ["pine_1"; "pine_2"] /\
  _get_total_panel_quantity negative_quantity = 1%Z.
Proof.
  split_and!;
    [run_calculate 17|run_calculate 1|by vm_compute|run_calculate 1|by vm_compute..].
Qed.
